(** * A-LOG: structured logging for agent observability

    A shallow embedding of the instrumentation and event-correlation core
    of the A-LOG package:

    - [alog/auto.py]   : the reasoning extractor, [instrument_agent] and
                         the logging wrapper placed around agent methods;
    - [alog/core.py]   : the [ALogger] class (envelopes, sinks, trace ids);
    - [alog/otel_exporter.py] : the bridge that turns events into spans.

    Python strings are sequences of characters; a character is modelled by
    Rocq's [ascii] (the code points U+0000 .. U+00FF).  Python values are
    the inductive type [pyval]; dictionaries keep their insertion order and
    are association lists.  Effects (files, console, clock, uuid4, spans)
    are explicit in a [World] that every operation threads through. *)

From Stdlib Require Import List String Ascii ZArith Bool Arith Lia.
From Stdlib Require Import DecimalString Permutation.
Import ListNotations.

Set Implicit Arguments.
Set Warnings "-register-all".

(** [length] is the length of a list throughout. *)
#[local] Abbreviation length := Datatypes.length.

(* ================================================================== *)
(** * Python strings *)
(* ================================================================== *)

Definition pystr := list ascii.

(** A literal of the source. *)
Definition py (s : string) : pystr := list_ascii_of_string s.

Definition ascii_eqb (a b : ascii) : bool := Ascii.eqb a b.

Fixpoint pystr_eqb (a b : pystr) : bool :=
  match a, b with
  | [], [] => true
  | x :: a', y :: b' => ascii_eqb x y && pystr_eqb a' b'
  | _, _ => false
  end.

(** [str.isspace] on one character, for the code points below 256:
    TAB, LF, VT, FF, CR, FS, GS, RS, US, SPACE, NEL and NBSP. *)
Definition py_isspace (c : ascii) : bool :=
  let n := nat_of_ascii c in
  ((9 <=? n) && (n <=? 13)) || ((28 <=? n) && (n <=? 32))
  || (n =? 133) || (n =? 160).

(** [str.lstrip()], [str.rstrip()] and [str.strip()] without argument. *)
Fixpoint lstrip (s : pystr) : pystr :=
  match s with
  | [] => []
  | c :: t => if py_isspace c then lstrip t else s
  end.

Definition rstrip (s : pystr) : pystr := rev (lstrip (rev s)).

Definition strip (s : pystr) : pystr := rstrip (lstrip s).

(** [s.startswith(lit)]. *)
Fixpoint starts_with (lit s : pystr) : bool :=
  match lit, s with
  | [], _ => true
  | _ :: _, [] => false
  | a :: lit', b :: s' => ascii_eqb a b && starts_with lit' s'
  end.

(** Slices [s[:n]] and [s[n:]] for a non-negative [n]. *)
Definition slice_to (n : nat) (s : pystr) : pystr := firstn n s.
Definition slice_from (n : nat) (s : pystr) : pystr := skipn n s.

(* ================================================================== *)
(** * Python values *)
(* ================================================================== *)

(** A float is not interpreted: it is identified by an integer code, and
    the difference of two clock readings is the difference of the codes. *)
Definition pyfloat := Z.

Inductive pyval : Type :=
| VNone
| VBool (b : bool)
| VInt (z : Z)
| VFloat (f : pyfloat)
| VStr (s : pystr)
| VList (l : list pyval)
| VTuple (l : list pyval)
| VDict (d : list (pystr * pyval))
| VObj (cls : pystr) (truthy : bool).

(** [type(v).__name__] *)
Definition type_name (v : pyval) : pystr :=
  match v with
  | VNone => py "NoneType"
  | VBool _ => py "bool"
  | VInt _ => py "int"
  | VFloat _ => py "float"
  | VStr _ => py "str"
  | VList _ => py "list"
  | VTuple _ => py "tuple"
  | VDict _ => py "dict"
  | VObj cls _ => cls
  end.

(** Truth value of a value used as a condition. *)
Definition truthy (v : pyval) : bool :=
  match v with
  | VNone => false
  | VBool b => b
  | VInt z => negb (Z.eqb z 0)
  | VFloat f => negb (Z.eqb f 0)
  | VStr s => match s with [] => false | _ => true end
  | VList l | VTuple l => match l with [] => false | _ => true end
  | VDict d => match d with [] => false | _ => true end
  | VObj _ t => t
  end.

(** [d.get(k)] on an insertion-ordered dictionary. *)
Fixpoint assoc_get (A : Type) (k : pystr) (d : list (pystr * A)) : option A :=
  match d with
  | [] => None
  | (k', v) :: d' => if pystr_eqb k k' then Some v else assoc_get k d'
  end.

Definition dict_get (k : pystr) (v : pyval) : option pyval :=
  match v with
  | VDict d => assoc_get k d
  | _ => None
  end.

(** Exceptions: the class name, [str(e)], and whether the class derives
    from [Exception] (it does not for [KeyboardInterrupt], [SystemExit]
    and [GeneratorExit], which derive from [BaseException] only). *)
Record exc : Type := mkExc {
  exc_type : pystr;
  exc_msg : pystr;
  exc_is_Exception : bool
}.

Inductive outcome (A : Type) : Type :=
| Ok (a : A)
| Raise (e : exc).
Arguments Ok {A} a.
Arguments Raise {A} e.

(* ================================================================== *)
(** * auto.py: the reasoning extractor *)
(* ================================================================== *)

Definition TRACE_START : pystr := py "===REASONING_TRACE_START===".
Definition TRACE_END : pystr := py "===REASONING_TRACE_END===".
Arguments TRACE_START : simpl never.
Arguments TRACE_END : simpl never.

(** The match object of [re]: [m.start()], [m.end()] and [m.group(1)]. *)
Record re_match : Type := mkMatch {
  m_start : nat;
  m_end : nat;
  m_group1 : pystr
}.

(** The lazy group [(.*?)] followed by the literal [lit], tried at the
    head of [s]: the group is first tried empty and grows by one character
    (any character, the pattern is compiled with DOTALL) each time the
    literal does not follow.  Returns the group and the number of
    characters consumed, literal included. *)
Fixpoint lazy_dot_then (lit s : pystr) : option (pystr * nat) :=
  if starts_with lit s then Some ([], length lit)
  else match s with
       | [] => None
       | c :: s' =>
           match lazy_dot_then lit s' with
           | Some (g, n) => Some (c :: g, S n)
           | None => None
           end
       end.

(** The whole pattern [START(.*?)END] tried at the head of [s]. *)
Definition match_here (s : pystr) : option (pystr * nat) :=
  if starts_with TRACE_START s then
    match lazy_dot_then TRACE_END (skipn (length TRACE_START) s) with
    | Some (g, n) => Some (g, length TRACE_START + n)
    | None => None
    end
  else None.

(** [pattern.search]: the leftmost position at which the pattern matches;
    [pos] is the offset of [s] in the subject string. *)
Fixpoint search_from (pos : nat) (s : pystr) : option re_match :=
  match match_here s with
  | Some (g, n) => Some (mkMatch pos (pos + n) g)
  | None =>
      match s with
      | [] => None
      | _ :: s' => search_from (S pos) s'
      end
  end.

Definition pattern_search (s : pystr) : option re_match := search_from 0 s.

Definition _extract_reasoning_trace (output : pyval) : pyval * option pystr :=
  match output with
  | VStr s =>
      match pattern_search s with
      | None => (VStr (strip s), None)
      | Some m =>
          let reasoning := strip (m_group1 m) in
          let main_output :=
            strip (slice_to (m_start m) s ++ slice_from (m_end m) s) in
          (VStr main_output, Some reasoning)
      end
  | _ => (output, None)
  end.

(* ================================================================== *)
(** * The Python runtime and the world outside the process *)
(* ================================================================== *)

(** Built-ins of Python that the package calls on arbitrary values:
    [str(v)] and [repr(v)], which return a string or raise, the text that
    [json.dumps] writes for a JSON document, and the exception that the
    truth test of an object raises from its [__bool__] or [__len__], if
    it raises one (the truth value of a DataFrame or of a numpy array with
    several elements is a [ValueError]).  They are not code of the
    package and stay abstract. *)
Class PyBuiltins : Type := {
  py_str : pyval -> outcome pystr;
  py_repr : pyval -> outcome pystr;
  json_text : pyval -> pystr;
  bool_raises : pyval -> option exc
}.

(** [bool(v)] where the source tests a value of any class: the truth
    value, unless [v] is an object whose truth test raises. *)
Definition bool_of `{PyBuiltins} (v : pyval) : outcome bool :=
  match v with
  | VObj _ _ =>
      match bool_raises v with
      | Some e => Raise e
      | None => Ok (truthy v)
      end
  | _ => Ok (truthy v)
  end.

(** [str(v)] where the source applies it to a value that may already be a
    string, and the conversion done by an f-string field. *)
Definition str_of `{PyBuiltins} (v : pyval) : outcome pystr :=
  match v with
  | VStr s => Ok s
  | _ => py_str v
  end.

(** Decimal rendering of a length. *)
Definition str_of_nat (n : nat) : pystr :=
  py (NilZero.string_of_uint (Nat.to_uint n)).

(** The document that [json.loads] gives back for the line that
    [json.dumps] wrote: tuples come back as lists, and a value of another
    class makes [json.dumps] raise [TypeError]. *)
Fixpoint to_json (v : pyval) : outcome pyval :=
  match v with
  | VNone | VBool _ | VInt _ | VFloat _ | VStr _ => Ok v
  | VList l | VTuple l =>
      let fix items (l : list pyval) : outcome (list pyval) :=
        match l with
        | [] => Ok []
        | x :: r =>
            match to_json x with
            | Raise e => Raise e
            | Ok x' =>
                match items r with
                | Raise e => Raise e
                | Ok r' => Ok (x' :: r')
                end
            end
        end in
      match items l with
      | Ok l' => Ok (VList l')
      | Raise e => Raise e
      end
  | VDict d =>
      let fix fields (d : list (pystr * pyval)) : outcome (list (pystr * pyval)) :=
        match d with
        | [] => Ok []
        | (k, x) :: r =>
            match to_json x with
            | Raise e => Raise e
            | Ok x' =>
                match fields r with
                | Raise e => Raise e
                | Ok r' => Ok ((k, x') :: r')
                end
            end
        end in
      match fields d with
      | Ok d' => Ok (VDict d')
      | Raise e => Raise e
      end
  | VObj cls _ =>
      Raise (mkExc (py "TypeError")
               (py "Object of type " ++ cls ++ py " is not JSON serializable")
               true)
  end.

(** Levels of the [logging] module. *)
Inductive log_level : Type := DEBUG | INFO | WARNING | ERROR | CRITICAL.

(** A span handed to the tracing backend: its name and the calls of
    [set_attribute] made on it, in order. *)
Record span : Type := mkSpan {
  span_name : pystr;
  span_attrs : list (pystr * pyval)
}.

(** The world: the files (a JSONL file is the list of the documents of its
    lines; [None] when the path does not exist), the calls made on the
    console logger, the spans ended, and what the environment answers:
    the n-th [uuid4()], the n-th clock reading (as [time.time()] and as an
    ISO timestamp), whether the n-th opening of a file fails with an
    [OSError], and whether the n-th call of the tracer fails. *)
Record World : Type := mkWorld {
  files : pystr -> option (list pyval);
  console : list (log_level * pystr);
  spans : list span;
  uuid_src : nat -> pystr;
  uuid_ctr : nat;
  time_src : nat -> pyfloat;
  iso_src : nat -> pystr;
  clock_ctr : nat;
  io_fault : nat -> option pystr;
  io_ctr : nat;
  tracer_fault : nat -> option exc;
  tracer_ctr : nat;
  otel_installed : bool
}.

Definition set_files (f : pystr -> option (list pyval)) (w : World) : World :=
  mkWorld f (console w) (spans w) (uuid_src w) (uuid_ctr w) (time_src w)
    (iso_src w) (clock_ctr w) (io_fault w) (io_ctr w) (tracer_fault w)
    (tracer_ctr w) (otel_installed w).

Definition log_console (lvl : log_level) (msg : pystr) (w : World) : World :=
  mkWorld (files w) (console w ++ [(lvl, msg)]) (spans w) (uuid_src w)
    (uuid_ctr w) (time_src w) (iso_src w) (clock_ctr w) (io_fault w)
    (io_ctr w) (tracer_fault w) (tracer_ctr w) (otel_installed w).

Definition end_span (s : span) (w : World) : World :=
  mkWorld (files w) (console w) (spans w ++ [s]) (uuid_src w) (uuid_ctr w)
    (time_src w) (iso_src w) (clock_ctr w) (io_fault w) (io_ctr w)
    (tracer_fault w) (tracer_ctr w) (otel_installed w).

(** [str(uuid.uuid4())] *)
Definition uuid4 (w : World) : pystr * World :=
  (uuid_src w (uuid_ctr w),
   mkWorld (files w) (console w) (spans w) (uuid_src w) (S (uuid_ctr w))
     (time_src w) (iso_src w) (clock_ctr w) (io_fault w) (io_ctr w)
     (tracer_fault w) (tracer_ctr w) (otel_installed w)).

Definition tick (w : World) : World :=
  mkWorld (files w) (console w) (spans w) (uuid_src w) (uuid_ctr w)
    (time_src w) (iso_src w) (S (clock_ctr w)) (io_fault w) (io_ctr w)
    (tracer_fault w) (tracer_ctr w) (otel_installed w).

(** [time.time()] *)
Definition time_time (w : World) : pyfloat * World :=
  (time_src w (clock_ctr w), tick w).

(** [datetime.now(timezone.utc).isoformat()] *)
Definition now_isoformat (w : World) : pystr * World :=
  (iso_src w (clock_ctr w), tick w).

(** [open(path, mode)]: the answer of the environment. *)
Definition open_file (w : World) : option pystr * World :=
  (io_fault w (io_ctr w),
   mkWorld (files w) (console w) (spans w) (uuid_src w) (uuid_ctr w)
     (time_src w) (iso_src w) (clock_ctr w) (io_fault w) (S (io_ctr w))
     (tracer_fault w) (tracer_ctr w) (otel_installed w)).

Definition start_span (w : World) : option exc * World :=
  (tracer_fault w (tracer_ctr w),
   mkWorld (files w) (console w) (spans w) (uuid_src w) (uuid_ctr w)
     (time_src w) (iso_src w) (clock_ctr w) (io_fault w) (io_ctr w)
     (tracer_fault w) (S (tracer_ctr w)) (otel_installed w)).

Definition file_update (path : pystr) (docs : list pyval)
    (f : pystr -> option (list pyval)) : pystr -> option (list pyval) :=
  fun p => if pystr_eqb p path then Some docs else f p.

(** [os.path.join(d, name)] for a relative [name]. *)
Definition path_join (d name : pystr) : pystr :=
  match rev d with
  | [] => name
  | c :: _ => if ascii_eqb c "/"%char then d ++ name else d ++ py "/" ++ name
  end.

(** [json.dumps(v)] as a string: it raises exactly when [v] has no JSON
    document. *)
Definition json_dumps `{PyBuiltins} (v : pyval) : outcome pystr :=
  match to_json v with
  | Ok doc => Ok (json_text doc)
  | Raise e => Raise e
  end.

(* ================================================================== *)
(** * otel_exporter.py *)
(* ================================================================== *)

Module OTelExporter.

(** [self.tracer] is [None] ([false]) when the OpenTelemetry packages
    could not be imported. *)
Record t : Type := mk { tracer : bool }.

Definition __init__ (w : World) : t := mk (otel_installed w).

(** The body of the [try] of the loop of [emit_span]: the value given to
    [set_attribute] for a payload value that is not [None]. *)
Definition first_choice `{PyBuiltins} (value : pyval) : outcome pyval :=
  match value with
  | VStr _ | VInt _ | VFloat _ | VBool _ => Ok value
  | VList _ | VTuple _ =>
      match py_str value with Ok s => Ok (VStr s) | Raise e => Raise e end
  | VDict _ =>
      match json_dumps value with Ok s => Ok (VStr s) | Raise e => Raise e end
  | _ =>
      match py_str value with Ok s => Ok (VStr s) | Raise e => Raise e end
  end.

Definition error_marker (value : pyval) : pystr :=
  py "<error serializing value: " ++ type_name value ++ py ">".

(** The [try] with its two handlers.  [except Exception] lets an
    exception that is not an [Exception] through. *)
Definition attribute_value `{PyBuiltins} (value : pyval) : outcome pyval :=
  match first_choice value with
  | Ok a => Ok a
  | Raise e =>
      if exc_is_Exception e then
        match py_repr value with
        | Ok s => Ok (VStr s)
        | Raise e' =>
            if exc_is_Exception e' then Ok (VStr (error_marker value))
            else Raise e'
        end
      else Raise e
  end.

(** The loop over [event.items()]; [attrs] are the attributes set so far. *)
Fixpoint set_event_attributes `{PyBuiltins} (items : list (pystr * pyval))
    (attrs : list (pystr * pyval)) : list (pystr * pyval) * outcome unit :=
  match items with
  | [] => (attrs, Ok tt)
  | (key, value) :: rest =>
      match value with
      | VNone => set_event_attributes rest attrs
      | _ =>
          match attribute_value value with
          | Ok a => set_event_attributes rest (attrs ++ [(key, a)])
          | Raise e => (attrs, Raise e)
          end
      end
  end.

Definition emit_span `{PyBuiltins} (self : t) (surface agent : pystr)
    (event : list (pystr * pyval)) (w : World) : World * outcome unit :=
  if negb (tracer self) then (w, Ok tt)
  else
    let span_name := agent ++ py "." ++ surface in
    match start_span w with
    | (Some e, w1) => (w1, Raise e)
    | (None, w1) =>
        let attrs0 := [(py "surface", VStr surface); (py "agent", VStr agent)] in
        let (attrs, r) := set_event_attributes event attrs0 in
        (end_span (mkSpan span_name attrs) w1, r)
    end.

End OTelExporter.

(* ================================================================== *)
(** * core.py: class ALogger *)
(* ================================================================== *)

Module ALogger.

(** The attributes of an [ALogger] that its methods read or write.  The
    console handler and its level only decide what the console prints;
    the world keeps every call made on [console_logger].
    [contextual_file] is [None] or a path; [os.path.join] leaves no path
    empty, so the truth value that the methods test is whether it is a
    path. *)
Record t : Type := mk {
  output_dir : pystr;
  save_contextual_to_file : bool;
  operational_file : pystr;
  cognitive_file : pystr;
  contextual_file : option pystr;
  current_trace_id : option pystr;
  current_span_id : option pystr;
  enable_otel : bool;
  otel : option OTelExporter.t
}.

Definition __init__ (output_dir : pystr) (enable_otel : bool)
    (save_contextual_to_file : bool) (w : World) : t :=
  mk output_dir save_contextual_to_file
    (path_join output_dir (py "operational.jsonl"))
    (path_join output_dir (py "cognitive.jsonl"))
    (if save_contextual_to_file
     then Some (path_join output_dir (py "contextual.jsonl")) else None)
    None None enable_otel
    (if enable_otel then Some (OTelExporter.__init__ w) else None).

Definition set_current_trace_id (tid : option pystr) (self : t) : t :=
  mk (output_dir self) (save_contextual_to_file self) (operational_file self)
    (cognitive_file self) (contextual_file self) tid (current_span_id self)
    (enable_otel self) (otel self).

Definition existing_docs (w : World) (filepath : pystr) : list pyval :=
  match files w filepath with
  | Some docs => docs
  | None => []
  end.

(** [open(filepath, 'a')] creates the file; a failure of the opening
    leaves the files as they are; a failure of [json.dumps] comes after
    the opening.  Both are caught by [except Exception]. *)
Definition _write_to_file (filepath : pystr) (log_entry : pyval) (w : World)
    : World :=
  match open_file w with
  | (Some msg, w1) =>
      log_console ERROR
        (py "Failed to write to " ++ filepath ++ py ": " ++ msg) w1
  | (None, w1) =>
      match to_json log_entry with
      | Raise e =>
          log_console ERROR
            (py "Failed to write to " ++ filepath ++ py ": " ++ exc_msg e)
            (set_files
               (file_update filepath (existing_docs w1 filepath) (files w1))
               w1)
      | Ok doc =>
          set_files
            (file_update filepath (existing_docs w1 filepath ++ [doc])
               (files w1))
            w1
      end
  end.

Definition _read_file (filepath : pystr) (w : World) : list pyval * World :=
  match files w filepath with
  | None => ([], w)
  | Some docs =>
      match open_file w with
      | (Some msg, w1) =>
          ([], log_console ERROR
                 (py "Failed to read " ++ filepath ++ py ": " ++ msg) w1)
      | (None, w1) => (docs, w1)
      end
  end.

(** The envelope built by [record]. *)
Definition envelope (id timestamp agent surface level trace_id span_id : pystr)
    (event : list (pystr * pyval)) : pyval :=
  VDict [ (py "id", VStr id);
          (py "timestamp", VStr timestamp);
          (py "agent", VStr agent);
          (py "surface", VStr surface);
          (py "level", VStr level);
          (py "trace_id", VStr trace_id);
          (py "span_id", VStr span_id);
          (py "event", VDict event) ].

(** [event.get(k, default)] *)
Definition event_get (k : pystr) (default : pyval)
    (event : list (pystr * pyval)) : pyval :=
  match assoc_get k event with
  | Some v => v
  | None => default
  end.

(** [event.get('status') in ['start', 'complete', 'error']] *)
Definition status_is_lifecycle (event : list (pystr * pyval)) : bool :=
  match assoc_get (py "status") event with
  | Some (VStr s) =>
      pystr_eqb s (py "start") || pystr_eqb s (py "complete")
      || pystr_eqb s (py "error")
  | _ => false
  end.

(** The sink chosen for a surface: [None] when nothing is written. *)
Definition sink_of (self : t) (surface : pystr) : option pystr :=
  if pystr_eqb surface (py "operational") then Some (operational_file self)
  else if pystr_eqb surface (py "cognitive") then Some (cognitive_file self)
  else if pystr_eqb surface (py "contextual") then contextual_file self
  else Some (operational_file self).

(** [record], block "Generate IDs if not provided": the trace id and
    the span id of the envelope, and the logger with the retained id. *)
Definition generate_ids (self : t) (trace_id span_id : option pystr)
    (w : World) : (pystr * pystr) * (t * World) :=
  let '(trace_id, self, w) :=
    match trace_id with
    | Some tid => (tid, self, w)
    | None =>
        (* self.current_trace_id or str(uuid.uuid4()) *)
        let (tid, w') :=
          match current_trace_id self with
          | Some (c :: cs) => (c :: cs, w)
          | _ => uuid4 w
          end in
        (tid, set_current_trace_id (Some tid) self, w')
    end in
  let (span_id, w) :=
    match span_id with
    | Some sid => (sid, w)
    | None => uuid4 w
    end in
  ((trace_id, span_id), (self, w)).

(** Block "Create the envelope structure". *)
Definition create_envelope (agent surface level trace_id span_id : pystr)
    (event : list (pystr * pyval)) (w : World) : pyval * World :=
  let (id, w) := uuid4 w in
  let (timestamp, w) := now_isoformat w in
  (envelope id timestamp agent surface level trace_id span_id event, w).

(** Block "Write to appropriate file". *)
Definition write_to_sink (self : t) (surface : pystr) (log_entry : pyval)
    (w : World) : World :=
  match sink_of self surface with
  | Some filepath => _write_to_file filepath log_entry w
  | None => w
  end.

(** Block "Export to OpenTelemetry if enabled". *)
Definition export_to_otel `{PyBuiltins} (self : t) (surface agent : pystr)
    (event : list (pystr * pyval)) (w : World) : World * outcome unit :=
  match (if enable_otel self then otel self else None) with
  | Some exporter =>
      match OTelExporter.emit_span exporter surface agent event w with
      | (w', Ok _) => (w', Ok tt)
      | (w', Raise e) =>
          if exc_is_Exception e then
            (log_console WARNING
               (py "[OTEL] Failed to emit span: " ++ exc_msg e) w', Ok tt)
          else (w', Raise e)
      end
  | None => (w, Ok tt)
  end.

(** Block "Console logging for important events". *)
Definition console_logging `{PyBuiltins} (surface agent : pystr)
    (event : list (pystr * pyval)) (w : World) : World * outcome unit :=
  if pystr_eqb surface (py "operational") && status_is_lifecycle event
  then
    match str_of (event_get (py "method") (VStr (py "unknown")) event) with
    | Raise e => (w, Raise e)
    | Ok method =>
        match str_of (event_get (py "status") (VStr (py "unknown")) event) with
        | Raise e => (w, Raise e)
        | Ok status =>
            (log_console INFO
               (agent ++ py "." ++ method ++ py " - " ++ status) w, Ok tt)
        end
    end
  else (w, Ok tt).

Definition record `{PyBuiltins} (self : t) (surface agent : pystr)
    (event : list (pystr * pyval)) (level : pystr)
    (trace_id span_id : option pystr) (w : World)
    : (t * World) * outcome unit :=
  let '((trace_id, span_id), (self, w)) :=
    generate_ids self trace_id span_id w in
  let (log_entry, w) :=
    create_envelope agent surface level trace_id span_id event w in
  let w := write_to_sink self surface log_entry w in
  match export_to_otel self surface agent event w with
  | (w, Raise e) => ((self, w), Raise e)
  | (w, Ok _) =>
      let (w, r) := console_logging surface agent event w in
      ((self, w), r)
  end.

(** The envelope that a call of [record] builds. *)
Definition record_entry (self : t) (surface agent : pystr)
    (event : list (pystr * pyval)) (level : pystr)
    (trace_id span_id : option pystr) (w : World) : pyval :=
  let '((trace_id, span_id), (_, w)) :=
    generate_ids self trace_id span_id w in
  fst (create_envelope agent surface level trace_id span_id event w).

(** [metadata or {}] *)
Definition or_empty_dict (metadata : pyval) : pyval :=
  if truthy metadata then metadata else VDict [].

Definition record_operational `{PyBuiltins} (self : t) (agent method status : pystr)
    (duration_sec tool_name tool_parameters result_summary error
     token_usage latency_ms caller metadata : pyval)
    (level : pystr) (trace_id span_id : option pystr) (w : World)
    : (t * World) * outcome unit :=
  let event :=
    [ (py "method", VStr method);
      (py "status", VStr status);
      (py "duration_sec", duration_sec);
      (py "tool_name", tool_name);
      (py "tool_parameters", tool_parameters);
      (py "result_summary", result_summary);
      (py "error", error);
      (py "token_usage", token_usage);
      (py "latency_ms", latency_ms);
      (py "caller", caller);
      (py "metadata", or_empty_dict metadata) ] in
  record self (py "operational") agent event level trace_id span_id w.

(** Truncation of very long reasoning traces. *)
Definition truncate_thought (thought : option pystr) : option pystr :=
  match thought with
  | Some (c :: cs) =>
      if 2000 <? length (c :: cs)
      then Some (slice_to 2000 (c :: cs) ++ py "...")
      else thought
  | _ => thought
  end.

Definition opt_str (s : option pystr) : pyval :=
  match s with
  | Some x => VStr x
  | None => VNone
  end.

Definition record_cognitive `{PyBuiltins} (self : t) (agent : pystr)
    (thought : option pystr)
    (reasoning_step plan reflection confidence : pyval)
    (goal model : option pystr)
    (token_count prompt_excerpt completion_excerpt : pyval)
    (level : pystr) (trace_id span_id : option pystr) (w : World)
    : (t * World) * outcome unit :=
  let thought := truncate_thought thought in
  let event :=
    [ (py "reasoning_step", reasoning_step);
      (py "thought", opt_str thought);
      (py "plan", plan);
      (py "reflection", reflection);
      (py "confidence", confidence);
      (py "goal", opt_str goal);
      (py "model", opt_str model);
      (py "token_count", token_count);
      (py "prompt_excerpt", prompt_excerpt);
      (py "completion_excerpt", completion_excerpt) ] in
  record self (py "cognitive") agent event level trace_id span_id w.

Definition record_contextual `{PyBuiltins} (self : t) (agent operation : pystr)
    (source_type source_name query retrieved_count retrieved_items
     provenance cache_hit write_value memory_state_hash metadata : pyval)
    (level : pystr) (trace_id span_id : option pystr) (w : World)
    : (t * World) * outcome unit :=
  let event :=
    [ (py "operation", VStr operation);
      (py "source_type", source_type);
      (py "source_name", source_name);
      (py "query", query);
      (py "retrieved_count", retrieved_count);
      (py "retrieved_items", retrieved_items);
      (py "provenance", provenance);
      (py "cache_hit", cache_hit);
      (py "write_value", write_value);
      (py "memory_state_hash", memory_state_hash);
      (py "metadata", or_empty_dict metadata) ] in
  record self (py "contextual") agent event level trace_id span_id w.

(** [surface is None or surface == name] *)
Definition wants (surface : option pystr) (name : pystr) : bool :=
  match surface with
  | None => true
  | Some s => pystr_eqb s name
  end.

Definition get_logs (self : t) (surface : option pystr) (w : World)
    : list pyval * World :=
  let logs := [] in
  let (logs, w) :=
    if wants surface (py "operational")
    then let (l, w') := _read_file (operational_file self) w in (logs ++ l, w')
    else (logs, w) in
  let (logs, w) :=
    if wants surface (py "cognitive")
    then let (l, w') := _read_file (cognitive_file self) w in (logs ++ l, w')
    else (logs, w) in
  let (logs, w) :=
    match (if wants surface (py "contextual") then contextual_file self else None) with
    | Some filepath =>
        let (l, w') := _read_file filepath w in (logs ++ l, w')
    | None => (logs, w)
    end in
  (logs, w).

(** [os.remove(filepath)]: the environment answers a removal from the same
    sequence of answers as an opening; a failure leaves the file. *)
Definition os_remove (filepath : pystr) (w : World) : option pystr * World :=
  match open_file w with
  | (Some msg, w1) => (Some msg, w1)
  | (None, w1) =>
      (None,
       set_files
         (fun p => if pystr_eqb p filepath then None else files w1 p) w1)
  end.

(** One turn of the loop of [clear_logs]. *)
Definition clear_file (w : World) (filepath : pystr) : World :=
  match files w filepath with
  | None => w
  | Some _ =>
      match os_remove filepath w with
      | (Some msg, w1) =>
          log_console ERROR
            (py "Failed to remove " ++ filepath ++ py ": " ++ msg) w1
      | (None, w1) => w1
      end
  end.

Definition files_to_clear (self : t) : list pystr :=
  [operational_file self; cognitive_file self]
  ++ match contextual_file self with
     | Some p => [p]
     | None => []
     end.

Definition clear_logs (self : t) (w : World) : World :=
  fold_left clear_file (files_to_clear self) w.

(** [d[k] = v] on an insertion-ordered dictionary. *)
Fixpoint dict_set (k : pystr) (v : pyval) (d : list (pystr * pyval))
    : list (pystr * pyval) :=
  match d with
  | [] => [(k, v)]
  | (k', v') :: d' =>
      if pystr_eqb k k' then (k', v) :: d' else (k', v') :: dict_set k v d'
  end.

Definition py_len (l : list pyval) : Z := Z.of_nat (length l).

Definition get_stats (self : t) (w : World) : list (pystr * pyval) * World :=
  let (operational_logs, w) := _read_file (operational_file self) w in
  let (cognitive_logs, w) := _read_file (cognitive_file self) w in
  let (contextual_logs, w) :=
    match contextual_file self with
    | Some p => _read_file p w
    | None => ([], w)
    end in
  let total := (py_len operational_logs + py_len cognitive_logs)%Z in
  let stats :=
    [ (py "operational_events", VInt (py_len operational_logs));
      (py "cognitive_events", VInt (py_len cognitive_logs));
      (py "total_events", VInt total) ] in
  let stats :=
    match contextual_file self with
    | Some _ =>
        dict_set (py "total_events") (VInt (total + py_len contextual_logs)%Z)
          (dict_set (py "contextual_events") (VInt (py_len contextual_logs))
             stats)
    | None => stats
    end in
  (stats, w).

End ALogger.

(* ================================================================== *)
(** * auto.py: instrument_agent and the logging wrapper *)
(* ================================================================== *)

(** A callable attribute of an agent: a method of the agent's own code,
    named by a code pointer, or the closure [logged_wrapper] that
    [_create_logged_wrapper] builds around a callable. *)
Inductive callable : Type :=
| Native (code : nat)
| LoggedWrapper (original_method : callable) (agent_name method_name : pystr).

Inductive attr : Type :=
| AttrData (v : pyval)
| AttrCallable (c : callable).

(** An object: its attributes in the order of [dir(obj)]. *)
Definition pyobject := list (pystr * attr).

(** The state of the process: the world, the module global
    [_global_logger], the objects by reference, and what was printed. *)
Record State : Type := mkState {
  world : World;
  _global_logger : option ALogger.t;
  heap : nat -> pyobject;
  stdout : list pystr
}.

(** The code of the agents: what the method behind a code pointer does
    when called with positional and keyword arguments. *)
Class AgentCode : Type := {
  native : nat -> list pyval -> list (pystr * pyval) -> State
           -> State * outcome pyval
}.

Definition set_world (w : World) (st : State) : State :=
  mkState w (_global_logger st) (heap st) (stdout st).

Definition print (line : pystr) (st : State) : State :=
  mkState (world st) (_global_logger st) (heap st) (stdout st ++ [line]).

Definition heap_set (r : nat) (o : pyobject) (st : State) : State :=
  mkState (world st) (_global_logger st)
    (fun r' => if Nat.eqb r' r then o else heap st r') (stdout st).

(** [getattr(obj, name)] / [hasattr(obj, name)] *)
Definition getattr (o : pyobject) (name : pystr) : option attr :=
  assoc_get name o.

(** [callable(getattr(obj, name))] for a name that may be absent. *)
Definition has_callable (o : pyobject) (name : pystr) : bool :=
  match getattr o name with
  | Some (AttrCallable _) => true
  | _ => false
  end.

(** [setattr(obj, name, value)] *)
Fixpoint setattr (o : pyobject) (name : pystr) (a : attr) : pyobject :=
  match o with
  | [] => [(name, a)]
  | (k, v) :: o' =>
      if pystr_eqb name k then (k, a) :: o' else (k, v) :: setattr o' name a
  end.

(** The [AttributeError] of a method looked up on [None]. *)
Definition attribute_error (name : pystr) : exc :=
  mkExc (py "AttributeError")
    (py "'NoneType' object has no attribute '" ++ name ++ py "'") true.

(** A call of the method [name] of [_global_logger]: an [AttributeError]
    when the global is still [None]. *)
Definition with_global_logger (name : pystr)
    (m : ALogger.t -> World -> (ALogger.t * World) * outcome unit)
    (st : State) : State * outcome unit :=
  match _global_logger st with
  | None => (st, Raise (attribute_error name))
  | Some l =>
      let '((l', w'), r) := m l (world st) in
      (mkState w' (Some l') (heap st) (stdout st), r)
  end.

(** [str(result)[:100] + "..." if result and len(str(result)) > 100
     else str(result)]: the truth test of [result] comes first and may
    raise, then [str(result)]. *)
Definition result_summary_of `{PyBuiltins} (result : pyval) : outcome pyval :=
  match bool_of result with
  | Raise e => Raise e
  | Ok true =>
      match str_of result with
      | Raise e => Raise e
      | Ok s =>
          if 100 <? length s then Ok (VStr (slice_to 100 s ++ py "..."))
          else Ok (VStr s)
      end
  | Ok false =>
      match str_of result with
      | Raise e => Raise e
      | Ok s => Ok (VStr s)
      end
  end.

(** [type(result).__name__ if result is not None else "None"] *)
Definition result_type_of (result : pyval) : pystr :=
  match result with
  | VNone => py "None"
  | _ => type_name result
  end.

(** The argument shape logged with the start and the error events. *)
Definition args_shape (args : list pyval) (kwargs : list (pystr * pyval))
    : list (pystr * pyval) :=
  [ (py "args_count", VInt (Z.of_nat (length args)));
    (py "kwargs_keys", VList (map (fun kv => VStr (fst kv)) kwargs)) ].

(** The [try] block of [logged_wrapper]. *)
Definition wrapper_try `{PyBuiltins}
    (original_method : list pyval -> list (pystr * pyval) -> State
                       -> State * outcome pyval)
    (agent_name method_name : pystr) (start_time : pyfloat)
    (args : list pyval) (kwargs : list (pystr * pyval)) (st : State)
    : State * outcome pyval :=
  (* Execute the original method *)
  match original_method args kwargs st with
  | (st, Raise e) => (st, Raise e)
  | (st, Ok result) =>
      (* Calculate duration *)
      let (now, w) := time_time (world st) in
      let st := set_world w st in
      let duration := (now - start_time)%Z in
      (* Log completion *)
      match _global_logger st with
      | None => (st, Raise (attribute_error (py "record_operational")))
      | Some _ =>
          match result_summary_of result with
          | Raise e => (st, Raise e)
          | Ok summary =>
              match
                with_global_logger (py "record_operational")
                  (fun l =>
                     ALogger.record_operational l agent_name method_name
                       (py "complete") (VFloat duration) VNone VNone summary
                       VNone VNone VNone VNone
                       (VDict [(py "result_type", VStr (result_type_of result))])
                       (py "INFO") None None)
                  st
              with
              | (st, Raise e) => (st, Raise e)
              | (st, Ok _) =>
                  (* extract and log reasoning trace *)
                  match result with
                  | VStr _ =>
                      let (main_output, reasoning) :=
                        _extract_reasoning_trace result in
                      match reasoning with
                      | Some (c :: cs) =>
                          match
                            with_global_logger (py "record_cognitive")
                              (fun l =>
                                 ALogger.record_cognitive l agent_name
                                   reasoning VNone VNone VNone VNone
                                   (Some (py "Execute " ++ method_name))
                                   (Some (py "agent_method"))
                                   VNone VNone VNone (py "INFO") None None)
                              st
                          with
                          | (st, Raise e) => (st, Raise e)
                          | (st, Ok _) => (st, Ok main_output)
                          end
                      | _ => (st, Ok result)
                      end
                  | _ => (st, Ok result)
                  end
              end
          end
      end
  end.

(** The [except Exception as e] handler of [logged_wrapper]. *)
Definition wrapper_except `{PyBuiltins} (agent_name method_name : pystr)
    (start_time : pyfloat) (args : list pyval) (kwargs : list (pystr * pyval))
    (e : exc) (st : State) : State * outcome pyval :=
  (* Calculate duration even for errors *)
  let (now, w) := time_time (world st) in
  let st := set_world w st in
  let duration := (now - start_time)%Z in
  (* Build detailed error message *)
  let error_message := exc_type e ++ py ": " ++ exc_msg e in
  (* Log error with full context *)
  match
    with_global_logger (py "record_operational")
      (fun l =>
         ALogger.record_operational l agent_name method_name (py "error")
           (VFloat duration) VNone VNone VNone (VStr error_message)
           VNone VNone VNone
           (VDict ((py "error_type", VStr (exc_type e)) :: args_shape args kwargs))
           (py "ERROR") None None)
      st
  with
  | (st, Raise e') => (st, Raise e')
  | (st, Ok _) =>
      (* Re-raise the exception to preserve original behavior *)
      (st, Raise e)
  end.

(** The beginning of [logged_wrapper], up to the [try]: the two clock
    readings and the start event.  Returns the start time. *)
Definition wrapper_begin `{PyBuiltins} (agent_name method_name : pystr)
    (args : list pyval) (kwargs : list (pystr * pyval)) (st : State)
    : (State * pyfloat) * outcome unit :=
  let (start_time, w) := time_time (world st) in
  let (timestamp, w) := now_isoformat w in
  let st := set_world w st in
  (* Log start event *)
  let (st, r) :=
    with_global_logger (py "record_operational")
      (fun l =>
         ALogger.record_operational l agent_name method_name (py "start")
           VNone VNone VNone VNone VNone VNone VNone VNone
           (VDict (args_shape args kwargs)) (py "INFO") None None)
      st in
  ((st, start_time), r).

Definition logged_wrapper `{PyBuiltins}
    (original_method : list pyval -> list (pystr * pyval) -> State
                       -> State * outcome pyval)
    (agent_name method_name : pystr)
    (args : list pyval) (kwargs : list (pystr * pyval)) (st : State)
    : State * outcome pyval :=
  match wrapper_begin agent_name method_name args kwargs st with
  | ((st, _), Raise e) => (st, Raise e)
  | ((st, start_time), Ok _) =>
      match
        wrapper_try original_method agent_name method_name start_time
          args kwargs st
      with
      | (st, Ok result) => (st, Ok result)
      | (st, Raise e) =>
          if exc_is_Exception e
          then wrapper_except agent_name method_name start_time args kwargs e st
          else (st, Raise e)
      end
  end.

(** Calling a callable attribute. *)
Fixpoint call `{PyBuiltins} `{AgentCode} (c : callable)
    : list pyval -> list (pystr * pyval) -> State -> State * outcome pyval :=
  match c with
  | Native code => native code
  | LoggedWrapper original_method agent_name method_name =>
      logged_wrapper (call original_method) agent_name method_name
  end.

(** The methods that [instrument_agent] selects. *)
Definition target_methods_of (o : pyobject) (methods : option (list pystr))
    : list pystr :=
  match methods with
  | None =>
      filter (fun a => negb (starts_with (py "_") a) && has_callable o a)
        (map fst o)
  | Some ms => filter (fun m => has_callable o m) ms
  end.

(** One turn of the wrapping loop. *)
Definition wrap_method (name : pystr) (o : pyobject) (method_name : pystr)
    : pyobject :=
  match getattr o method_name with
  | Some (AttrCallable original_method) =>
      setattr o method_name
        (AttrCallable (LoggedWrapper original_method name method_name))
  | _ => o
  end.

Definition instrument_agent `{PyBuiltins} (agent : nat) (name : pystr)
    (methods : option (list pystr)) (st : State) : State * outcome nat :=
  match _global_logger st with
  | None =>
      (st, Raise (mkExc (py "RuntimeError")
                    (py "A-LOG not initialized. Call init() first.") true))
  | Some _ =>
      (* Identify target methods *)
      let target_methods := target_methods_of (heap st agent) methods in
      match target_methods with
      | [] =>
          (print (py "No valid methods found to instrument on " ++ name) st,
           Ok agent)
      | _ :: _ =>
          (* Dynamic wrapping *)
          let st :=
            heap_set agent
              (fold_left (wrap_method name) target_methods (heap st agent)) st in
          match py_str (VList (map VStr target_methods)) with
          | Raise e => (st, Raise e)
          | Ok listing =>
              (print (py "Agent '" ++ name ++ py "' instrumented with "
                      ++ str_of_nat (length target_methods)
                      ++ py " methods: " ++ listing) st,
               Ok agent)
          end
      end
  end.

(* ================================================================== *)
(** * exporters/__init__.py *)
(* ================================================================== *)

Module JSONLExporter.

Record t : Type := mk {
  output_dir : pystr;
  operational_file : pystr;
  cognitive_file : pystr
}.

Definition __init__ (output_dir : pystr) : t :=
  mk output_dir
    (path_join output_dir (py "operational.jsonl"))
    (path_join output_dir (py "cognitive.jsonl")).

(** The file of a surface; [None] where the methods return at once. *)
Definition file_of (self : t) (surface : pystr) : option pystr :=
  if pystr_eqb surface (py "operational") then Some (operational_file self)
  else if pystr_eqb surface (py "cognitive") then Some (cognitive_file self)
  else None.

(** [export]: a failure is printed, not logged. *)
Definition export (self : t) (surface : pystr) (log_entry : pyval)
    (st : State) : State :=
  match file_of self surface with
  | None => st
  | Some filepath =>
      match open_file (world st) with
      | (Some msg, w1) =>
          print (py "Failed to export to " ++ filepath ++ py ": " ++ msg)
            (set_world w1 st)
      | (None, w1) =>
          match to_json log_entry with
          | Raise e =>
              print
                (py "Failed to export to " ++ filepath ++ py ": " ++ exc_msg e)
                (set_world
                   (set_files
                      (file_update filepath
                         (ALogger.existing_docs w1 filepath) (files w1))
                      w1)
                   st)
          | Ok doc =>
              set_world
                (set_files
                   (file_update filepath
                      (ALogger.existing_docs w1 filepath ++ [doc]) (files w1))
                   w1)
                st
          end
      end
  end.

Definition read (self : t) (surface : pystr) (st : State)
    : list pyval * State :=
  match file_of self surface with
  | None => ([], st)
  | Some filepath =>
      match files (world st) filepath with
      | None => ([], st)
      | Some docs =>
          match open_file (world st) with
          | (Some msg, w1) =>
              ([], print (py "Failed to read " ++ filepath ++ py ": " ++ msg)
                     (set_world w1 st))
          | (None, w1) => (docs, set_world w1 st)
          end
      end
  end.

End JSONLExporter.

Module OTLPExporter.

Record t : Type := mk { exporter : OTelExporter.t }.

Definition __init__ (w : World) : t := mk (OTelExporter.__init__ w).

Definition export `{PyBuiltins} (self : t) (surface agent : pystr)
    (event : list (pystr * pyval)) (st : State) : State * outcome unit :=
  match OTelExporter.emit_span (exporter self) surface agent event (world st) with
  | (w', Ok _) => (set_world w' st, Ok tt)
  | (w', Raise e) =>
      if exc_is_Exception e then
        (print (py "Failed to export via OTLP: " ++ exc_msg e)
           (set_world w' st), Ok tt)
      else (set_world w' st, Raise e)
  end.

End OTLPExporter.

(* ================================================================== *)
(** * Vocabulary of the statements *)
(* ================================================================== *)

(** A start marker followed, somewhere after it, by an end marker. *)
Definition has_pair (s : pystr) : Prop :=
  exists pre mid post, s = pre ++ TRACE_START ++ mid ++ TRACE_END ++ post.

(** [lit] does not occur in [s] at any offset below [n]. *)
Definition absent_before (lit : pystr) (n : nat) (s : pystr) : Prop :=
  forall i, i < n -> starts_with lit (skipn i s) = false.

(** [s] splits at its first start marker and at the first end marker that
    follows it. *)
Definition first_pair (s pre mid post : pystr) : Prop :=
  s = pre ++ TRACE_START ++ mid ++ TRACE_END ++ post
  /\ absent_before TRACE_START (length pre) s
  /\ absent_before TRACE_END (length mid) (mid ++ TRACE_END ++ post).

(** Every character of [s] is whitespace. *)
Definition blank (s : pystr) : Prop :=
  Forall (fun c => py_isspace c = true) s.

(** [s] neither begins nor ends with whitespace. *)
Definition no_outer_space (s : pystr) : Prop :=
  (forall c t, s = c :: t -> py_isspace c = false)
  /\ (forall c t, s = t ++ [c] -> py_isspace c = false).

(** [t] is [s] trimmed: [s] is [t] between two runs of whitespace, and
    [t] neither begins nor ends with whitespace. *)
Definition trimmed_of (s t : pystr) : Prop :=
  exists a b, s = a ++ t ++ b /\ blank a /\ blank b /\ no_outer_space t.

(** ** Sessions of a logger *)

(** One call of [record] with its arguments. *)
Record record_call : Type := mkCall {
  c_surface : pystr;
  c_agent : pystr;
  c_event : list (pystr * pyval);
  c_level : pystr;
  c_trace_id : option pystr;
  c_span_id : option pystr
}.

Definition do_record `{PyBuiltins} (st : ALogger.t * World) (c : record_call)
    : ALogger.t * World :=
  fst (ALogger.record (fst st) (c_surface c) (c_agent c) (c_event c)
         (c_level c) (c_trace_id c) (c_span_id c) (snd st)).

(** The calls of a single writer, one after the other. *)
Definition session `{PyBuiltins} (calls : list record_call)
    (st : ALogger.t * World) : ALogger.t * World :=
  fold_left do_record calls st.

(** The sink chosen and the envelope built by each call, in order. *)
Fixpoint session_log `{PyBuiltins} (calls : list record_call)
    (st : ALogger.t * World) : list (option pystr * pyval) :=
  match calls with
  | [] => []
  | c :: rest =>
      (ALogger.sink_of (fst st) (c_surface c),
       ALogger.record_entry (fst st) (c_surface c) (c_agent c) (c_event c)
         (c_level c) (c_trace_id c) (c_span_id c) (snd st))
      :: session_log rest (do_record st c)
  end.

(** The line an envelope leaves in a file: none when it has no JSON form. *)
Definition json_doc (e : pyval) : list pyval :=
  match to_json e with
  | Ok d => [d]
  | Raise _ => []
  end.

(** The documents that the calls of a log sent to the file [p]. *)
Definition docs_for (p : pystr) (log : list (option pystr * pyval))
    : list pyval :=
  flat_map
    (fun se =>
       match fst se with
       | Some q => if pystr_eqb q p then json_doc (snd se) else []
       | None => []
       end)
    log.

(** No opening of a file fails. *)
Definition no_io_fault (w : World) : Prop := forall n, io_fault w n = None.

(** [uuid4] never returns an identifier twice, nor the empty string. *)
Definition uuid_fresh (w : World) : Prop :=
  (forall i j, uuid_src w i = uuid_src w j -> i = j)
  /\ (forall i, uuid_src w i <> []).

(** The trace context as [__init__] leaves it ([self.current_trace_id =
    None]).  The class has no method that resets it; a reset is an
    assignment of the attribute, or a new logger. *)
Definition reset_trace (self : ALogger.t) : ALogger.t :=
  ALogger.set_current_trace_id None self.

(** The field [k] of an envelope, and the field [k] of its event. *)
Definition entry_field (k : pystr) (entry : pyval) : option pyval :=
  dict_get k entry.

Definition event_field (k : pystr) (entry : pyval) : option pyval :=
  match dict_get (py "event") entry with
  | Some ev => dict_get k ev
  | None => None
  end.

(** Two worlds with the same files, the same answers to the opening of
    files and the same identifiers drawn so far. *)
Definition same_disk (w w' : World) : Prop :=
  files w' = files w /\ io_fault w' = io_fault w /\ io_ctr w' = io_ctr w.

Definition same_uuid (w w' : World) : Prop :=
  uuid_src w' = uuid_src w /\ uuid_ctr w' = uuid_ctr w.

(** The identifier a logger retains was drawn from [uuid4] earlier. *)
Definition retained_drawn (l : ALogger.t) (w : World) : Prop :=
  forall t, ALogger.current_trace_id l = Some t ->
            exists k, k < uuid_ctr w /\ t = uuid_src w k.

(** The trace id of the envelope built by a call of [record]. *)
Definition trace_id_of (entry : pyval) : option pyval :=
  entry_field (py "trace_id") entry.

(** The sinks of a logger hold no document yet. *)
Definition sinks_empty (l : ALogger.t) (w : World) : Prop :=
  ALogger.existing_docs w (ALogger.operational_file l) = []
  /\ ALogger.existing_docs w (ALogger.cognitive_file l) = []
  /\ (forall p, ALogger.contextual_file l = Some p ->
                ALogger.existing_docs w p = []).

(** ** Spans *)

(** [str] and [repr] raise nothing but [Exception]s on [v]. *)
Definition raises_only_Exception `{PyBuiltins} (v : pyval) : Prop :=
  (forall e, py_str v = Raise e -> exc_is_Exception e = true)
  /\ (forall e, py_repr v = Raise e -> exc_is_Exception e = true).

(** The value that ends up on the span for a payload value: the first
    choice of the bridge, else [repr(value)], else the error marker. *)
Definition degraded_value `{PyBuiltins} (v : pyval) : pyval :=
  match OTelExporter.first_choice v with
  | Ok a => a
  | Raise _ =>
      match py_repr v with
      | Ok s => VStr s
      | Raise _ => VStr (OTelExporter.error_marker v)
      end
  end.

(** One attribute for each payload item that is not [None], in order. *)
Definition expected_attrs `{PyBuiltins} (event : list (pystr * pyval))
    : list (pystr * pyval) :=
  flat_map
    (fun kv =>
       match snd kv with
       | VNone => []
       | v => [(fst kv, degraded_value v)]
       end)
    event.

(** An event with a dictionary that holds a database connection. *)
Definition connection_event : list (pystr * pyval) :=
  [ (py "operation", VStr (py "store"));
    (py "query", VNone);
    (py "write_value", VDict [(py "db", VObj (py "Connection") true)]);
    (py "handle", VObj (py "Unprintable") true);
    (py "retrieved_count", VInt 3) ].

(** ** Wrapped calls *)

(** The tracer fails with nothing but [Exception]s. *)
Definition tracer_safe (w : World) : Prop :=
  forall n e, tracer_fault w n = Some e -> exc_is_Exception e = true.

(** A world in which no file opening fails and the tracer is safe. *)
Definition quiet (w : World) : Prop := no_io_fault w /\ tracer_safe w.

(** A payload value that the wrapper logs: [None], a scalar, or a
    dictionary that is its own JSON document. *)
Definition simple (v : pyval) : Prop :=
  match v with
  | VNone | VBool _ | VInt _ | VFloat _ | VStr _ => True
  | VDict d => to_json (VDict d) = Ok (VDict d)
  | _ => False
  end.

(** The operational file of the global logger of a state. *)
Definition operational_docs (st : State) : list pyval :=
  match _global_logger st with
  | Some l => ALogger.existing_docs (world st) (ALogger.operational_file l)
  | None => []
  end.

Definition cognitive_docs (st : State) : list pyval :=
  match _global_logger st with
  | Some l => ALogger.existing_docs (world st) (ALogger.cognitive_file l)
  | None => []
  end.

(** The sinks of the global logger are the same files in two states. *)
Definition same_sinks (st st' : State) : Prop :=
  match _global_logger st, _global_logger st' with
  | Some l, Some l' =>
      ALogger.operational_file l' = ALogger.operational_file l
      /\ ALogger.cognitive_file l' = ALogger.cognitive_file l
      /\ ALogger.contextual_file l' = ALogger.contextual_file l
  | _, _ => False
  end.

(** The operational and the cognitive file of the global logger are two
    files, as they are for a logger built by [__init__]. *)
Definition distinct_sinks (st : State) : Prop :=
  match _global_logger st with
  | Some l => ALogger.operational_file l <> ALogger.cognitive_file l
  | None => False
  end.

(** No target method: none of the names listed is a callable attribute,
    or, without a list, no public attribute is callable. *)
Definition no_eligible_method (o : pyobject) (methods : option (list pystr))
    : Prop :=
  match methods with
  | Some ms => forall m, In m ms -> has_callable o m = false
  | None =>
      forall a, In a (map fst o) -> starts_with (py "_") a = false ->
                has_callable o a = false
  end.

(** ** Further vocabulary *)

(** [lit] occurs in [s]. *)
Definition contains (lit s : pystr) : Prop :=
  exists a b, s = a ++ lit ++ b.

(** [a] is the beginning of [b]. *)
Definition prefix_of (A : Type) (a b : list A) : Prop :=
  exists extra, b = a ++ extra.

(** The identifier of an envelope. *)
Definition entry_id (entry : pyval) : option pyval :=
  entry_field (py "id") entry.

(** The sinks of a logger. *)
Definition is_sink (l : ALogger.t) (p : pystr) : Prop :=
  p = ALogger.operational_file l
  \/ p = ALogger.cognitive_file l
  \/ ALogger.contextual_file l = Some p.

(** The tracer of a logger is there and exports. *)
Definition tracing_on (l : ALogger.t) : Prop :=
  ALogger.enable_otel l = true
  /\ exists x, ALogger.otel l = Some x /\ OTelExporter.tracer x = true.

(** No span is exported by a logger. *)
Definition tracing_off (l : ALogger.t) : Prop :=
  ALogger.enable_otel l = false
  \/ ALogger.otel l = None
  \/ exists x, ALogger.otel l = Some x /\ OTelExporter.tracer x = false.

(** The result of the method is returned as it is: it is no string, or a
    string from which no reasoning, or an empty one, is extracted. *)
Definition no_reasoning (result : pyval) : Prop :=
  match result with
  | VStr s =>
      snd (_extract_reasoning_trace (VStr s)) = None
      \/ snd (_extract_reasoning_trace (VStr s)) = Some []
  | _ => True
  end.

(** ** Instrumented agents *)

(** How often a name is listed. *)
Definition times_listed (a : pystr) (names : list pystr) : nat :=
  length (filter (pystr_eqb a) names).

(** A callable under [n] wrappers of [_create_logged_wrapper], the last
    one outermost. *)
Fixpoint wrapped (n : nat) (name method_name : pystr) (c : callable)
    : callable :=
  match n with
  | 0 => c
  | S k => LoggedWrapper (wrapped k name method_name c) name method_name
  end.

(** The attribute [a] of an object after the wrapping loop has run over
    [targets]. *)
Definition instrumented (name : pystr) (targets : list pystr) (o : pyobject)
    (a : pystr) : option attr :=
  match getattr o a with
  | Some (AttrCallable c) =>
      Some (AttrCallable (wrapped (times_listed a targets) name a c))
  | other => other
  end.

(** ** A runtime and a world for the examples *)

(** [repr] for the examples: exact on [None], booleans, integers, strings
    without quotes or escapes, and containers of these; an object prints
    as its class name between angle brackets, except that an object of
    class [Unprintable] raises from [__repr__] and [__str__]. *)
Definition repr_join (parts : list pystr) : pystr :=
  match parts with
  | [] => []
  | x :: r => x ++ flat_map (fun y => py ", " ++ y) r
  end.

Fixpoint example_repr (v : pyval) : outcome pystr :=
  match v with
  | VNone => Ok (py "None")
  | VBool b => Ok (if b then py "True" else py "False")
  | VInt z => Ok (py (NilZero.string_of_int (Z.to_int z)))
  | VFloat f => Ok (py (NilZero.string_of_int (Z.to_int f)) ++ py ".0")
  | VStr s => Ok (py "'" ++ s ++ py "'")
  | VList l =>
      let fix items (l : list pyval) : outcome (list pystr) :=
        match l with
        | [] => Ok []
        | x :: r =>
            match example_repr x with
            | Raise e => Raise e
            | Ok x' =>
                match items r with
                | Raise e => Raise e
                | Ok r' => Ok (x' :: r')
                end
            end
        end in
      match items l with
      | Ok parts => Ok (py "[" ++ repr_join parts ++ py "]")
      | Raise e => Raise e
      end
  | VTuple l =>
      let fix items (l : list pyval) : outcome (list pystr) :=
        match l with
        | [] => Ok []
        | x :: r =>
            match example_repr x with
            | Raise e => Raise e
            | Ok x' =>
                match items r with
                | Raise e => Raise e
                | Ok r' => Ok (x' :: r')
                end
            end
        end in
      match items l with
      | Ok [x] => Ok (py "(" ++ x ++ py ",)")
      | Ok parts => Ok (py "(" ++ repr_join parts ++ py ")")
      | Raise e => Raise e
      end
  | VDict d =>
      let fix fields (d : list (pystr * pyval)) : outcome (list pystr) :=
        match d with
        | [] => Ok []
        | (k, x) :: r =>
            match example_repr x with
            | Raise e => Raise e
            | Ok x' =>
                match fields r with
                | Raise e => Raise e
                | Ok r' => Ok ((py "'" ++ k ++ py "': " ++ x') :: r')
                end
            end
        end in
      match fields d with
      | Ok parts => Ok (py "{" ++ repr_join parts ++ py "}")
      | Raise e => Raise e
      end
  | VObj cls _ =>
      if pystr_eqb cls (py "Unprintable")
      then Raise (mkExc (py "RuntimeError") (py "cannot print") true)
      else Ok (py "<" ++ cls ++ py ">")
  end.

Definition example_str (v : pyval) : outcome pystr :=
  match v with
  | VStr s => Ok s
  | _ => example_repr v
  end.

(** The truth test of the examples: it raises on an object of class
    [DataFrame], as pandas does. *)
Definition example_bool_raises (v : pyval) : option exc :=
  match v with
  | VObj cls _ =>
      if pystr_eqb cls (py "DataFrame")
      then Some (mkExc (py "ValueError")
                   (py "The truth value of a DataFrame is ambiguous.") true)
      else None
  | _ => None
  end.

(** The examples never look at the text of a JSON document. *)
Definition example_builtins : PyBuiltins :=
  {| py_str := example_str;
     py_repr := example_repr;
     json_text := fun _ => py "<json>";
     bool_raises := example_bool_raises |}.

(** [uuid4] of the examples: the n-th identifier is ["u"] followed by n
    quotes. *)
Definition example_uuid (n : nat) : pystr := py "u" ++ repeat "'"%char n.

(** A world with no file, in which nothing fails. *)
Definition example_world : World :=
  mkWorld (fun _ => None) [] [] example_uuid 0 (fun n => Z.of_nat n)
    (fun n => py "t" ++ repeat "'"%char n) 0 (fun _ => None) 0
    (fun _ => None) 0 false.

(** The same world with a disk on which no file can be opened. *)
Definition broken_disk_world : World :=
  mkWorld (fun _ => None) [] [] example_uuid 0 (fun n => Z.of_nat n)
    (fun n => py "t" ++ repeat "'"%char n) 0
    (fun _ => Some (py "[Errno 28] No space left on device")) 0
    (fun _ => None) 0 false.

(** The world of the examples with the tracing packages installed. *)
Definition traced_world : World :=
  mkWorld (fun _ => None) [] [] example_uuid 0 (fun n => Z.of_nat n)
    (fun n => py "t" ++ repeat "'"%char n) 0 (fun _ => None) 0
    (fun _ => None) 0 true.

(** A process with the logger of [init("logs")], tracing disabled, and one
    agent at reference 0 that has a name and a private helper only. *)
Definition example_state : State :=
  mkState example_world
    (Some (ALogger.__init__ (py "logs") false false example_world))
    (fun r =>
       match r with
       | 0 => [ (py "name", AttrData (VStr (py "planner")));
                (py "_helper", AttrCallable (Native 7)) ]
       | _ => []
       end)
    [].

(** A method interrupted from the keyboard. *)
Definition interrupted_method (args : list pyval)
    (kwargs : list (pystr * pyval)) (st : State) : State * outcome pyval :=
  (st, Raise (mkExc (py "KeyboardInterrupt") [] false)).

(** A method that raises [ValueError]. *)
Definition failing_method (args : list pyval)
    (kwargs : list (pystr * pyval)) (st : State) : State * outcome pyval :=
  (st, Raise (mkExc (py "ValueError") (py "bad input") true)).

(** A method that returns the text given as its first argument. *)
Definition echo_method (args : list pyval)
    (kwargs : list (pystr * pyval)) (st : State) : State * outcome pyval :=
  match args with
  | v :: _ => (st, Ok v)
  | [] => (st, Ok VNone)
  end.

(** The traced world with a collector that cannot be reached: every
    start of a span fails with a [ConnectionError]. *)
Definition failing_tracer_world : World :=
  mkWorld (fun _ => None) [] [] example_uuid 0 (fun n => Z.of_nat n)
    (fun n => py "t" ++ repeat "'"%char n) 0 (fun _ => None) 0
    (fun _ => Some (mkExc (py "ConnectionError") (py "collector down") true))
    0 true.

(** The process of the examples with a worker at reference 1: a name,
    two public methods and a private helper. *)
Definition worker_state : State :=
  mkState example_world
    (Some (ALogger.__init__ (py "logs") false false example_world))
    (fun r =>
       match r with
       | 1 => [ (py "_helper", AttrCallable (Native 7));
                (py "name", AttrData (VStr (py "worker")));
                (py "plan", AttrCallable (Native 2));
                (py "run", AttrCallable (Native 1)) ]
       | _ => []
       end)
    [].

(** A cognitive event followed by an operational one. *)
Definition two_surface_calls : list record_call :=
  [ mkCall (py "cognitive") (py "agent") [(py "thought", VStr (py "plan"))]
      (py "INFO") None None;
    mkCall (py "operational") (py "agent")
      [(py "method", VStr (py "run")); (py "status", VStr (py "start"))]
      (py "INFO") None None ].

(* ================================================================== *)
(** * Strings: basic facts *)
(* ================================================================== *)

Unset Implicit Arguments.

Lemma ascii_eqb_eq (a b : ascii) : ascii_eqb a b = true <-> a = b.
Proof. unfold ascii_eqb. apply Ascii.eqb_eq. Qed.

Lemma pystr_eqb_eq (a b : pystr) : pystr_eqb a b = true <-> a = b.
Proof.
  revert b. induction a as [|x a IH]; intros [|y b]; simpl; split; try easy.
  - intros H. apply andb_true_iff in H as [H1 H2].
    apply ascii_eqb_eq in H1. apply IH in H2. now subst.
  - intros H. injection H as -> ->. apply andb_true_iff. split.
    + now apply ascii_eqb_eq.
    + now apply IH.
Qed.

Lemma pystr_eqb_refl (a : pystr) : pystr_eqb a a = true.
Proof. now apply pystr_eqb_eq. Qed.

Lemma pystr_eqb_neq (a b : pystr) : a <> b -> pystr_eqb a b = false.
Proof.
  intros H. destruct (pystr_eqb a b) eqn:E; [|reflexivity].
  apply pystr_eqb_eq in E. contradiction.
Qed.

Lemma starts_with_app (lit r : pystr) : starts_with lit (lit ++ r) = true.
Proof.
  induction lit as [|a lit IH]; simpl; [reflexivity|].
  rewrite IH, andb_true_r. now apply ascii_eqb_eq.
Qed.

Lemma starts_with_inv (lit s : pystr) :
  starts_with lit s = true -> exists r, s = lit ++ r.
Proof.
  revert s. induction lit as [|a lit IH]; intros s H.
  - now exists s.
  - destruct s as [|b s]; simpl in H; [discriminate|].
    apply andb_true_iff in H as [H1 H2].
    apply ascii_eqb_eq in H1. subst b.
    destruct (IH _ H2) as [r ->]. now exists r.
Qed.

Lemma skipn_length_app (a b : pystr) : skipn (length a) (a ++ b) = b.
Proof. induction a; simpl; auto. Qed.

Lemma firstn_length_app (a b : pystr) : firstn (length a) (a ++ b) = a.
Proof. induction a; simpl; f_equal; auto. Qed.

Lemma skipn_add_app (a b : pystr) (n : nat) :
  skipn (length a + n) (a ++ b) = skipn n b.
Proof. induction a; simpl; auto. Qed.

(** ** The lazy group *)

Lemma lazy_dot_then_some (lit s g : pystr) (n : nat) :
  lazy_dot_then lit s = Some (g, n) ->
  exists post,
    s = g ++ lit ++ post
    /\ n = length g + length lit
    /\ absent_before lit (length g) s.
Proof.
  revert g n. induction s as [|c s IH]; intros g n H.
  - simpl in H. destruct (starts_with lit []) eqn:E; [|discriminate].
    injection H as <- <-. apply starts_with_inv in E as [r E].
    exists r. simpl. repeat split; auto. intros i Hi. inversion Hi.
  - cbn [lazy_dot_then] in H.
    destruct (starts_with lit (c :: s)) eqn:E.
    + injection H as <- <-. apply starts_with_inv in E as [r E].
      exists r. simpl. repeat split; auto. intros i Hi. inversion Hi.
    + destruct (lazy_dot_then lit s) as [[g' n']|] eqn:R; [|discriminate].
      injection H as <- <-.
      destruct (IH _ _ eq_refl) as (post & -> & -> & Hab).
      exists post. simpl. repeat split; auto.
      intros [|i] Hi; simpl; [exact E|]. apply Hab. simpl in Hi. lia.
Qed.

Lemma lazy_dot_then_none (lit s : pystr) :
  lazy_dot_then lit s = None -> forall i, starts_with lit (skipn i s) = false.
Proof.
  induction s as [|c s IH]; intros H i.
  - simpl in H. destruct (starts_with lit []) eqn:E; [discriminate|].
    now rewrite skipn_nil.
  - cbn [lazy_dot_then] in H.
    destruct (starts_with lit (c :: s)) eqn:E; [discriminate|].
    destruct (lazy_dot_then lit s) as [[g' n']|] eqn:R; [discriminate|].
    destruct i as [|i]; simpl; auto.
Qed.

Lemma lazy_dot_then_finds (lit mid post : pystr) :
  lazy_dot_then lit (mid ++ lit ++ post) <> None.
Proof.
  intros H. pose proof (lazy_dot_then_none _ _ H (length mid)) as E.
  rewrite skipn_length_app, starts_with_app in E. discriminate.
Qed.

(** ** The pattern at one position and the search *)

Lemma match_here_some (s g : pystr) (n : nat) :
  match_here s = Some (g, n) ->
  exists post,
    s = TRACE_START ++ g ++ TRACE_END ++ post
    /\ n = length TRACE_START + length g + length TRACE_END
    /\ absent_before TRACE_END (length g) (g ++ TRACE_END ++ post).
Proof.
  unfold match_here. intros H.
  destruct (starts_with TRACE_START s) eqn:E; [|discriminate].
  apply starts_with_inv in E as [r ->].
  rewrite skipn_length_app in H.
  destruct (lazy_dot_then TRACE_END r) as [[g' n']|] eqn:R; [|discriminate].
  injection H as <- <-.
  destruct (lazy_dot_then_some _ _ _ _ R) as (post & -> & -> & Hab).
  exists post. repeat split; auto; try lia.
Qed.

Lemma match_here_finds (mid post : pystr) :
  match_here (TRACE_START ++ mid ++ TRACE_END ++ post) <> None.
Proof.
  unfold match_here. rewrite starts_with_app, skipn_length_app.
  pose proof (lazy_dot_then_finds TRACE_END mid post) as F.
  destruct (lazy_dot_then TRACE_END (mid ++ TRACE_END ++ post)) as [[g n]|];
    [discriminate | contradiction].
Qed.

(** Where the pattern does not match although an end marker comes later,
    there is no start marker. *)
Lemma match_here_none_no_start (s : pystr) (i k : nat) (post : pystr) :
  match_here (skipn i s) = None ->
  skipn (i + length TRACE_START + k) s = TRACE_END ++ post ->
  starts_with TRACE_START (skipn i s) = false.
Proof.
  unfold match_here. intros H Hend.
  destruct (starts_with TRACE_START (skipn i s)) eqn:E; [|reflexivity].
  destruct (lazy_dot_then TRACE_END (skipn (length TRACE_START) (skipn i s)))
    as [[g n]|] eqn:R; [discriminate|].
  pose proof (lazy_dot_then_none _ _ R k) as F.
  assert (X : skipn k (skipn (length TRACE_START) (skipn i s))
              = skipn (i + length TRACE_START + k) s)
    by (rewrite !skipn_skipn; f_equal; lia).
  rewrite X, Hend, starts_with_app in F. discriminate.
Qed.

Lemma search_from_none (s : pystr) (pos : nat) :
  search_from pos s = None -> forall i, match_here (skipn i s) = None.
Proof.
  revert pos. induction s as [|c s IH]; intros pos H i.
  - rewrite skipn_nil. reflexivity.
  - cbn [search_from] in H.
    destruct (match_here (c :: s)) as [[g n]|] eqn:E; [discriminate|].
    destruct i as [|i]; simpl; [exact E|]. now apply (IH (S pos)).
Qed.

Lemma search_from_some (s : pystr) (pos : nat) (m : re_match) :
  search_from pos s = Some m ->
  exists pre mid post,
    s = pre ++ TRACE_START ++ mid ++ TRACE_END ++ post
    /\ m_start m = pos + length pre
    /\ m_end m = pos + length pre + length TRACE_START + length mid
                 + length TRACE_END
    /\ m_group1 m = mid
    /\ (forall i, i < length pre -> match_here (skipn i s) = None)
    /\ absent_before TRACE_END (length mid) (mid ++ TRACE_END ++ post).
Proof.
  revert pos m. induction s as [|c s IH]; intros pos m H.
  - cbn in H. discriminate.
  - cbn [search_from] in H.
    destruct (match_here (c :: s)) as [[g n]|] eqn:E.
    + injection H as <-.
      destruct (match_here_some _ _ _ E) as (post & Hs & -> & Hab).
      exists [], g, post. cbn [app length m_start m_end m_group1].
      repeat split; auto; try lia.
    + destruct (IH _ _ H) as (pre & mid & post & -> & Hst & Hen & Hg & Hno & Hab).
      exists (c :: pre), mid, post. cbn [app length].
      repeat split; auto; try lia.
      intros [|i] Hi; cbn [skipn]; [exact E|]. apply Hno. lia.
Qed.

Lemma app_same_length (a b x y : pystr) :
  a ++ x = b ++ y -> length a = length b -> a = b /\ x = y.
Proof.
  intros E L. split.
  - rewrite <- (firstn_length_app a x), E, L. apply firstn_length_app.
  - rewrite <- (skipn_length_app a x), E, L. apply skipn_length_app.
Qed.

(** Two occurrences of [lit], each the first one: the same offset. *)
Lemma first_occurrence_unique (lit a x b y : pystr) :
  a ++ lit ++ x = b ++ lit ++ y ->
  absent_before lit (length a) (a ++ lit ++ x) ->
  absent_before lit (length b) (b ++ lit ++ y) ->
  a = b /\ x = y.
Proof.
  intros E Ha Hb.
  assert (L : length a = length b).
  { destruct (Nat.lt_trichotomy (length a) (length b)) as [L|[L|L]]; auto.
    - specialize (Hb _ L). rewrite <- E, skipn_length_app, starts_with_app in Hb.
      discriminate.
    - specialize (Ha _ L). rewrite E, skipn_length_app, starts_with_app in Ha.
      discriminate. }
  destruct (app_same_length _ _ _ _ E L) as [-> E'].
  split; auto. now apply app_inv_head in E'.
Qed.

Lemma pattern_search_none_iff (s : pystr) :
  pattern_search s = None <-> ~ has_pair s.
Proof.
  unfold pattern_search. split.
  - intros H (pre & mid & post & ->).
    pose proof (search_from_none _ _ H (length pre)) as E.
    rewrite skipn_length_app in E. now apply match_here_finds in E.
  - intros H. destruct (search_from 0 s) as [m|] eqn:E; [|reflexivity].
    destruct (search_from_some _ _ _ E) as (pre & mid & post & Hs & _).
    exfalso. apply H. now exists pre, mid, post.
Qed.

(** What [pattern.search] finds is the first pair of markers. *)
Lemma pattern_search_first_pair (s : pystr) (m : re_match) :
  pattern_search s = Some m ->
  exists pre mid post,
    first_pair s pre mid post
    /\ m_start m = length pre
    /\ m_end m = length pre + length TRACE_START + length mid + length TRACE_END
    /\ m_group1 m = mid.
Proof.
  unfold pattern_search. intros H.
  destruct (search_from_some _ _ _ H)
    as (pre & mid & post & Hs & Hst & Hen & Hg & Hno & Hab).
  exists pre, mid, post. repeat split; auto.
  intros i Hi.
  apply match_here_none_no_start with (k := length pre - i + length mid)
                                      (post := post); auto.
  rewrite Hs.
  replace (i + length TRACE_START + (length pre - i + length mid))
    with (length pre + (length TRACE_START + (length mid + 0))) by lia.
  now rewrite !skipn_add_app.
Qed.

Lemma first_pair_unique (s pre mid post pre' mid' post' : pystr) :
  first_pair s pre mid post -> first_pair s pre' mid' post' ->
  pre = pre' /\ mid = mid' /\ post = post'.
Proof.
  intros (Hs & Hp & Hm) (Hs' & Hp' & Hm').
  assert (E : pre ++ TRACE_START ++ mid ++ TRACE_END ++ post
              = pre' ++ TRACE_START ++ mid' ++ TRACE_END ++ post')
    by now rewrite <- Hs, <- Hs'.
  rewrite Hs in Hp. rewrite Hs' in Hp'.
  destruct (first_occurrence_unique _ _ _ _ _ E Hp Hp') as [-> E1].
  destruct (first_occurrence_unique _ _ _ _ _ E1 Hm Hm') as [-> ->].
  auto.
Qed.

(** The slices taken by [_extract_reasoning_trace] around a match. *)
Lemma slices_around (pre mid post : pystr) :
  slice_to (length pre) (pre ++ TRACE_START ++ mid ++ TRACE_END ++ post)
  ++ slice_from
       (length pre + length TRACE_START + length mid + length TRACE_END)
       (pre ++ TRACE_START ++ mid ++ TRACE_END ++ post)
  = pre ++ post.
Proof.
  unfold slice_to, slice_from. rewrite firstn_length_app. f_equal.
  replace (length pre + length TRACE_START + length mid + length TRACE_END)
    with (length pre + (length TRACE_START + (length mid
            + (length TRACE_END + 0)))) by lia.
  now rewrite !skipn_add_app.
Qed.

(** ** Stripping *)

Lemma lstrip_idem (s : pystr) : lstrip (lstrip s) = lstrip s.
Proof.
  induction s as [|c s IH]; simpl; auto.
  destruct (py_isspace c) eqn:E; auto. simpl. now rewrite E.
Qed.

Lemma lstrip_snoc (a : pystr) (c : ascii) :
  py_isspace c = false -> lstrip (a ++ [c]) = lstrip a ++ [c].
Proof.
  intros H. induction a as [|x a IH]; simpl.
  - now rewrite H.
  - destruct (py_isspace x); auto.
Qed.

Lemma rstrip_cons (c : ascii) (t : pystr) :
  py_isspace c = false -> rstrip (c :: t) = c :: rstrip t.
Proof.
  intros H. unfold rstrip. simpl.
  rewrite lstrip_snoc by assumption. rewrite rev_app_distr. reflexivity.
Qed.

Lemma rstrip_idem (s : pystr) : rstrip (rstrip s) = rstrip s.
Proof. unfold rstrip. now rewrite rev_involutive, lstrip_idem. Qed.

Lemma lstrip_rstrip_lstrip (s : pystr) :
  lstrip (rstrip (lstrip s)) = rstrip (lstrip s).
Proof.
  induction s as [|c s IH]; simpl; auto.
  destruct (py_isspace c) eqn:E; auto.
  rewrite rstrip_cons by assumption. simpl. now rewrite E.
Qed.

Lemma strip_idem (s : pystr) : strip (strip s) = strip s.
Proof.
  unfold strip. now rewrite lstrip_rstrip_lstrip, rstrip_idem.
Qed.

Lemma lstrip_suffix (s : pystr) : exists a, s = a ++ lstrip s.
Proof.
  induction s as [|c s [a IH]]; simpl.
  - now exists [].
  - destruct (py_isspace c).
    + exists (c :: a). simpl. now f_equal.
    + now exists [].
Qed.

Lemma rstrip_prefix (s : pystr) : exists b, s = rstrip s ++ b.
Proof.
  unfold rstrip. destruct (lstrip_suffix (rev s)) as [a E].
  exists (rev a). rewrite <- rev_app_distr, <- E. now rewrite rev_involutive.
Qed.

Lemma strip_factor (s : pystr) : exists a b, s = a ++ strip s ++ b.
Proof.
  unfold strip. destruct (lstrip_suffix s) as [a Ea].
  destruct (rstrip_prefix (lstrip s)) as [b Eb].
  exists a, b. now rewrite <- Eb.
Qed.

Lemma has_pair_factor (a m b : pystr) : has_pair m -> has_pair (a ++ m ++ b).
Proof.
  intros (pre & mid & post & ->).
  exists (a ++ pre), mid, (post ++ b). now rewrite <- !app_assoc.
Qed.

Lemma no_pair_strip (s : pystr) : ~ has_pair s -> ~ has_pair (strip s).
Proof.
  intros H Hs. apply H. destruct (strip_factor s) as (a & b & E).
  rewrite E. now apply has_pair_factor.
Qed.

(* ================================================================== *)
(** * The reasoning extractor *)
(* ================================================================== *)

Lemma extract_no_pair (s : pystr) :
  ~ has_pair s -> _extract_reasoning_trace (VStr s) = (VStr (strip s), None).
Proof.
  intros H. apply pattern_search_none_iff in H.
  unfold _extract_reasoning_trace. now rewrite H.
Qed.

Lemma extract_first_pair (s pre mid post : pystr) :
  first_pair s pre mid post ->
  _extract_reasoning_trace (VStr s)
  = (VStr (strip (pre ++ post)), Some (strip mid)).
Proof.
  intros H. unfold _extract_reasoning_trace.
  destruct (pattern_search s) as [m|] eqn:E.
  - destruct (pattern_search_first_pair _ _ E)
      as (pre' & mid' & post' & H' & Hst & Hen & Hg).
    destruct (first_pair_unique _ _ _ _ _ _ _ H H') as (<- & <- & <-).
    rewrite Hst, Hen, Hg. destruct H as (-> & _).
    now rewrite slices_around.
  - apply pattern_search_none_iff in E. exfalso. apply E.
    destruct H as (-> & _). now exists pre, mid, post.
Qed.

Lemma has_pair_first_pair (s : pystr) :
  has_pair s -> exists pre mid post, first_pair s pre mid post.
Proof.
  intros H. destruct (pattern_search s) as [m|] eqn:E.
  - destruct (pattern_search_first_pair _ _ E) as (pre & mid & post & H' & _).
    now exists pre, mid, post.
  - apply pattern_search_none_iff in E. contradiction.
Qed.

(** ** Trimming *)

Lemma lstrip_spec (s : pystr) :
  exists a,
    s = a ++ lstrip s /\ blank a
    /\ (forall c t, lstrip s = c :: t -> py_isspace c = false).
Proof.
  induction s as [|c s (a & E & Ba & N)]; cbn [lstrip].
  - exists []. repeat split; [constructor | discriminate].
  - destruct (py_isspace c) eqn:Hc.
    + exists (c :: a). split; [cbn; now rewrite <- E|].
      split; [now constructor | exact N].
    + exists []. split; [reflexivity|]. split; [constructor|].
      intros c' t H. injection H as <- _. exact Hc.
Qed.

Lemma rstrip_spec (s : pystr) :
  exists b,
    s = rstrip s ++ b /\ blank b
    /\ (forall c t, rstrip s = t ++ [c] -> py_isspace c = false).
Proof.
  unfold rstrip. destruct (lstrip_spec (rev s)) as (a & E & Ba & N).
  exists (rev a). split; [|split].
  - rewrite <- rev_app_distr, <- E. symmetry. apply rev_involutive.
  - now apply Forall_rev.
  - intros c t H. apply (N c (rev t)).
    rewrite <- (rev_involutive (lstrip (rev s))), H, rev_app_distr.
    reflexivity.
Qed.

(** [strip] trims. *)
Lemma strip_trimmed_of (s : pystr) : trimmed_of s (strip s).
Proof.
  unfold strip.
  destruct (lstrip_spec s) as (a & Ea & Ba & Na).
  destruct (rstrip_spec (lstrip s)) as (b & Eb & Bb & Nb).
  exists a, b. split; [now rewrite <- Eb|]. split; [exact Ba|].
  split; [exact Bb|]. split; [|exact Nb].
  intros c t H. apply (Na c (t ++ b)). rewrite Eb at 1. now rewrite H.
Qed.

Lemma lstrip_blank_app (a x : pystr) : blank a -> lstrip (a ++ x) = lstrip x.
Proof.
  induction 1 as [|c a Hc _ IH]; [reflexivity|].
  cbn [app lstrip]. now rewrite Hc.
Qed.

Lemma lstrip_blank (a : pystr) : blank a -> lstrip a = [].
Proof.
  intros H. rewrite <- (app_nil_r a). now rewrite lstrip_blank_app.
Qed.

(** Trimming has one result: the one of [strip]. *)
Lemma trimmed_of_strip (s t : pystr) : trimmed_of s t -> t = strip s.
Proof.
  intros (a & b & -> & Ba & Bb & (Nf & Nl)). unfold strip.
  rewrite lstrip_blank_app by exact Ba.
  destruct t as [|c t].
  - cbn [app]. rewrite (lstrip_blank b Bb). reflexivity.
  - assert (L : lstrip ((c :: t) ++ b) = (c :: t) ++ b)
      by (cbn [app lstrip]; now rewrite (Nf c t eq_refl)).
    rewrite L. unfold rstrip. rewrite rev_app_distr.
    rewrite lstrip_blank_app by (now apply Forall_rev).
    destruct (rev (c :: t)) as [|d r] eqn:R.
    + apply (f_equal (@rev ascii)) in R. rewrite rev_involutive in R.
      discriminate R.
    + assert (Hd : py_isspace d = false).
      { apply (Nl d (rev r)).
        rewrite <- (rev_involutive (c :: t)), R. reflexivity. }
      cbn [lstrip]. rewrite Hd, <- R. symmetry. apply rev_involutive.
Qed.

(** C4.  The reasoning extractor on a string.  Without a pair of markers
    it returns the trimmed text and no reasoning.  With one, it splits
    the text at the first start marker and at the first end marker after
    it (a line break between them is as any character), and returns the
    trimmed text between the two as the reasoning and the trimmed
    concatenation of what precedes and what follows as the main text, so
    that later pairs stay in the main text as they are.  Whenever a pair
    exists, such a first pair exists.  Trimmed means: the text without
    the run of whitespace at each of its two ends, with nothing else
    taken away and no whitespace left at either end; this has one result
    only. *)
Theorem extract_reasoning_trace_spec (s : pystr) :
  (~ has_pair s ->
   exists m,
     _extract_reasoning_trace (VStr s) = (VStr m, None)
     /\ trimmed_of s m)
  /\ (forall pre mid post,
        first_pair s pre mid post ->
        exists m r,
          _extract_reasoning_trace (VStr s) = (VStr m, Some r)
          /\ trimmed_of (pre ++ post) m
          /\ trimmed_of mid r)
  /\ (has_pair s -> exists pre mid post, first_pair s pre mid post)
  /\ (forall x t t', trimmed_of x t -> trimmed_of x t' -> t = t').
Proof.
  split; [|split; [|split]].
  - intros H. exists (strip s). split; [now apply extract_no_pair|].
    apply strip_trimmed_of.
  - intros pre mid post F. exists (strip (pre ++ post)), (strip mid).
    split; [now apply extract_first_pair|].
    split; apply strip_trimmed_of.
  - apply has_pair_first_pair.
  - intros x t t' H H'.
    rewrite (trimmed_of_strip x t H). symmetry. now apply trimmed_of_strip.
Qed.

(** The example of the specification with whitespace around the answer,
    around the reasoning and at the end: the caller's text is ["ANSWER"]
    and the reasoning is ["R"]. *)
Lemma extract_reasoning_trace_spec_witness :
  let nl := "010"%char in
  let pre := py "  ANSWER " ++ [nl] in
  let mid := [nl] ++ py " R " in
  let post := py " " ++ [nl] in
  let s := pre ++ TRACE_START ++ mid ++ TRACE_END ++ post in
  first_pair s pre mid post
  /\ _extract_reasoning_trace (VStr s) = (VStr (py "ANSWER"), Some (py "R"))
  /\ trimmed_of (pre ++ post) (py "ANSWER")
  /\ trimmed_of mid (py "R").
Proof.
  intros nl pre mid post s.
  assert (F : first_pair s pre mid post).
  { split; [reflexivity|]. split; intros i Hi; cbn in Hi.
    - do 10 (destruct i as [|i]; [reflexivity|]). exfalso. lia.
    - do 4 (destruct i as [|i]; [reflexivity|]). exfalso. lia. }
  assert (E : _extract_reasoning_trace (VStr s)
              = (VStr (py "ANSWER"), Some (py "R")))
    by (vm_compute; reflexivity).
  split; [exact F|]. split; [exact E|].
  destruct (proj1 (proj2 (extract_reasoning_trace_spec s)) pre mid post F)
    as (m & r & Em & Tm & Tr).
  rewrite E in Em. injection Em as <- <-. split; [exact Tm | exact Tr].
Defined.

(** A second pair of markers stays in the main text. *)
Example extract_keeps_later_pairs :
  _extract_reasoning_trace
    (VStr (py "a ===REASONING_TRACE_START=== x ===REASONING_TRACE_END=== b ===REASONING_TRACE_START===y===REASONING_TRACE_END==="))
  = (VStr (py "a  b ===REASONING_TRACE_START===y===REASONING_TRACE_END==="),
     Some (py "x")).
Proof. vm_compute. reflexivity. Qed.

(** The markers are matched across line breaks. *)
Example extract_across_lines :
  _extract_reasoning_trace
    (VStr (py "ok" ++ ["010"%char] ++ TRACE_START ++ ["010"%char] ++ py "r1"
           ++ ["010"%char] ++ py "r2" ++ ["010"%char] ++ TRACE_END))
  = (VStr (py "ok"), Some (py "r1" ++ ["010"%char] ++ py "r2")).
Proof. vm_compute. reflexivity. Qed.

(** C5, as stated, fails: the main text of a text with two pairs of markers
    still holds the second pair, and a second extraction takes it out. *)
Lemma extract_idempotent_counterexample :
  let s := py "A===REASONING_TRACE_START===x===REASONING_TRACE_END===B===REASONING_TRACE_START===y===REASONING_TRACE_END===" in
  let m := py "AB===REASONING_TRACE_START===y===REASONING_TRACE_END===" in
  _extract_reasoning_trace (VStr s) = (VStr m, Some (py "x"))
  /\ _extract_reasoning_trace (VStr m) = (VStr (py "AB"), Some (py "y"))
  /\ _extract_reasoning_trace (VStr m) <> (VStr m, None).
Proof.
  intros s m. split; [vm_compute; reflexivity|].
  split; [vm_compute; reflexivity|]. vm_compute. discriminate.
Qed.

Lemma extract_main_stripped (s m : pystr) (r : option pystr) :
  _extract_reasoning_trace (VStr s) = (VStr m, r) -> strip m = m.
Proof.
  unfold _extract_reasoning_trace.
  destruct (pattern_search s) as [mt|]; intros H; injection H as <- _;
    apply strip_idem.
Qed.

(** C5 (amended).  When the main text returned by the extractor holds no
    pair of markers, extracting from it again returns it unchanged with no
    reasoning; this is the case whenever the text itself held no pair. *)
Theorem extract_idempotent_without_pair :
  (forall (s m : pystr) (r : option pystr),
     _extract_reasoning_trace (VStr s) = (VStr m, r) ->
     ~ has_pair m ->
     _extract_reasoning_trace (VStr m) = (VStr m, None))
  /\ (forall s : pystr,
        ~ has_pair s ->
        _extract_reasoning_trace (VStr s) = (VStr (strip s), None)
        /\ _extract_reasoning_trace (VStr (strip s)) = (VStr (strip s), None)).
Proof.
  split.
  - intros s m r H Hm. rewrite (extract_no_pair m Hm).
    now rewrite (extract_main_stripped s m r H).
  - intros s Hs. split; [now apply extract_no_pair|].
    rewrite (extract_no_pair _ (no_pair_strip s Hs)). now rewrite strip_idem.
Qed.

Lemma extract_idempotent_without_pair_witness :
  _extract_reasoning_trace (VStr (py "  hello  ")) = (VStr (py "hello"), None)
  /\ ~ has_pair (py "hello")
  /\ _extract_reasoning_trace (VStr (py "hello")) = (VStr (py "hello"), None).
Proof.
  assert (E : _extract_reasoning_trace (VStr (py "  hello  "))
              = (VStr (py "hello"), None)) by reflexivity.
  assert (N : ~ has_pair (py "hello"))
    by (apply pattern_search_none_iff; reflexivity).
  split; [exact E|]. split; [exact N|].
  exact (proj1 extract_idempotent_without_pair _ _ _ E N).
Defined.

(* ================================================================== *)
(** * The logger: what one call of [record] does to the world *)
(* ================================================================== *)

(** Case analysis on every [match] and [if] of the goal. *)
Ltac split_matches :=
  repeat match goal with
         | |- context [match ?x with _ => _ end] => destruct x eqn:?
         end.

Ltac crunch := split_matches; cbn in *; try congruence; auto.

Section RecordFacts.

Context {B : PyBuiltins}.

Lemma path_join_inj (d a b : pystr) :
  path_join d a = path_join d b -> a = b.
Proof.
  unfold path_join. destruct (rev d) as [|c r]; auto.
  destruct (ascii_eqb c "/"); intros H.
  - now apply app_inv_head in H.
  - apply app_inv_head in H. now apply app_inv_head in H.
Qed.

(** The three sinks of a logger are three different files. *)
Lemma init_sinks_distinct (d : pystr) (otel ctx : bool) (w : World) :
  let l := ALogger.__init__ d otel ctx w in
  ALogger.operational_file l <> ALogger.cognitive_file l
  /\ (forall p, ALogger.contextual_file l = Some p ->
                p <> ALogger.operational_file l
                /\ p <> ALogger.cognitive_file l).
Proof.
  cbn. split.
  - intros H. apply path_join_inj in H. discriminate.
  - intros p. destruct ctx; [|discriminate]. intros H. injection H as <-.
    split; intros H; apply path_join_inj in H; discriminate.
Qed.

Lemma existing_docs_update (p q : pystr) (docs : list pyval) (w : World) :
  ALogger.existing_docs (set_files (file_update p docs (files w)) w) q
  = if pystr_eqb q p then docs else ALogger.existing_docs w q.
Proof.
  unfold ALogger.existing_docs, set_files, file_update. cbn.
  now destruct (pystr_eqb q p).
Qed.

(** ** [_write_to_file] *)

Lemma write_to_file_docs (p q : pystr) (e : pyval) (w : World) :
  io_fault w (io_ctr w) = None ->
  ALogger.existing_docs (ALogger._write_to_file p e w) q
  = if pystr_eqb q p then ALogger.existing_docs w p ++ json_doc e
    else ALogger.existing_docs w q.
Proof.
  intros H. unfold ALogger._write_to_file, open_file, json_doc. rewrite H.
  destruct (to_json e) as [doc|ex]; cbn.
  - unfold ALogger.existing_docs, file_update. cbn.
    now destruct (pystr_eqb q p).
  - unfold ALogger.existing_docs, file_update. cbn.
    destruct (pystr_eqb q p); auto. now rewrite app_nil_r.
Qed.

Lemma write_to_file_io (p : pystr) (e : pyval) (w : World) :
  io_fault (ALogger._write_to_file p e w) = io_fault w
  /\ io_ctr (ALogger._write_to_file p e w) = S (io_ctr w)
  /\ uuid_src (ALogger._write_to_file p e w) = uuid_src w
  /\ uuid_ctr (ALogger._write_to_file p e w) = uuid_ctr w.
Proof. unfold ALogger._write_to_file, open_file. crunch. Qed.

(** A failed opening: nothing is written, one ERROR line on the
    console, one attempt. *)
Lemma write_to_file_fault (p : pystr) (e : pyval) (w : World) (msg : pystr) :
  io_fault w (io_ctr w) = Some msg ->
  files (ALogger._write_to_file p e w) = files w
  /\ console (ALogger._write_to_file p e w)
     = console w ++ [(ERROR, py "Failed to write to " ++ p ++ py ": " ++ msg)]
  /\ io_ctr (ALogger._write_to_file p e w) = S (io_ctr w)
  /\ spans (ALogger._write_to_file p e w) = spans w.
Proof.
  intros H. unfold ALogger._write_to_file, open_file. rewrite H. cbn. auto.
Qed.

(** ** [_read_file] and [get_logs] *)

Lemma read_file_docs (p : pystr) (w : World) :
  no_io_fault w ->
  fst (ALogger._read_file p w) = ALogger.existing_docs w p
  /\ files (snd (ALogger._read_file p w)) = files w
  /\ io_fault (snd (ALogger._read_file p w)) = io_fault w.
Proof.
  intros H. unfold ALogger._read_file, ALogger.existing_docs, open_file.
  destruct (files w p) as [docs|]; cbn; auto.
  rewrite H. cbn. auto.
Qed.

Lemma existing_docs_same_files (w w' : World) (p : pystr) :
  files w' = files w -> ALogger.existing_docs w' p = ALogger.existing_docs w p.
Proof. unfold ALogger.existing_docs. now intros ->. Qed.

Lemma no_io_fault_same (w w' : World) :
  io_fault w' = io_fault w -> no_io_fault w -> no_io_fault w'.
Proof. unfold no_io_fault. now intros ->. Qed.

Lemma get_logs_all (self : ALogger.t) (w : World) :
  no_io_fault w ->
  fst (ALogger.get_logs self None w)
  = ALogger.existing_docs w (ALogger.operational_file self)
    ++ ALogger.existing_docs w (ALogger.cognitive_file self)
    ++ match ALogger.contextual_file self with
       | Some p => ALogger.existing_docs w p
       | None => []
       end.
Proof.
  intros H. unfold ALogger.get_logs. cbn [ALogger.wants].
  destruct (read_file_docs (ALogger.operational_file self) w H)
    as (E1 & F1 & I1).
  destruct (ALogger._read_file (ALogger.operational_file self) w)
    as [l1 w1]. cbn in E1, F1, I1.
  pose proof (no_io_fault_same w w1 I1 H) as H1.
  destruct (read_file_docs (ALogger.cognitive_file self) w1 H1)
    as (E2 & F2 & I2).
  destruct (ALogger._read_file (ALogger.cognitive_file self) w1)
    as [l2 w2]. cbn in E2, F2, I2.
  pose proof (no_io_fault_same w1 w2 I2 H1) as H2.
  rewrite E1, E2, (existing_docs_same_files w w1 _ F1).
  destruct (ALogger.contextual_file self) as [p|]; cbn.
  - destruct (read_file_docs p w2 H2) as (E3 & _).
    destruct (ALogger._read_file p w2) as [l3 w3]. cbn in E3 |- *.
    rewrite E3, (existing_docs_same_files w1 w2 _ F2),
      (existing_docs_same_files w w1 _ F1).
    now rewrite <- app_assoc.
  - now rewrite app_nil_r.
Qed.

Lemma get_logs_operational (self : ALogger.t) (w : World) :
  no_io_fault w ->
  fst (ALogger.get_logs self (Some (py "operational")) w)
  = ALogger.existing_docs w (ALogger.operational_file self).
Proof.
  intros H. unfold ALogger.get_logs.
  change (ALogger.wants (Some (py "operational")) (py "operational"))
    with true.
  change (ALogger.wants (Some (py "operational")) (py "cognitive"))
    with false.
  change (ALogger.wants (Some (py "operational")) (py "contextual"))
    with false.
  cbn iota.
  destruct (read_file_docs (ALogger.operational_file self) w H) as (E1 & _).
  destruct (ALogger._read_file (ALogger.operational_file self) w)
    as [l1 w1]. cbn in E1 |- *. exact E1.
Qed.

End RecordFacts.

Section RecordStages.

Context {B : PyBuiltins}.

Lemma same_disk_refl (w : World) : same_disk w w.
Proof. now repeat split. Qed.

Lemma same_disk_trans (a b c : World) :
  same_disk a b -> same_disk b c -> same_disk a c.
Proof. intros (?&?&?) (?&?&?). repeat split; congruence. Qed.

Lemma same_uuid_trans (a b c : World) :
  same_uuid a b -> same_uuid b c -> same_uuid a c.
Proof. intros (?&?) (?&?). split; congruence. Qed.

(** ** Block "Generate IDs" *)

Lemma generate_ids_logger (self : ALogger.t) (tid sid : option pystr)
    (w : World) :
  let self1 := fst (snd (ALogger.generate_ids self tid sid w)) in
  (forall s, ALogger.sink_of self1 s = ALogger.sink_of self s)
  /\ ALogger.operational_file self1 = ALogger.operational_file self
  /\ ALogger.cognitive_file self1 = ALogger.cognitive_file self
  /\ ALogger.contextual_file self1 = ALogger.contextual_file self
  /\ ALogger.enable_otel self1 = ALogger.enable_otel self
  /\ ALogger.otel self1 = ALogger.otel self.
Proof.
  unfold ALogger.generate_ids, ALogger.sink_of.
  destruct tid as [tid|]; [|destruct (ALogger.current_trace_id self)
                               as [[|c cs]|]];
    destruct sid as [sid|]; cbn; repeat split; auto.
Qed.

Lemma generate_ids_world (self : ALogger.t) (tid sid : option pystr)
    (w : World) :
  let w1 := snd (snd (ALogger.generate_ids self tid sid w)) in
  same_disk w w1
  /\ console w1 = console w
  /\ spans w1 = spans w
  /\ uuid_src w1 = uuid_src w
  /\ uuid_ctr w <= uuid_ctr w1.
Proof.
  unfold ALogger.generate_ids, same_disk, uuid4.
  destruct tid as [tid|]; [|destruct (ALogger.current_trace_id self)
                               as [[|c cs]|]];
    destruct sid as [sid|]; cbn; repeat split; auto.
Qed.

(** The trace id of the envelope and the id retained afterwards. *)
Lemma generate_ids_explicit (self : ALogger.t) (tid : pystr)
    (sid : option pystr) (w : World) :
  fst (fst (ALogger.generate_ids self (Some tid) sid w)) = tid
  /\ ALogger.current_trace_id
       (fst (snd (ALogger.generate_ids self (Some tid) sid w)))
     = ALogger.current_trace_id self.
Proof. unfold ALogger.generate_ids. destruct sid; cbn; auto. Qed.

Lemma generate_ids_fresh (self : ALogger.t) (sid : option pystr) (w : World) :
  ALogger.current_trace_id self = None ->
  fst (fst (ALogger.generate_ids self None sid w)) = uuid_src w (uuid_ctr w)
  /\ ALogger.current_trace_id
       (fst (snd (ALogger.generate_ids self None sid w)))
     = Some (uuid_src w (uuid_ctr w))
  /\ uuid_ctr w < uuid_ctr (snd (snd (ALogger.generate_ids self None sid w))).
Proof.
  intros H. unfold ALogger.generate_ids, uuid4. rewrite H.
  destruct sid; cbn; auto.
Qed.

Lemma generate_ids_retained (self : ALogger.t) (sid : option pystr)
    (w : World) (t : pystr) :
  ALogger.current_trace_id self = Some t -> t <> [] ->
  fst (fst (ALogger.generate_ids self None sid w)) = t
  /\ ALogger.current_trace_id
       (fst (snd (ALogger.generate_ids self None sid w)))
     = Some t.
Proof.
  intros H Ht. unfold ALogger.generate_ids, uuid4. rewrite H.
  destruct t as [|c cs]; [contradiction|]. destruct sid; cbn; auto.
Qed.

(** ** Block "Create the envelope" *)

Lemma create_envelope_world (agent surface level t s : pystr)
    (event : list (pystr * pyval)) (w : World) :
  let w1 := snd (ALogger.create_envelope agent surface level t s event w) in
  same_disk w w1
  /\ console w1 = console w
  /\ spans w1 = spans w
  /\ uuid_src w1 = uuid_src w
  /\ uuid_ctr w1 = S (uuid_ctr w).
Proof. cbn. unfold same_disk. cbn. auto. Qed.

Lemma create_envelope_fields (agent surface level t s : pystr)
    (event : list (pystr * pyval)) (w : World) :
  let e := fst (ALogger.create_envelope agent surface level t s event w) in
  entry_field (py "trace_id") e = Some (VStr t)
  /\ entry_field (py "span_id") e = Some (VStr s)
  /\ entry_field (py "surface") e = Some (VStr surface)
  /\ entry_field (py "agent") e = Some (VStr agent)
  /\ entry_field (py "level") e = Some (VStr level)
  /\ entry_field (py "event") e = Some (VDict event).
Proof. cbn. auto 7. Qed.

(** ** Block "Export to OpenTelemetry" *)

Lemma emit_span_world (x : OTelExporter.t) (surface agent : pystr)
    (event : list (pystr * pyval)) (w : World) :
  let w1 := fst (OTelExporter.emit_span x surface agent event w) in
  same_disk w w1 /\ same_uuid w w1 /\ console w1 = console w.
Proof.
  unfold OTelExporter.emit_span, start_span, same_disk, same_uuid.
  destruct (negb (OTelExporter.tracer x)); cbn; auto 7.
  destruct (tracer_fault w (tracer_ctr w)); cbn; auto 7.
  destruct (OTelExporter.set_event_attributes event _) as [attrs r].
  cbn. auto 7.
Qed.

Lemma export_to_otel_world (self : ALogger.t) (surface agent : pystr)
    (event : list (pystr * pyval)) (w : World) :
  let w1 := fst (ALogger.export_to_otel self surface agent event w) in
  same_disk w w1 /\ same_uuid w w1
  /\ exists extra, console w1 = console w ++ extra.
Proof.
  unfold ALogger.export_to_otel.
  destruct (if ALogger.enable_otel self then ALogger.otel self else None)
    as [x|].
  - pose proof (emit_span_world x surface agent event w) as (D & U & C).
    destruct (OTelExporter.emit_span x surface agent event w) as [w' [u|e]];
      cbn in D, U, C |- *.
    + repeat split; try apply D; try apply U.
      exists []. now rewrite app_nil_r.
    + destruct (exc_is_Exception e); cbn.
      * repeat split; try apply D; try apply U.
        eexists. now rewrite C.
      * repeat split; try apply D; try apply U.
        exists []. now rewrite app_nil_r.
  - cbn. repeat split. exists []. now rewrite app_nil_r.
Qed.

(** Only an exception that is no [Exception] leaves the export. *)
Lemma export_to_otel_raise (self : ALogger.t) (surface agent : pystr)
    (event : list (pystr * pyval)) (w : World) (e : exc) :
  snd (ALogger.export_to_otel self surface agent event w) = Raise e ->
  exc_is_Exception e = false.
Proof.
  unfold ALogger.export_to_otel.
  destruct (if ALogger.enable_otel self then ALogger.otel self else None)
    as [x|]; [|discriminate].
  destruct (OTelExporter.emit_span x surface agent event w) as [w' [u|e']];
    [discriminate|].
  destruct (exc_is_Exception e') eqn:E; [discriminate|].
  cbn. intros H. injection H as <-. exact E.
Qed.

(** ** Block "Console logging" *)

Lemma console_logging_world (surface agent : pystr)
    (event : list (pystr * pyval)) (w : World) :
  let w1 := fst (ALogger.console_logging surface agent event w) in
  same_disk w w1 /\ same_uuid w w1
  /\ exists extra, console w1 = console w ++ extra.
Proof.
  unfold ALogger.console_logging, same_disk, same_uuid.
  split_matches; cbn; repeat split;
    solve [ exists []; now rewrite app_nil_r | eexists; reflexivity ].
Qed.

Lemma console_logging_other_surface (surface agent : pystr)
    (event : list (pystr * pyval)) (w : World) :
  surface <> py "operational" ->
  ALogger.console_logging surface agent event w = (w, Ok tt).
Proof.
  intros H. unfold ALogger.console_logging.
  now rewrite (pystr_eqb_neq _ _ H).
Qed.

End RecordStages.

Section RecordWhole.

Context {B : PyBuiltins}.

(** [record] is its five blocks, one after the other. *)
Lemma record_stages (self : ALogger.t) (surface agent : pystr)
    (event : list (pystr * pyval)) (level : pystr)
    (tid sid : option pystr) (w : World) :
  let g := ALogger.generate_ids self tid sid w in
  let self1 := fst (snd g) in
  let ce := ALogger.create_envelope agent surface level (fst (fst g))
              (snd (fst g)) event (snd (snd g)) in
  let w3 := ALogger.write_to_sink self1 surface (fst ce) (snd ce) in
  let x := ALogger.export_to_otel self1 surface agent event w3 in
  ALogger.record self surface agent event level tid sid w
  = match snd x with
    | Raise e => ((self1, fst x), Raise e)
    | Ok _ =>
        let k := ALogger.console_logging surface agent event (fst x) in
        ((self1, fst k), snd k)
    end
  /\ ALogger.record_entry self surface agent event level tid sid w = fst ce.
Proof.
  unfold ALogger.record, ALogger.record_entry.
  destruct (ALogger.generate_ids self tid sid w) as [[t s] [self1 w1]].
  cbn [fst snd].
  destruct (ALogger.create_envelope agent surface level t s event w1)
    as [entry w2].
  cbn [fst snd].
  destruct (ALogger.export_to_otel self1 surface agent event
              (ALogger.write_to_sink self1 surface entry w2)) as [w4 [u|e]].
  - cbn [fst snd].
    destruct (ALogger.console_logging surface agent event w4) as [w5 r].
    split; reflexivity.
  - split; reflexivity.
Qed.

Lemma record_logger (self : ALogger.t) (surface agent : pystr)
    (event : list (pystr * pyval)) (level : pystr)
    (tid sid : option pystr) (w : World) :
  fst (fst (ALogger.record self surface agent event level tid sid w))
  = fst (snd (ALogger.generate_ids self tid sid w)).
Proof.
  destruct (record_stages self surface agent event level tid sid w) as [E _].
  rewrite E. now destruct (snd (ALogger.export_to_otel _ _ _ _ _)).
Qed.

(** The world after [record], seen from the world after the write. *)
Lemma record_after_write (self : ALogger.t) (surface agent : pystr)
    (event : list (pystr * pyval)) (level : pystr)
    (tid sid : option pystr) (w : World) :
  let g := ALogger.generate_ids self tid sid w in
  let ce := ALogger.create_envelope agent surface level (fst (fst g))
              (snd (fst g)) event (snd (snd g)) in
  let w3 := ALogger.write_to_sink (fst (snd g)) surface (fst ce) (snd ce) in
  let w' := snd (fst (ALogger.record self surface agent event level tid sid w)) in
  same_disk w3 w' /\ same_uuid w3 w'
  /\ exists extra, console w' = console w3 ++ extra.
Proof.
  cbn zeta.
  destruct (record_stages self surface agent event level tid sid w) as [E _].
  cbn zeta in E. rewrite E. clear E.
  set (g := ALogger.generate_ids self tid sid w).
  set (ce := ALogger.create_envelope _ _ _ _ _ _ _).
  set (w3 := ALogger.write_to_sink _ _ _ _).
  pose proof (export_to_otel_world (fst (snd g)) surface agent event w3)
    as (D & U & (x1 & C)).
  destruct (ALogger.export_to_otel (fst (snd g)) surface agent event w3)
    as [w4 [u|e]]; cbn [fst snd] in *.
  - pose proof (console_logging_world surface agent event w4)
      as (D' & U' & (x2 & C')).
    cbn zeta in D', U', C'.
    repeat split.
    + apply (same_disk_trans _ _ _ D D').
    + apply (same_disk_trans _ _ _ D D').
    + apply (same_disk_trans _ _ _ D D').
    + apply (same_uuid_trans _ _ _ U U').
    + apply (same_uuid_trans _ _ _ U U').
    + exists (x1 ++ x2). now rewrite C', C, app_assoc.
  - repeat split; try apply D; try apply U. now exists x1.
Qed.

Lemma write_to_sink_world (self : ALogger.t) (surface : pystr)
    (e : pyval) (w : World) :
  let w1 := ALogger.write_to_sink self surface e w in
  io_fault w1 = io_fault w /\ same_uuid w w1.
Proof.
  unfold ALogger.write_to_sink, same_uuid.
  destruct (ALogger.sink_of self surface) as [p|]; cbn; auto.
  pose proof (write_to_file_io p e w) as (? & ? & ? & ?). auto.
Qed.

(** What one call of [record] leaves on the disk. *)
Lemma record_disk (self : ALogger.t) (surface agent : pystr)
    (event : list (pystr * pyval)) (level : pystr)
    (tid sid : option pystr) (w : World) :
  let w' := snd (fst (ALogger.record self surface agent event level tid sid w)) in
  let entry := ALogger.record_entry self surface agent event level tid sid w in
  io_fault w' = io_fault w
  /\ uuid_src w' = uuid_src w
  /\ uuid_ctr w < uuid_ctr w'
  /\ (io_fault w (io_ctr w) = None ->
      forall q,
        ALogger.existing_docs w' q
        = match ALogger.sink_of self surface with
          | Some p =>
              if pystr_eqb q p
              then ALogger.existing_docs w p ++ json_doc entry
              else ALogger.existing_docs w q
          | None => ALogger.existing_docs w q
          end).
Proof.
  cbn zeta.
  pose proof (record_after_write self surface agent event level tid sid w)
    as (D3 & U3 & _).
  destruct (record_stages self surface agent event level tid sid w) as [_ E].
  cbn zeta in D3, U3, E. rewrite E. clear E.
  pose proof (generate_ids_logger self tid sid w) as (Hs & _).
  pose proof (generate_ids_world self tid sid w) as (D1 & _ & _ & U1 & L1).
  cbn zeta in Hs, D1, U1, L1.
  set (g := ALogger.generate_ids self tid sid w) in *.
  pose proof (create_envelope_world agent surface level (fst (fst g))
                (snd (fst g)) event (snd (snd g))) as (D2 & _ & _ & U2 & L2).
  cbn zeta in D2, U2, L2.
  set (ce := ALogger.create_envelope _ _ _ _ _ _ _) in *.
  pose proof (write_to_sink_world (fst (snd g)) surface (fst ce) (snd ce))
    as (I3 & U3').
  cbn zeta in I3.
  set (w3 := ALogger.write_to_sink _ _ _ _) in *.
  set (w' := snd (fst (ALogger.record _ _ _ _ _ _ _ _))) in *.
  pose proof (same_disk_trans _ _ _ D1 D2) as D12.
  destruct D12 as (F12 & I12 & C12).
  destruct D3 as (F3 & IO3 & C3).
  destruct U3 as (US3 & UC3). destruct U3' as (US3' & UC3').
  repeat split.
  - congruence.
  - congruence.
  - rewrite UC3, UC3', L2. lia.
  - intros Hio q.
    rewrite (existing_docs_same_files w3 w' q F3). subst w3.
    unfold ALogger.write_to_sink. rewrite Hs.
    destruct (ALogger.sink_of self surface) as [p|].
    + rewrite write_to_file_docs by (rewrite I12, C12; exact Hio).
      now rewrite !(existing_docs_same_files w (snd ce) _ F12).
    + now rewrite (existing_docs_same_files w (snd ce) _ F12).
Qed.

End RecordWhole.

(* ================================================================== *)
(** * Sessions: what is read back *)
(* ================================================================== *)


Section Sessions.

Context {B : PyBuiltins}.

Lemma pystr_eqb_sym (a b : pystr) : pystr_eqb a b = pystr_eqb b a.
Proof.
  destruct (pystr_eqb a b) eqn:E.
  - apply pystr_eqb_eq in E. subst. now rewrite pystr_eqb_refl.
  - destruct (pystr_eqb b a) eqn:E'; auto.
    apply pystr_eqb_eq in E'. subst. now rewrite pystr_eqb_refl in E.
Qed.

Lemma do_record_logger (l : ALogger.t) (w : World) (c : record_call) :
  let l' := fst (do_record (l, w) c) in
  (forall s, ALogger.sink_of l' s = ALogger.sink_of l s)
  /\ ALogger.operational_file l' = ALogger.operational_file l
  /\ ALogger.cognitive_file l' = ALogger.cognitive_file l
  /\ ALogger.contextual_file l' = ALogger.contextual_file l.
Proof.
  cbn zeta. unfold do_record. cbn [fst snd]. rewrite record_logger.
  pose proof (generate_ids_logger l (c_trace_id c) (c_span_id c) w)
    as (H1 & H2 & H3 & H4 & _).
  auto.
Qed.

(** The documents of every file after a session. *)
Lemma session_docs (calls : list record_call) (l : ALogger.t) (w : World) :
  no_io_fault w ->
  let st' := session calls (l, w) in
  (forall q, ALogger.existing_docs (snd st') q
             = ALogger.existing_docs w q
               ++ docs_for q (session_log calls (l, w)))
  /\ io_fault (snd st') = io_fault w
  /\ ALogger.operational_file (fst st') = ALogger.operational_file l
  /\ ALogger.cognitive_file (fst st') = ALogger.cognitive_file l
  /\ ALogger.contextual_file (fst st') = ALogger.contextual_file l.
Proof.
  revert l w. induction calls as [|c calls IH]; intros l w Hio.
  - cbn. repeat split; auto. intros q. now rewrite app_nil_r.
  - cbn zeta. cbn [session fold_left session_log].
    pose proof (do_record_logger l w c) as (_ & O & C & X).
    pose proof (record_disk l (c_surface c) (c_agent c) (c_event c)
                  (c_level c) (c_trace_id c) (c_span_id c) w)
      as (I & _ & _ & D).
    cbn zeta in O, C, X, I, D. specialize (D (Hio _)).
    destruct (do_record (l, w) c) as [l1 w1] eqn:E.
    assert (E1 : fst (ALogger.record l (c_surface c) (c_agent c) (c_event c)
                        (c_level c) (c_trace_id c) (c_span_id c) w)
                 = (l1, w1)) by exact E.
    rewrite E1 in I, D. cbn [fst snd] in O, C, X, I, D.
    specialize (IH l1 w1 (no_io_fault_same w w1 I Hio)).
    cbn zeta in IH. unfold session in IH.
    destruct IH as (IHd & IHi & IHo & IHc & IHx).
    repeat split; try congruence.
    intros q. rewrite IHd, D. unfold docs_for at 2.
    cbn [flat_map fst snd]. fold (docs_for q (session_log calls (l1, w1))).
    destruct (ALogger.sink_of l (c_surface c)) as [p|].
    + rewrite (pystr_eqb_sym p q).
      destruct (pystr_eqb q p) eqn:Eq.
      * apply pystr_eqb_eq in Eq. subst q. now rewrite <- app_assoc.
      * reflexivity.
    + reflexivity.
Qed.

(** Documents sent to three different files, taken file by file, are the
    documents sent, up to their order. *)
Lemma docs_for_partition (a b c : pystr) (log : list (option pystr * pyval)) :
  a <> b -> a <> c -> b <> c ->
  Forall (fun se => fst se = Some a \/ fst se = Some b \/ fst se = Some c) log ->
  Permutation (docs_for a log ++ docs_for b log ++ docs_for c log)
    (flat_map json_doc (map snd log)).
Proof.
  intros Hab Hac Hbc H. induction H as [|[sk e] log Hx _ IH].
  - constructor.
  - cbn [map flat_map snd]. unfold docs_for. cbn [flat_map fst snd].
    fold (docs_for a log) (docs_for b log) (docs_for c log).
    cbn [fst] in Hx.
    assert (Hba : b <> a) by congruence.
    assert (Hca : c <> a) by congruence.
    assert (Hcb : c <> b) by congruence.
    destruct Hx as [->|[->| ->]];
      rewrite ?pystr_eqb_refl, ?(pystr_eqb_neq _ _ Hab),
        ?(pystr_eqb_neq _ _ Hac), ?(pystr_eqb_neq _ _ Hbc),
        ?(pystr_eqb_neq _ _ Hba), ?(pystr_eqb_neq _ _ Hca),
        ?(pystr_eqb_neq _ _ Hcb); cbn [app].
    + rewrite <- app_assoc. now apply Permutation_app_head.
    + rewrite <- (app_assoc (json_doc e)).
      etransitivity; [apply Permutation_app_swap_app|].
      now apply Permutation_app_head.
    + rewrite (app_assoc (docs_for a log)).
      etransitivity; [apply Permutation_app_swap_app|].
      rewrite <- app_assoc. now apply Permutation_app_head.
Qed.

Lemma sink_of_cases (l : ALogger.t) (s : pystr) :
  ALogger.sink_of l s = Some (ALogger.operational_file l)
  \/ ALogger.sink_of l s = Some (ALogger.cognitive_file l)
  \/ ALogger.sink_of l s = ALogger.contextual_file l.
Proof. unfold ALogger.sink_of. crunch. Qed.

Lemma session_log_sinks (calls : list record_call) (l : ALogger.t)
    (w : World) (p : pystr) :
  ALogger.contextual_file l = Some p ->
  Forall (fun se => fst se = Some (ALogger.operational_file l)
                    \/ fst se = Some (ALogger.cognitive_file l)
                    \/ fst se = Some p)
    (session_log calls (l, w)).
Proof.
  revert l w. induction calls as [|c calls IH]; intros l w Hp; cbn.
  - constructor.
  - constructor.
    + cbn. rewrite <- Hp. apply sink_of_cases.
    + pose proof (do_record_logger l w c) as (_ & O & C & X).
      cbn zeta in O, C, X.
      destruct (do_record (l, w) c) as [l1 w1]. cbn [fst] in O, C, X.
      rewrite <- O, <- C. apply IH. congruence.
Qed.

End Sessions.

(** C3, as stated, fails: a cognitive event recorded before an operational
    one is read back after it, because [get_logs] reads the operational
    file first. *)
Lemma get_logs_order_counterexample :
  let l0 := ALogger.__init__ (py "logs") false true example_world in
  let st := @session example_builtins two_surface_calls (l0, example_world) in
  let written :=
    flat_map json_doc
      (map snd (@session_log example_builtins two_surface_calls
                  (l0, example_world))) in
  let read := fst (ALogger.get_logs (fst st) None (snd st)) in
  map (entry_field (py "surface")) written
  = [Some (VStr (py "cognitive")); Some (VStr (py "operational"))]
  /\ map (entry_field (py "surface")) read
     = [Some (VStr (py "operational")); Some (VStr (py "cognitive"))]
  /\ read <> written.
Proof.
  cbn zeta. split; [vm_compute; reflexivity|].
  split; [vm_compute; reflexivity|].
  intros H.
  apply (f_equal (map (entry_field (py "surface")))) in H.
  vm_compute in H. discriminate.
Qed.

(** C3 (amended).  In a session of one writer that starts on empty sinks
    and in which no opening of a file fails, [get_logs()] returns the
    documents of the envelopes sent to the operational file, then those
    sent to the cognitive file, then those sent to the contextual file
    when it is kept, each group in the order of the calls; with the
    contextual file kept, this is a rearrangement of the documents of all
    the envelopes written: none is lost and none is duplicated. *)
Theorem get_logs_after_session {B : PyBuiltins} (d : pystr) (otel ctx : bool)
    (w : World) (calls : list record_call) :
  no_io_fault w ->
  sinks_empty (ALogger.__init__ d otel ctx w) w ->
  let l0 := ALogger.__init__ d otel ctx w in
  let st := session calls (l0, w) in
  let log := session_log calls (l0, w) in
  let read := fst (ALogger.get_logs (fst st) None (snd st)) in
  read = docs_for (ALogger.operational_file l0) log
         ++ docs_for (ALogger.cognitive_file l0) log
         ++ match ALogger.contextual_file l0 with
            | Some p => docs_for p log
            | None => []
            end
  /\ (ctx = true -> Permutation read (flat_map json_doc (map snd log))).
Proof.
  intros Hio (E1 & E2 & E3). cbn zeta.
  set (l0 := ALogger.__init__ d otel ctx w) in *.
  pose proof (session_docs calls l0 w Hio) as (D & I & O & C & X).
  cbn zeta in D, I, O, C, X.
  assert (R : fst (ALogger.get_logs (fst (session calls (l0, w))) None
                     (snd (session calls (l0, w))))
              = docs_for (ALogger.operational_file l0) (session_log calls (l0, w))
                ++ docs_for (ALogger.cognitive_file l0) (session_log calls (l0, w))
                ++ match ALogger.contextual_file l0 with
                   | Some p => docs_for p (session_log calls (l0, w))
                   | None => []
                   end).
  { rewrite get_logs_all by (apply (no_io_fault_same w _ I Hio)).
    rewrite O, C, X, !D, E1, E2. cbn [app].
    destruct (ALogger.contextual_file l0) as [p|] eqn:Ep; auto.
    now rewrite D, (E3 p eq_refl). }
  split; [exact R|].
  intros ->. rewrite R.
  destruct (init_sinks_distinct d otel true w) as (N1 & N2).
  cbn zeta in N1, N2. fold l0 in N1, N2.
  destruct (ALogger.contextual_file l0) as [p|] eqn:Ep.
  - destruct (N2 p eq_refl) as (N3 & N4).
    apply docs_for_partition; auto.
    now apply session_log_sinks.
  - discriminate.
Qed.

Lemma get_logs_after_session_witness :
  let l0 := ALogger.__init__ (py "logs") false true example_world in
  let st := @session example_builtins two_surface_calls (l0, example_world) in
  let log := @session_log example_builtins two_surface_calls
               (l0, example_world) in
  let read := fst (ALogger.get_logs (fst st) None (snd st)) in
  read = docs_for (ALogger.operational_file l0) log
         ++ docs_for (ALogger.cognitive_file l0) log
         ++ match ALogger.contextual_file l0 with
            | Some p => docs_for p log
            | None => []
            end
  /\ (true = true -> Permutation read (flat_map json_doc (map snd log))).
Proof.
  apply (@get_logs_after_session example_builtins (py "logs") false true
           example_world two_surface_calls).
  - intros n. reflexivity.
  - repeat split; reflexivity.
Defined.

(* ================================================================== *)
(** * The trace context *)
(* ================================================================== *)

Section TraceContext.

Context {B : PyBuiltins}.

Lemma record_entry_trace (self : ALogger.t) (surface agent : pystr)
    (event : list (pystr * pyval)) (level : pystr)
    (tid sid : option pystr) (w : World) :
  trace_id_of (ALogger.record_entry self surface agent event level tid sid w)
  = Some (VStr (fst (fst (ALogger.generate_ids self tid sid w)))).
Proof.
  destruct (record_stages self surface agent event level tid sid w) as [_ E].
  cbn zeta in E. rewrite E. reflexivity.
Qed.

(** Without an explicit trace id, the id of the envelope is retained. *)
Lemma generate_ids_none_retains (self : ALogger.t) (sid : option pystr)
    (w : World) :
  ALogger.current_trace_id (fst (snd (ALogger.generate_ids self None sid w)))
  = Some (fst (fst (ALogger.generate_ids self None sid w))).
Proof.
  unfold ALogger.generate_ids.
  destruct (ALogger.current_trace_id self) as [[|c cs]|];
    destruct sid; reflexivity.
Qed.

Lemma generate_ids_none_nonempty (self : ALogger.t) (sid : option pystr)
    (w : World) :
  uuid_fresh w -> fst (fst (ALogger.generate_ids self None sid w)) <> [].
Proof.
  intros (_ & Hne). unfold ALogger.generate_ids, uuid4.
  destruct (ALogger.current_trace_id self) as [[|c cs]|];
    destruct sid; cbn; try apply Hne; discriminate.
Qed.

(** The id retained after a call was retained before or has just been
    drawn. *)
Lemma generate_ids_retained_cases (self : ALogger.t) (tid sid : option pystr)
    (w : World) (t : pystr) :
  ALogger.current_trace_id (fst (snd (ALogger.generate_ids self tid sid w)))
  = Some t ->
  ALogger.current_trace_id self = Some t \/ t = uuid_src w (uuid_ctr w).
Proof.
  unfold ALogger.generate_ids, uuid4.
  destruct tid as [tid|];
    [|destruct (ALogger.current_trace_id self) as [[|c cs]|]];
    destruct sid; cbn; intros H; auto; injection H as <-; auto.
Qed.

Lemma do_record_uuid (l : ALogger.t) (w : World) (c : record_call) :
  uuid_src (snd (do_record (l, w) c)) = uuid_src w
  /\ uuid_ctr w < uuid_ctr (snd (do_record (l, w) c)).
Proof.
  unfold do_record. cbn [fst snd].
  pose proof (record_disk l (c_surface c) (c_agent c) (c_event c)
                (c_level c) (c_trace_id c) (c_span_id c) w) as (_ & U & L & _).
  auto.
Qed.

Lemma do_record_retained_drawn (l : ALogger.t) (w : World) (c : record_call) :
  retained_drawn l w ->
  retained_drawn (fst (do_record (l, w) c)) (snd (do_record (l, w) c)).
Proof.
  intros H t Ht. destruct (do_record_uuid l w c) as (U & L).
  unfold do_record in Ht. cbn [fst snd] in Ht. rewrite record_logger in Ht.
  apply generate_ids_retained_cases in Ht as [Ht| ->].
  - destruct (H t Ht) as (k & Hk & ->). exists k. rewrite U. split; auto. lia.
  - exists (uuid_ctr w). rewrite U. auto.
Qed.

Lemma session_retained_drawn (calls : list record_call) (l : ALogger.t)
    (w : World) :
  retained_drawn l w ->
  retained_drawn (fst (session calls (l, w))) (snd (session calls (l, w)))
  /\ uuid_src (snd (session calls (l, w))) = uuid_src w.
Proof.
  revert l w. induction calls as [|c calls IH]; intros l w H.
  - cbn. auto.
  - cbn [session fold_left]. pose proof (do_record_retained_drawn l w c H) as H1.
    destruct (do_record_uuid l w c) as (U & _).
    destruct (do_record (l, w) c) as [l1 w1]. cbn [fst snd] in H1, U.
    destruct (IH l1 w1 H1) as (IH1 & IH2). unfold session in IH1, IH2.
    split; [exact IH1 | congruence].
Qed.

Lemma init_retained_drawn (d : pystr) (otel ctx : bool) (w : World) :
  retained_drawn (ALogger.__init__ d otel ctx w) w.
Proof. intros t H. discriminate. Qed.

(** C6.  With no trace id supplied and none retained (after construction
    or after a reset), [record] draws a fresh trace id and retains it; with
    one retained, [record] reuses it, so that two consecutive calls share
    their trace id; an explicit trace id is used for its envelope only and
    the retained one stays as it was; and after a reset the id allocated by
    the next call differs from the one retained before. *)
Theorem trace_id_retention :
  (forall self surface agent event level sid w,
     ALogger.current_trace_id self = None ->
     trace_id_of (ALogger.record_entry self surface agent event level None sid w)
     = Some (VStr (uuid_src w (uuid_ctr w)))
     /\ ALogger.current_trace_id
          (fst (fst (ALogger.record self surface agent event level None sid w)))
        = Some (uuid_src w (uuid_ctr w)))
  /\ (forall self surface agent event level sid w t,
        ALogger.current_trace_id self = Some t -> t <> [] ->
        trace_id_of (ALogger.record_entry self surface agent event level None sid w)
        = Some (VStr t)
        /\ ALogger.current_trace_id
             (fst (fst (ALogger.record self surface agent event level None sid w)))
           = Some t)
  /\ (forall self surface agent event level tid sid w,
        trace_id_of
          (ALogger.record_entry self surface agent event level (Some tid) sid w)
        = Some (VStr tid)
        /\ ALogger.current_trace_id
             (fst (fst (ALogger.record self surface agent event level
                          (Some tid) sid w)))
           = ALogger.current_trace_id self)
  /\ (forall self w c1 c2,
        uuid_fresh w -> c_trace_id c1 = None -> c_trace_id c2 = None ->
        let st1 := do_record (self, w) c1 in
        trace_id_of
          (ALogger.record_entry self (c_surface c1) (c_agent c1) (c_event c1)
             (c_level c1) (c_trace_id c1) (c_span_id c1) w)
        = trace_id_of
            (ALogger.record_entry (fst st1) (c_surface c2) (c_agent c2)
               (c_event c2) (c_level c2) (c_trace_id c2) (c_span_id c2)
               (snd st1)))
  /\ (forall d otel ctx w calls surface agent event level sid t,
        uuid_fresh w ->
        let st := session calls (ALogger.__init__ d otel ctx w, w) in
        ALogger.current_trace_id (fst st) = Some t ->
        exists t',
          trace_id_of
            (ALogger.record_entry (reset_trace (fst st)) surface agent event
               level None sid (snd st))
          = Some (VStr t')
          /\ ALogger.current_trace_id
               (fst (fst (ALogger.record (reset_trace (fst st)) surface agent
                            event level None sid (snd st))))
             = Some t'
          /\ t' <> t).
Proof.
  split; [|split; [|split; [|split]]].
  - intros self surface agent event level sid w H.
    rewrite record_entry_trace, record_logger.
    destruct (generate_ids_fresh self sid w H) as (-> & -> & _). auto.
  - intros self surface agent event level sid w t H Ht.
    rewrite record_entry_trace, record_logger.
    destruct (generate_ids_retained self sid w t H Ht) as (-> & ->). auto.
  - intros self surface agent event level tid sid w.
    rewrite record_entry_trace, record_logger.
    destruct (generate_ids_explicit self tid sid w) as (-> & ->). auto.
  - intros self w c1 c2 Hu H1 H2. cbn zeta.
    rewrite !record_entry_trace, H1, H2. do 2 f_equal.
    unfold do_record. cbn [fst snd]. rewrite record_logger, H1.
    pose proof (generate_ids_none_retains self (c_span_id c1) w) as R.
    pose proof (generate_ids_none_nonempty self (c_span_id c1) w Hu) as N.
    symmetry.
    apply (generate_ids_retained _ (c_span_id c2) _ _ R N).
  - intros d otel ctx w calls surface agent event level sid t Hu. cbn zeta.
    intros Ht.
    destruct (session_retained_drawn calls _ w (init_retained_drawn d otel ctx w))
      as (Hd & Hs).
    set (st := session calls (ALogger.__init__ d otel ctx w, w)) in *.
    destruct (Hd t Ht) as (k & Hk & ->).
    assert (Hn : ALogger.current_trace_id (reset_trace (fst st)) = None)
      by reflexivity.
    exists (uuid_src (snd st) (uuid_ctr (snd st))).
    rewrite record_entry_trace, record_logger.
    destruct (generate_ids_fresh (reset_trace (fst st)) sid (snd st) Hn)
      as (-> & -> & _).
    repeat split. intros E. destruct Hu as (Hinj & _).
    rewrite Hs in E. apply Hinj in E. lia.
Qed.

End TraceContext.

Lemma example_uuid_fresh : uuid_fresh example_world.
Proof.
  split; cbn; unfold example_uuid.
  - intros i j H. apply (f_equal (@Datatypes.length ascii)) in H.
    cbn in H. rewrite !repeat_length in H. lia.
  - intros i. discriminate.
Qed.

Lemma trace_id_retention_witness :
  let st :=
    @session example_builtins two_surface_calls
      (ALogger.__init__ (py "logs") false true example_world, example_world) in
  uuid_fresh example_world
  /\ ALogger.current_trace_id (fst st) = Some (py "u")
  /\ exists t',
       trace_id_of
         (ALogger.record_entry (reset_trace (fst st)) (py "operational")
            (py "agent") [] (py "INFO") None None (snd st))
       = Some (VStr t')
       /\ ALogger.current_trace_id
            (fst (fst (@ALogger.record example_builtins (reset_trace (fst st))
                         (py "operational") (py "agent") [] (py "INFO")
                         None None (snd st))))
          = Some t'
       /\ t' <> py "u".
Proof.
  intros st. split; [exact example_uuid_fresh|].
  assert (R : ALogger.current_trace_id (fst st) = Some (py "u"))
    by reflexivity.
  split; [exact R|].
  exact (proj2 (proj2 (proj2 (proj2 (@trace_id_retention example_builtins))))
           (py "logs") false true example_world two_surface_calls
           (py "operational") (py "agent") [] (py "INFO") None (py "u")
           example_uuid_fresh R).
Defined.

(* ================================================================== *)
(** * Failures of the sink and unknown surfaces *)
(* ================================================================== *)

Section SinkFailures.

Context {B : PyBuiltins}.

(** Where an exception that leaves [record] comes from. *)
Lemma record_raise_origin (self : ALogger.t) (surface agent : pystr)
    (event : list (pystr * pyval)) (level : pystr)
    (tid sid : option pystr) (w : World) (e : exc) :
  snd (ALogger.record self surface agent event level tid sid w) = Raise e ->
  exc_is_Exception e = false
  \/ exists w4, snd (ALogger.console_logging surface agent event w4) = Raise e.
Proof.
  destruct (record_stages self surface agent event level tid sid w) as [E _].
  cbn zeta in E. rewrite E. clear E.
  destruct (ALogger.export_to_otel _ surface agent event _) as [w4 [u|e']] eqn:X;
    cbn [fst snd].
  - intros H. right. now exists w4.
  - intros H. injection H as <-. left.
    eapply export_to_otel_raise. rewrite X. reflexivity.
Qed.

(** The console line of an event whose method and status are strings. *)
Lemma console_logging_strings (surface agent method status : pystr)
    (rest : list (pystr * pyval)) (w : World) :
  exists w', ALogger.console_logging surface agent
               ((py "method", VStr method) :: (py "status", VStr status) :: rest)
               w
             = (w', Ok tt).
Proof.
  unfold ALogger.console_logging.
  destruct (pystr_eqb surface (py "operational") && _); [|eauto].
  cbn. eauto.
Qed.

Lemma record_operational_raise (self : ALogger.t) (agent method status : pystr)
    (duration_sec tool_name tool_parameters result_summary error
     token_usage latency_ms caller metadata : pyval)
    (level : pystr) (tid sid : option pystr) (w : World) (e : exc) :
  snd (ALogger.record_operational self agent method status duration_sec
         tool_name tool_parameters result_summary error token_usage latency_ms
         caller metadata level tid sid w) = Raise e ->
  exc_is_Exception e = false.
Proof.
  unfold ALogger.record_operational. intros H.
  apply record_raise_origin in H as [H|(w4 & H)]; auto.
  destruct (console_logging_strings (py "operational") agent method status
              [ (py "duration_sec", duration_sec);
                (py "tool_name", tool_name);
                (py "tool_parameters", tool_parameters);
                (py "result_summary", result_summary);
                (py "error", error);
                (py "token_usage", token_usage);
                (py "latency_ms", latency_ms);
                (py "caller", caller);
                (py "metadata", ALogger.or_empty_dict metadata) ] w4)
    as (w' & E).
  rewrite E in H. discriminate.
Qed.

Lemma record_other_surface_raise (self : ALogger.t) (surface agent : pystr)
    (event : list (pystr * pyval)) (level : pystr)
    (tid sid : option pystr) (w : World) (e : exc) :
  surface <> py "operational" ->
  snd (ALogger.record self surface agent event level tid sid w) = Raise e ->
  exc_is_Exception e = false.
Proof.
  intros Hs H. apply record_raise_origin in H as [H|(w4 & H)]; auto.
  rewrite console_logging_other_surface in H by assumption. discriminate.
Qed.

(** C7 (amended).  When the opening of the sink file fails during a call
    of [record], the error is caught and logged on the console at level
    ERROR, nothing is written, the file is opened once only, and an
    exception that leaves [record] is one that the span export let through
    or that the console line of the event raised, never the I/O error;
    none that is an [Exception] leaves [record_operational],
    [record_cognitive] or [record_contextual]. *)
Theorem sink_write_error_recovered :
  (forall self surface agent event level tid sid w p msg,
     ALogger.sink_of self surface = Some p ->
     io_fault w (io_ctr w) = Some msg ->
     let res := ALogger.record self surface agent event level tid sid w in
     files (snd (fst res)) = files w
     /\ (exists extra,
           console (snd (fst res))
           = console w
             ++ (ERROR, py "Failed to write to " ++ p ++ py ": " ++ msg)
                :: extra)
     /\ io_ctr (snd (fst res)) = S (io_ctr w)
     /\ (forall e, snd res = Raise e ->
           exc_is_Exception e = false
           \/ exists w4,
                snd (ALogger.console_logging surface agent event w4) = Raise e))
  /\ (forall self agent method status duration_sec tool_name tool_parameters
        result_summary error token_usage latency_ms caller metadata level
        tid sid w e,
        snd (ALogger.record_operational self agent method status duration_sec
               tool_name tool_parameters result_summary error token_usage
               latency_ms caller metadata level tid sid w) = Raise e ->
        exc_is_Exception e = false)
  /\ (forall self agent thought reasoning_step plan reflection confidence goal
        model token_count prompt_excerpt completion_excerpt level tid sid w e,
        snd (ALogger.record_cognitive self agent thought reasoning_step plan
               reflection confidence goal model token_count prompt_excerpt
               completion_excerpt level tid sid w) = Raise e ->
        exc_is_Exception e = false)
  /\ (forall self agent operation source_type source_name query
        retrieved_count retrieved_items provenance cache_hit write_value
        memory_state_hash metadata level tid sid w e,
        snd (ALogger.record_contextual self agent operation source_type
               source_name query retrieved_count retrieved_items provenance
               cache_hit write_value memory_state_hash metadata level tid sid w)
        = Raise e ->
        exc_is_Exception e = false).
Proof.
  split; [|split; [|split]].
  - intros self surface agent event level tid sid w p msg Hp Hf. cbn zeta.
    pose proof (record_after_write self surface agent event level tid sid w)
      as ((F3 & _ & C3) & _ & (extra & X3)).
    cbn zeta in F3, C3, X3.
    pose proof (generate_ids_logger self tid sid w) as (Hs & _).
    pose proof (generate_ids_world self tid sid w)
      as ((F1 & I1 & C1) & X1 & _).
    cbn zeta in Hs, F1, I1, C1, X1.
    set (g := ALogger.generate_ids self tid sid w) in *.
    pose proof (create_envelope_world agent surface level (fst (fst g))
                  (snd (fst g)) event (snd (snd g)))
      as ((F2 & I2 & C2) & X2 & _).
    cbn zeta in F2, I2, C2, X2.
    set (ce := ALogger.create_envelope _ _ _ _ _ _ _) in *.
    unfold ALogger.write_to_sink in F3, C3, X3. rewrite Hs, Hp in F3, C3, X3.
    assert (Hf2 : io_fault (snd ce) (io_ctr (snd ce)) = Some msg)
      by (rewrite I2, C2, I1, C1; exact Hf).
    destruct (write_to_file_fault p (fst ce) (snd ce) msg Hf2)
      as (WF & WC & WI & _).
    repeat split.
    + congruence.
    + exists extra. rewrite X3, WC, X2, X1. now rewrite <- app_assoc.
    + congruence.
    + apply record_raise_origin.
  - intros. eapply record_operational_raise; eassumption.
  - intros until e. unfold ALogger.record_cognitive.
    apply record_other_surface_raise. discriminate.
  - intros until e. unfold ALogger.record_contextual.
    apply record_other_surface_raise. discriminate.
Qed.

End SinkFailures.

(** C7, as stated, fails on the level: the failed write is logged with
    [console_logger.error], and no WARNING line is produced. *)
Lemma sink_write_error_level_counterexample :
  let l0 := ALogger.__init__ (py "logs") false false broken_disk_world in
  let res :=
    @ALogger.record_operational example_builtins l0 (py "agent") (py "run")
      (py "start") VNone VNone VNone VNone VNone VNone VNone VNone VNone
      (py "INFO") None None broken_disk_world in
  console (snd (fst res))
  = [ (ERROR, py "Failed to write to logs/operational.jsonl: [Errno 28] No space left on device");
      (INFO, py "agent.run - start") ]
  /\ Forall (fun line => fst line <> WARNING) (console (snd (fst res)))
  /\ files (snd (fst res)) (py "logs/operational.jsonl") = None
  /\ snd res = Ok tt.
Proof.
  cbn zeta. split; [vm_compute; reflexivity|].
  split; [|split; vm_compute; reflexivity].
  vm_compute. repeat constructor; discriminate.
Qed.

Lemma sink_write_error_recovered_witness :
  let l0 := ALogger.__init__ (py "logs") false false broken_disk_world in
  let res :=
    @ALogger.record example_builtins l0 (py "cognitive") (py "agent")
      [(py "thought", VStr (py "plan"))] (py "INFO") None None
      broken_disk_world in
  files (snd (fst res)) = files broken_disk_world
  /\ (exists extra,
        console (snd (fst res))
        = console broken_disk_world
          ++ (ERROR, py "Failed to write to " ++ py "logs/cognitive.jsonl"
                     ++ py ": " ++ py "[Errno 28] No space left on device")
             :: extra)
  /\ io_ctr (snd (fst res)) = S (io_ctr broken_disk_world)
  /\ (forall e, snd res = Raise e ->
        exc_is_Exception e = false
        \/ exists w4,
             snd (@ALogger.console_logging example_builtins (py "cognitive")
                    (py "agent") [(py "thought", VStr (py "plan"))] w4)
             = Raise e).
Proof.
  apply (proj1 (@sink_write_error_recovered example_builtins)
           (ALogger.__init__ (py "logs") false false broken_disk_world)
           (py "cognitive") (py "agent") [(py "thought", VStr (py "plan"))]
           (py "INFO") None None broken_disk_world
           (py "logs/cognitive.jsonl")
           (py "[Errno 28] No space left on device")).
  - reflexivity.
  - reflexivity.
Defined.

Section UnknownSurface.

Context {B : PyBuiltins}.

Lemma sink_of_unknown (self : ALogger.t) (surface : pystr) :
  surface <> py "operational" -> surface <> py "cognitive" ->
  surface <> py "contextual" ->
  ALogger.sink_of self surface = Some (ALogger.operational_file self).
Proof.
  intros H1 H2 H3. unfold ALogger.sink_of.
  now rewrite (pystr_eqb_neq _ _ H1), (pystr_eqb_neq _ _ H2),
    (pystr_eqb_neq _ _ H3).
Qed.

(** The JSON document of an envelope keeps its string fields. *)
Lemma to_json_envelope (id ts agent surface level t s : pystr)
    (event : list (pystr * pyval)) (doc : pyval) :
  to_json (ALogger.envelope id ts agent surface level t s event) = Ok doc ->
  entry_field (py "surface") doc = Some (VStr surface)
  /\ entry_field (py "agent") doc = Some (VStr agent)
  /\ entry_field (py "level") doc = Some (VStr level)
  /\ entry_field (py "trace_id") doc = Some (VStr t)
  /\ entry_field (py "span_id") doc = Some (VStr s).
Proof.
  unfold ALogger.envelope. cbn [to_json].
  match goal with
  | |- context [match ?f event with Ok _ => _ | Raise _ => _ end] =>
      destruct (f event)
  end; cbn; [|discriminate].
  intros H. injection H as <-. cbn. auto.
Qed.

Lemma record_entry_envelope (self : ALogger.t) (surface agent : pystr)
    (event : list (pystr * pyval)) (level : pystr)
    (tid sid : option pystr) (w : World) :
  exists id ts t s,
    ALogger.record_entry self surface agent event level tid sid w
    = ALogger.envelope id ts agent surface level t s event.
Proof.
  unfold ALogger.record_entry.
  destruct (ALogger.generate_ids self tid sid w) as [[t s] [self1 w1]].
  cbn. eauto.
Qed.

(** C10.  A call of [record] whose surface is none of the three known
    names sends its envelope to the operational file: when no opening of a
    file fails and the envelope has a JSON form, reading the operational
    surface afterwards returns what the file held followed by the document
    of the envelope, which still carries the surface name given; and no
    [Exception] leaves the call. *)
Theorem unknown_surface_goes_operational (self : ALogger.t)
    (surface agent : pystr) (event : list (pystr * pyval)) (level : pystr)
    (tid sid : option pystr) (w : World) (doc : pyval) :
  surface <> py "operational" -> surface <> py "cognitive" ->
  surface <> py "contextual" ->
  no_io_fault w ->
  to_json (ALogger.record_entry self surface agent event level tid sid w)
  = Ok doc ->
  let res := ALogger.record self surface agent event level tid sid w in
  ALogger.sink_of self surface = Some (ALogger.operational_file self)
  /\ fst (ALogger.get_logs (fst (fst res)) (Some (py "operational"))
            (snd (fst res)))
     = ALogger.existing_docs w (ALogger.operational_file self) ++ [doc]
  /\ entry_field (py "surface") doc = Some (VStr surface)
  /\ (forall e, snd res = Raise e -> exc_is_Exception e = false).
Proof.
  intros H1 H2 H3 Hio Hdoc. cbn zeta.
  pose proof (sink_of_unknown self surface H1 H2 H3) as Hs.
  split; [exact Hs|].
  pose proof (record_disk self surface agent event level tid sid w)
    as (I & _ & _ & D).
  cbn zeta in I, D. specialize (D (Hio _)).
  split; [|split].
  - rewrite get_logs_operational by (apply (no_io_fault_same w _ I Hio)).
    rewrite record_logger.
    pose proof (generate_ids_logger self tid sid w) as (_ & -> & _).
    rewrite D, Hs, pystr_eqb_refl. unfold json_doc. now rewrite Hdoc.
  - destruct (record_entry_envelope self surface agent event level tid sid w)
      as (id & ts & t & s & E).
    rewrite E in Hdoc. now apply to_json_envelope in Hdoc.
  - intros e. now apply record_other_surface_raise.
Qed.

End UnknownSurface.

Lemma unknown_surface_goes_operational_witness :
  let l0 := ALogger.__init__ (py "logs") false true example_world in
  let res :=
    @ALogger.record example_builtins l0 (py "audit") (py "agent")
      [(py "note", VStr (py "checked"))] (py "INFO") None None example_world in
  exists doc,
    ALogger.sink_of l0 (py "audit") = Some (py "logs/operational.jsonl")
    /\ fst (ALogger.get_logs (fst (fst res)) (Some (py "operational"))
              (snd (fst res)))
       = [doc]
    /\ entry_field (py "surface") doc = Some (VStr (py "audit"))
    /\ (forall e, snd res = Raise e -> exc_is_Exception e = false).
Proof.
  intros l0 res. eexists.
  apply (@unknown_surface_goes_operational example_builtins l0 (py "audit")
           (py "agent") [(py "note", VStr (py "checked"))] (py "INFO")
           None None example_world).
  - discriminate.
  - discriminate.
  - discriminate.
  - intros n. reflexivity.
  - reflexivity.
Defined.

(* ================================================================== *)
(** * The span bridge *)
(* ================================================================== *)

(** [json.dumps] raises nothing but [TypeError]. *)
Lemma to_json_raise_Exception :
  forall v e, to_json v = Raise e -> exc_is_Exception e = true.
Proof.
  fix IH 1. intros v e. destruct v; cbn [to_json]; try discriminate.
  - revert e. revert l. fix IHl 1. intros [|x r] e; [discriminate|].
    pose proof (IHl r) as Hr. pose proof (IH x) as Hx. revert Hr Hx.
    cbn. destruct (to_json x) as [x'|ex]; intros Hr Hx.
    + revert Hr.
      match goal with
      | |- context [match ?f r with Ok _ => _ | Raise _ => _ end] =>
          destruct (f r)
      end; intros Hr; [discriminate|].
      intros H. injection H as <-. now apply Hr.
    + intros H. injection H as <-. now apply Hx.
  - revert e. revert l. fix IHl 1. intros [|x r] e; [discriminate|].
    pose proof (IHl r) as Hr. pose proof (IH x) as Hx. revert Hr Hx.
    cbn. destruct (to_json x) as [x'|ex]; intros Hr Hx.
    + revert Hr.
      match goal with
      | |- context [match ?f r with Ok _ => _ | Raise _ => _ end] =>
          destruct (f r)
      end; intros Hr; [discriminate|].
      intros H. injection H as <-. now apply Hr.
    + intros H. injection H as <-. now apply Hx.
  - revert e. revert d. fix IHd 1. intros [|[k x] r] e; [discriminate|].
    pose proof (IHd r) as Hr. pose proof (IH x) as Hx. revert Hr Hx.
    cbn. destruct (to_json x) as [x'|ex]; intros Hr Hx.
    + revert Hr.
      match goal with
      | |- context [match ?f r with Ok _ => _ | Raise _ => _ end] =>
          destruct (f r)
      end; intros Hr; [discriminate|].
      intros H. injection H as <-. now apply Hr.
    + intros H. injection H as <-. now apply Hx.
  - intros H. injection H as <-. reflexivity.
Qed.

Section SpanBridge.

Context {B : PyBuiltins}.

Lemma first_choice_raise (v : pyval) (e : exc) :
  raises_only_Exception v ->
  OTelExporter.first_choice v = Raise e -> exc_is_Exception e = true.
Proof.
  intros (Hs & _). unfold OTelExporter.first_choice, json_dumps.
  destruct v; try discriminate;
    try (destruct (py_str _) as [s|e'] eqn:E; [discriminate|];
         intros H; injection H as <-; now apply Hs).
  destruct (to_json (VDict d)) as [doc|e'] eqn:E; [discriminate|].
  intros H. injection H as <-. now apply (to_json_raise_Exception _ _ E).
Qed.

Lemma attribute_value_degraded (v : pyval) :
  raises_only_Exception v ->
  OTelExporter.attribute_value v = Ok (degraded_value v).
Proof.
  intros H. unfold OTelExporter.attribute_value, degraded_value.
  destruct (OTelExporter.first_choice v) as [a|e] eqn:E; [reflexivity|].
  rewrite (first_choice_raise v e H E).
  destruct (py_repr v) as [s|e'] eqn:R; [reflexivity|].
  destruct H as (_ & Hr). now rewrite (Hr e' R).
Qed.

Lemma set_event_attributes_all (items attrs : list (pystr * pyval)) :
  Forall (fun kv => raises_only_Exception (snd kv)) items ->
  OTelExporter.set_event_attributes items attrs
  = (attrs ++ expected_attrs items, Ok tt).
Proof.
  intros H. revert attrs. induction H as [|[k v] items Hv _ IH]; intros attrs.
  - cbn. now rewrite app_nil_r.
  - cbn [OTelExporter.set_event_attributes]. unfold expected_attrs.
    cbn [flat_map fst snd]. fold (expected_attrs items). cbn [snd] in Hv.
    destruct v;
      try (rewrite (attribute_value_degraded _ Hv), IH;
           now rewrite <- app_assoc).
    apply IH.
Qed.

(** The three ways a payload value reaches the span. *)
Lemma degraded_value_cases (v : pyval) :
  (forall a, OTelExporter.first_choice v = Ok a -> degraded_value v = a)
  /\ (forall e s, OTelExporter.first_choice v = Raise e ->
                  py_repr v = Ok s -> degraded_value v = VStr s)
  /\ (forall e e', OTelExporter.first_choice v = Raise e ->
                   py_repr v = Raise e' ->
                   degraded_value v = VStr (OTelExporter.error_marker v)).
Proof.
  unfold degraded_value. repeat split.
  - now intros a ->.
  - now intros e s -> ->.
  - now intros e e' -> ->.
Qed.

Lemma expected_attrs_in (event : list (pystr * pyval)) (k : pystr) (v : pyval) :
  In (k, v) event -> v <> VNone -> In (k, degraded_value v) (expected_attrs event).
Proof.
  intros Hin Hv. unfold expected_attrs. apply in_flat_map.
  exists (k, v). split; auto. cbn. destruct v; try (now left). contradiction.
Qed.

(** C8 (amended).  With a tracer that starts the span, and [str] and
    [repr] raising nothing but [Exception]s on the payload, [emit_span]
    ends exactly one span, named "{agent}.{surface}", whose attributes are
    the surface, the agent and one attribute for each payload item that is
    not [None], in order.  An item whose serialization fails is set to
    [repr(value)], and to the error marker with the type name of the value
    only when [repr] fails too; the other items are set all the same. *)
Theorem emit_span_degrades_attribute (x : OTelExporter.t)
    (surface agent : pystr) (event : list (pystr * pyval)) (w : World) :
  OTelExporter.tracer x = true ->
  tracer_fault w (tracer_ctr w) = None ->
  Forall (fun kv => raises_only_Exception (snd kv)) event ->
  let res := OTelExporter.emit_span x surface agent event w in
  let emitted :=
    mkSpan (agent ++ py "." ++ surface)
      ([(py "surface", VStr surface); (py "agent", VStr agent)]
       ++ expected_attrs event) in
  snd res = Ok tt
  /\ spans (fst res) = spans w ++ [emitted]
  /\ (forall k v, In (k, v) event -> v <> VNone ->
        In (k, degraded_value v) (span_attrs emitted))
  /\ (forall v,
        (forall a, OTelExporter.first_choice v = Ok a -> degraded_value v = a)
        /\ (forall e s, OTelExporter.first_choice v = Raise e ->
                        py_repr v = Ok s -> degraded_value v = VStr s)
        /\ (forall e e', OTelExporter.first_choice v = Raise e ->
                         py_repr v = Raise e' ->
                         degraded_value v
                         = VStr (py "<error serializing value: "
                                 ++ type_name v ++ py ">"))).
Proof.
  intros Ht Hf Hev. cbn zeta. unfold OTelExporter.emit_span, start_span.
  rewrite Ht, Hf. cbn [negb].
  rewrite (set_event_attributes_all event _ Hev). cbn [fst snd].
  repeat split.
  - intros k v Hin Hv. cbn [span_attrs]. apply in_or_app. right.
    now apply expected_attrs_in.
  - apply degraded_value_cases.
  - apply degraded_value_cases.
  - apply degraded_value_cases.
Qed.

End SpanBridge.

(** C8, as stated, fails: a dictionary that [json.dumps] cannot write is
    set to its [repr], not to the error marker. *)
Lemma emit_span_marker_counterexample :
  let x := OTelExporter.__init__ traced_world in
  let value := VDict [(py "db", VObj (py "Connection") true)] in
  let res :=
    @OTelExporter.emit_span example_builtins x (py "contextual") (py "agent")
      connection_event traced_world in
  (exists e, @OTelExporter.first_choice example_builtins value = Raise e)
  /\ spans (fst res)
     = [ mkSpan (py "agent.contextual")
           [ (py "surface", VStr (py "contextual"));
             (py "agent", VStr (py "agent"));
             (py "operation", VStr (py "store"));
             (py "write_value", VStr (py "{'db': <Connection>}"));
             (py "handle", VStr (py "<error serializing value: Unprintable>"));
             (py "retrieved_count", VInt 3) ] ]
  /\ ~ In (py "write_value", VStr (OTelExporter.error_marker value))
         (flat_map span_attrs (spans (fst res))).
Proof.
  cbn zeta. split; [eexists; vm_compute; reflexivity|].
  split; [vm_compute; reflexivity|].
  vm_compute. intros H.
  repeat (destruct H as [H|H]; [discriminate|]). exact H.
Qed.

Lemma emit_span_degrades_attribute_witness :
  let x := OTelExporter.__init__ traced_world in
  let res :=
    @OTelExporter.emit_span example_builtins x (py "contextual") (py "agent")
      connection_event traced_world in
  snd res = Ok tt
  /\ spans (fst res)
     = spans traced_world
       ++ [ mkSpan (py "agent" ++ py "." ++ py "contextual")
              ([ (py "surface", VStr (py "contextual"));
                 (py "agent", VStr (py "agent")) ]
               ++ @expected_attrs example_builtins connection_event) ].
Proof.
  intros x res.
  assert (Hev : Forall (fun kv => @raises_only_Exception example_builtins (snd kv))
                  connection_event).
  { repeat constructor; cbn; intros e H; try discriminate;
      injection H as <-; reflexivity. }
  pose proof (@emit_span_degrades_attribute example_builtins x
                (py "contextual") (py "agent") connection_event traced_world
                eq_refl eq_refl Hev) as (H1 & H2 & _).
  split; [exact H1 | exact H2].
Defined.

(* ================================================================== *)
(** * The logging wrapper *)
(* ================================================================== *)

Section WrapperFacts.

Context {B : PyBuiltins}.

(** ** JSON documents of the wrapper's events *)

Lemma simple_to_json (v : pyval) : simple v -> to_json v = Ok v.
Proof. destruct v; cbn [simple]; try reflexivity; try contradiction; auto. Qed.

Lemma to_json_dict_fixed (d : list (pystr * pyval)) :
  Forall (fun kv => to_json (snd kv) = Ok (snd kv)) d ->
  to_json (VDict d) = Ok (VDict d).
Proof.
  intros H. cbn [to_json].
  match goal with
  | |- match ?f d with Ok _ => _ | Raise _ => _ end = _ =>
      assert (E : f d = Ok d)
  end.
  { induction H as [|[k x] r Hx _ IH]; [reflexivity|].
    cbn [snd] in Hx. cbn. rewrite Hx.
    cbn in IH. rewrite IH. reflexivity. }
  cbn in E. rewrite E. reflexivity.
Qed.

Lemma to_json_list_fixed (l : list pyval) :
  Forall (fun x => to_json x = Ok x) l -> to_json (VList l) = Ok (VList l).
Proof.
  intros H. cbn [to_json].
  match goal with
  | |- match ?f l with Ok _ => _ | Raise _ => _ end = _ =>
      assert (E : f l = Ok l)
  end.
  { induction H as [|x r Hx _ IH]; [reflexivity|].
    cbn. rewrite Hx. cbn in IH. rewrite IH. reflexivity. }
  cbn in E. rewrite E. reflexivity.
Qed.

Lemma to_json_envelope_fixed (id ts agent surface level t s : pystr)
    (event : list (pystr * pyval)) :
  Forall (fun kv => simple (snd kv)) event ->
  to_json (ALogger.envelope id ts agent surface level t s event)
  = Ok (ALogger.envelope id ts agent surface level t s event).
Proof.
  intros H. unfold ALogger.envelope. apply to_json_dict_fixed.
  repeat constructor. cbn [snd]. apply to_json_dict_fixed.
  eapply Forall_impl; [|exact H]. intros kv. apply simple_to_json.
Qed.

Lemma args_shape_simple (args : list pyval) (kwargs : list (pystr * pyval))
    (extra : list (pystr * pyval)) :
  Forall (fun kv => to_json (snd kv) = Ok (snd kv)) extra ->
  simple (VDict (extra ++ args_shape args kwargs)).
Proof.
  intros H. cbn [simple]. apply to_json_dict_fixed.
  apply Forall_app. split; [exact H|].
  unfold args_shape. repeat constructor. cbn [snd].
  apply to_json_list_fixed. apply Forall_map, Forall_forall.
  intros kv _. reflexivity.
Qed.

(** ** The span of a simple event never lets an exception through *)

Lemma set_event_attributes_simple (items attrs : list (pystr * pyval)) :
  Forall (fun kv => simple (snd kv)) items ->
  snd (OTelExporter.set_event_attributes items attrs) = Ok tt.
Proof.
  intros H. revert attrs. induction H as [|[k v] items Hv _ IH]; intros attrs.
  - reflexivity.
  - cbn [OTelExporter.set_event_attributes]. cbn [snd] in Hv.
    destruct v; try contradiction; try apply IH.
    unfold OTelExporter.attribute_value, OTelExporter.first_choice, json_dumps.
    cbn [simple] in Hv. rewrite Hv. apply IH.
Qed.

Lemma export_to_otel_simple (self : ALogger.t) (surface agent : pystr)
    (event : list (pystr * pyval)) (w : World) :
  tracer_safe w ->
  Forall (fun kv => simple (snd kv)) event ->
  snd (ALogger.export_to_otel self surface agent event w) = Ok tt.
Proof.
  intros Ht Hev. unfold ALogger.export_to_otel.
  destruct (if ALogger.enable_otel self then ALogger.otel self else None)
    as [x|]; [|reflexivity].
  unfold OTelExporter.emit_span, start_span.
  destruct (negb (OTelExporter.tracer x)); [reflexivity|].
  destruct (tracer_fault w (tracer_ctr w)) as [e|] eqn:E.
  - now rewrite (Ht _ _ E).
  - pose proof (set_event_attributes_simple event
                  [(py "surface", VStr surface); (py "agent", VStr agent)] Hev)
      as S.
    destruct (OTelExporter.set_event_attributes event _) as [attrs r].
    cbn [snd] in S. subst r. reflexivity.
Qed.

(** ** [record] keeps the answers of the tracer *)

Lemma write_to_file_tracer (p : pystr) (e : pyval) (w : World) :
  tracer_fault (ALogger._write_to_file p e w) = tracer_fault w.
Proof. unfold ALogger._write_to_file, open_file. crunch. Qed.

(** The world in which [record] exports the span. *)
Lemma write_stage_tracer (self : ALogger.t) (surface agent : pystr)
    (event : list (pystr * pyval)) (level : pystr)
    (tid sid : option pystr) (w : World) :
  let g := ALogger.generate_ids self tid sid w in
  let ce := ALogger.create_envelope agent surface level (fst (fst g))
              (snd (fst g)) event (snd (snd g)) in
  let w3 := ALogger.write_to_sink (fst (snd g)) surface (fst ce) (snd ce) in
  tracer_fault w3 = tracer_fault w.
Proof.
  cbn zeta.
  set (g := ALogger.generate_ids self tid sid w).
  assert (G : tracer_fault (snd (snd g)) = tracer_fault w).
  { subst g. unfold ALogger.generate_ids, uuid4.
    destruct tid as [tid|];
      [|destruct (ALogger.current_trace_id self) as [[|c cs]|]];
      destruct sid; reflexivity. }
  set (ce := ALogger.create_envelope _ _ _ _ _ _ _).
  assert (C : tracer_fault (snd ce) = tracer_fault w)
    by (subst ce; cbn; exact G).
  unfold ALogger.write_to_sink.
  destruct (ALogger.sink_of _ _); [rewrite write_to_file_tracer|]; exact C.
Qed.

Lemma export_to_otel_tracer (l : ALogger.t) (surface agent : pystr)
    (event : list (pystr * pyval)) (w : World) :
  tracer_fault (fst (ALogger.export_to_otel l surface agent event w))
  = tracer_fault w.
Proof.
  unfold ALogger.export_to_otel, OTelExporter.emit_span, start_span.
  destruct (if ALogger.enable_otel l then ALogger.otel l else None) as [x|];
    [|reflexivity].
  destruct (negb (OTelExporter.tracer x)); [reflexivity|].
  destruct (tracer_fault w (tracer_ctr w)) as [e|].
  - destruct (exc_is_Exception e); reflexivity.
  - destruct (OTelExporter.set_event_attributes event _) as [attrs [u|e]].
    + reflexivity.
    + destruct (exc_is_Exception e); reflexivity.
Qed.

Lemma record_tracer (self : ALogger.t) (surface agent : pystr)
    (event : list (pystr * pyval)) (level : pystr)
    (tid sid : option pystr) (w : World) :
  tracer_fault (snd (fst (ALogger.record self surface agent event level
                            tid sid w)))
  = tracer_fault w.
Proof.
  destruct (record_stages self surface agent event level tid sid w) as [E _].
  pose proof (write_stage_tracer self surface agent event level tid sid w) as W.
  cbn zeta in E, W. rewrite E. clear E.
  set (g := ALogger.generate_ids self tid sid w) in *.
  set (ce := ALogger.create_envelope _ _ _ _ _ _ _) in *.
  set (w3 := ALogger.write_to_sink _ _ _ _) in *.
  pose proof (export_to_otel_tracer (fst (snd g)) surface agent event w3) as X.
  destruct (ALogger.export_to_otel (fst (snd g)) surface agent event w3)
    as [w4 [u|e]]; cbn [fst snd] in *; [|congruence].
  rewrite <- W, <- X. unfold ALogger.console_logging. crunch.
Qed.

(** One call of [record] with an event of simple values, in a quiet
    world: it returns, the world stays quiet, and the envelope is the last
    document of its sink. *)
Lemma record_simple (self : ALogger.t) (surface agent : pystr)
    (event : list (pystr * pyval)) (level : pystr)
    (tid sid : option pystr) (w : World) (p : pystr) :
  quiet w ->
  Forall (fun kv => simple (snd kv)) event ->
  (forall w4, snd (ALogger.console_logging surface agent event w4) = Ok tt) ->
  ALogger.sink_of self surface = Some p ->
  let res := ALogger.record self surface agent event level tid sid w in
  snd res = Ok tt
  /\ quiet (snd (fst res))
  /\ exists id ts t s,
       forall q,
         ALogger.existing_docs (snd (fst res)) q
         = if pystr_eqb q p
           then ALogger.existing_docs w p
                ++ [ALogger.envelope id ts agent surface level t s event]
           else ALogger.existing_docs w q.
Proof.
  intros (Hio & Htr) Hev Hc Hp. cbn zeta. split; [|split].
  - destruct (record_stages self surface agent event level tid sid w) as [E _].
    pose proof (write_stage_tracer self surface agent event level tid sid w)
      as W.
    cbn zeta in E, W. rewrite E. clear E.
    set (g := ALogger.generate_ids self tid sid w) in *.
    set (ce := ALogger.create_envelope _ _ _ _ _ _ _) in *.
    set (w3 := ALogger.write_to_sink _ _ _ _) in *.
    assert (T3 : tracer_safe w3) by (unfold tracer_safe; now rewrite W).
    pose proof (export_to_otel_simple (fst (snd g)) surface agent event w3
                  T3 Hev) as X.
    destruct (ALogger.export_to_otel (fst (snd g)) surface agent event w3)
      as [w4 r]. cbn [fst snd] in X |- *. subst r. apply Hc.
  - pose proof (record_disk self surface agent event level tid sid w)
      as (I & _).
    cbn zeta in I. split.
    + now apply (no_io_fault_same w _ I).
    + unfold tracer_safe. now rewrite record_tracer.
  - pose proof (record_disk self surface agent event level tid sid w)
      as (_ & _ & _ & D).
    cbn zeta in D. specialize (D (Hio _)).
    destruct (record_entry_envelope self surface agent event level tid sid w)
      as (id & ts & t & s & E).
    exists id, ts, t, s. intros q. rewrite D, Hp, E. unfold json_doc.
    now rewrite (to_json_envelope_fixed id ts agent surface level t s event Hev).
Qed.

(** ** Calls on the global logger *)

Lemma global_record (name : pystr) (st : State) (l : ALogger.t)
    (surface agent : pystr) (event : list (pystr * pyval)) (level : pystr)
    (p : pystr) :
  _global_logger st = Some l ->
  quiet (world st) ->
  Forall (fun kv => simple (snd kv)) event ->
  (forall w4, snd (ALogger.console_logging surface agent event w4) = Ok tt) ->
  ALogger.sink_of l surface = Some p ->
  let res :=
    with_global_logger name
      (fun l => ALogger.record l surface agent event level None None) st in
  snd res = Ok tt
  /\ quiet (world (fst res))
  /\ same_sinks st (fst res)
  /\ heap (fst res) = heap st
  /\ stdout (fst res) = stdout st
  /\ exists id ts t s,
       forall q,
         ALogger.existing_docs (world (fst res)) q
         = if pystr_eqb q p
           then ALogger.existing_docs (world st) p
                ++ [ALogger.envelope id ts agent surface level t s event]
           else ALogger.existing_docs (world st) q.
Proof.
  intros Hl Hq Hev Hc Hp. cbn zeta. unfold with_global_logger. rewrite Hl.
  pose proof (record_simple l surface agent event level None None (world st)
                p Hq Hev Hc Hp) as (R1 & R2 & R3).
  pose proof (record_logger l surface agent event level None None (world st))
    as RL.
  pose proof (generate_ids_logger l None None (world st))
    as (_ & S1 & S2 & S3 & _).
  cbn zeta in R1, R2, R3, S1, S2, S3.
  destruct (ALogger.record l surface agent event level None None (world st))
    as [[l' w'] r].
  cbn [fst snd] in *. subst l'.
  assert (SS : same_sinks st
                 (mkState w' (Some (fst (snd (ALogger.generate_ids l None None
                                                (world st)))))
                    (heap st) (stdout st))).
  { unfold same_sinks. rewrite Hl. cbn [_global_logger]. auto. }
  destruct R2. repeat split; auto.
Qed.

Lemma sink_of_operational (l : ALogger.t) :
  ALogger.sink_of l (py "operational") = Some (ALogger.operational_file l).
Proof. reflexivity. Qed.

Lemma sink_of_cognitive (l : ALogger.t) :
  ALogger.sink_of l (py "cognitive") = Some (ALogger.cognitive_file l).
Proof. reflexivity. Qed.

Lemma same_sinks_docs (st st' : State) :
  same_sinks st st' ->
  (forall q, ALogger.existing_docs (world st') q
             = ALogger.existing_docs (world st) q) ->
  operational_docs st' = operational_docs st
  /\ cognitive_docs st' = cognitive_docs st.
Proof.
  unfold same_sinks, operational_docs, cognitive_docs.
  destruct (_global_logger st) as [l|]; [|contradiction].
  destruct (_global_logger st') as [l'|]; [|contradiction].
  intros (-> & -> & _) H. now rewrite !H.
Qed.

(** An operational event recorded through the global logger. *)
Lemma global_record_operational (st : State) (agent method status : pystr)
    (duration_sec result_summary error metadata : pyval) (level : pystr) :
  (exists l, _global_logger st = Some l) ->
  quiet (world st) ->
  simple duration_sec -> simple result_summary -> simple error ->
  simple (ALogger.or_empty_dict metadata) ->
  let res :=
    with_global_logger (py "record_operational")
      (fun l =>
         ALogger.record_operational l agent method status duration_sec
           VNone VNone result_summary error VNone VNone VNone metadata
           level None None) st in
  snd res = Ok tt
  /\ quiet (world (fst res))
  /\ same_sinks st (fst res)
  /\ heap (fst res) = heap st
  /\ stdout (fst res) = stdout st
  /\ exists id ts t s,
       operational_docs (fst res)
       = operational_docs st
         ++ [ALogger.envelope id ts agent (py "operational") level t s
               [ (py "method", VStr method);
                 (py "status", VStr status);
                 (py "duration_sec", duration_sec);
                 (py "tool_name", VNone);
                 (py "tool_parameters", VNone);
                 (py "result_summary", result_summary);
                 (py "error", error);
                 (py "token_usage", VNone);
                 (py "latency_ms", VNone);
                 (py "caller", VNone);
                 (py "metadata", ALogger.or_empty_dict metadata) ]]
       /\ (distinct_sinks st -> cognitive_docs (fst res) = cognitive_docs st).
Proof.
  intros (l & Hl) Hq H1 H2 H3 H4. cbn zeta. unfold ALogger.record_operational.
  match goal with
  | |- context [ALogger.record _ _ _ ?ev _ _ _] => set (event := ev)
  end.
  assert (Hev : Forall (fun kv => simple (snd kv)) event)
    by (subst event; repeat constructor; assumption).
  assert (Hc : forall w4,
             snd (ALogger.console_logging (py "operational") agent event w4)
             = Ok tt).
  { intros w4. subst event.
    destruct (console_logging_strings (py "operational") agent method status
                [ (py "duration_sec", duration_sec);
                  (py "tool_name", VNone);
                  (py "tool_parameters", VNone);
                  (py "result_summary", result_summary);
                  (py "error", error);
                  (py "token_usage", VNone);
                  (py "latency_ms", VNone);
                  (py "caller", VNone);
                  (py "metadata", ALogger.or_empty_dict metadata) ] w4)
      as (w' & E).
    now rewrite E. }
  pose proof (global_record (py "record_operational") st l
                (py "operational") agent event level
                (ALogger.operational_file l) Hl Hq Hev Hc
                (sink_of_operational l))
    as (R1 & R2 & R3 & R4 & R5 & (id & ts & t & s & R6)).
  cbn zeta in R1, R2, R3, R4, R5, R6.
  set (st' := fst (with_global_logger _ _ st)) in *.
  split; [exact R1|]. split; [exact R2|]. split; [exact R3|].
  split; [exact R4|]. split; [exact R5|].
  exists id, ts, t, s.
  unfold same_sinks in R3. unfold operational_docs, cognitive_docs, distinct_sinks.
  rewrite Hl in *. destruct (_global_logger st') as [l'|]; [|contradiction].
  destruct R3 as (-> & -> & _). split.
  - now rewrite R6, pystr_eqb_refl.
  - intros Hd. rewrite R6. rewrite pystr_eqb_neq; auto.
Qed.

(** A cognitive event recorded through the global logger. *)
Lemma global_record_cognitive (st : State) (agent : pystr)
    (thought goal model : option pystr) (level : pystr) :
  (exists l, _global_logger st = Some l) ->
  quiet (world st) ->
  let res :=
    with_global_logger (py "record_cognitive")
      (fun l =>
         ALogger.record_cognitive l agent thought VNone VNone VNone VNone
           goal model VNone VNone VNone level None None) st in
  snd res = Ok tt
  /\ quiet (world (fst res))
  /\ same_sinks st (fst res)
  /\ heap (fst res) = heap st
  /\ stdout (fst res) = stdout st
  /\ exists id ts t s,
       cognitive_docs (fst res)
       = cognitive_docs st
         ++ [ALogger.envelope id ts agent (py "cognitive") level t s
               [ (py "reasoning_step", VNone);
                 (py "thought",
                  ALogger.opt_str (ALogger.truncate_thought thought));
                 (py "plan", VNone);
                 (py "reflection", VNone);
                 (py "confidence", VNone);
                 (py "goal", ALogger.opt_str goal);
                 (py "model", ALogger.opt_str model);
                 (py "token_count", VNone);
                 (py "prompt_excerpt", VNone);
                 (py "completion_excerpt", VNone) ]]
       /\ (distinct_sinks st -> operational_docs (fst res) = operational_docs st).
Proof.
  intros (l & Hl) Hq. cbn zeta. unfold ALogger.record_cognitive.
  match goal with
  | |- context [ALogger.record _ _ _ ?ev _ _ _] => set (event := ev)
  end.
  assert (Hs : forall o, simple (ALogger.opt_str o))
    by (intros [x|]; exact I).
  assert (Hev : Forall (fun kv => simple (snd kv)) event)
    by (subst event; repeat constructor; apply Hs).
  assert (Hc : forall w4,
             snd (ALogger.console_logging (py "cognitive") agent event w4)
             = Ok tt)
    by (intros w4; rewrite console_logging_other_surface; [reflexivity|discriminate]).
  pose proof (global_record (py "record_cognitive") st l
                (py "cognitive") agent event level
                (ALogger.cognitive_file l) Hl Hq Hev Hc (sink_of_cognitive l))
    as (R1 & R2 & R3 & R4 & R5 & (id & ts & t & s & R6)).
  cbn zeta in R1, R2, R3, R4, R5, R6.
  set (st' := fst (with_global_logger _ _ st)) in *.
  split; [exact R1|]. split; [exact R2|]. split; [exact R3|].
  split; [exact R4|]. split; [exact R5|].
  exists id, ts, t, s.
  unfold same_sinks in R3. unfold operational_docs, cognitive_docs, distinct_sinks.
  rewrite Hl in *. destruct (_global_logger st') as [l'|]; [|contradiction].
  destruct R3 as (-> & -> & _). split.
  - now rewrite R6, pystr_eqb_refl.
  - intros Hd. rewrite R6. rewrite pystr_eqb_neq; auto.
Qed.

(** ** The stages of the wrapper *)

(** Reading the clock changes nothing that the logger looks at. *)
Lemma clock_read (st : State) (w : World) :
  files w = files (world st) ->
  io_fault w = io_fault (world st) ->
  tracer_fault w = tracer_fault (world st) ->
  (exists l, _global_logger st = Some l) ->
  quiet (world st) ->
  quiet (world (set_world w st))
  /\ same_sinks st (set_world w st)
  /\ operational_docs (set_world w st) = operational_docs st
  /\ cognitive_docs (set_world w st) = cognitive_docs st
  /\ (distinct_sinks st -> distinct_sinks (set_world w st)).
Proof.
  intros F I T (l & Hl) (Q1 & Q2).
  unfold quiet, no_io_fault, tracer_safe, same_sinks, operational_docs,
    cognitive_docs, distinct_sinks, set_world, ALogger.existing_docs.
  cbn [world _global_logger]. rewrite Hl, F, I, T. auto 10.
Qed.

Lemma same_sinks_trans (a b c : State) :
  same_sinks a b -> same_sinks b c -> same_sinks a c.
Proof.
  unfold same_sinks.
  destruct (_global_logger a), (_global_logger b), (_global_logger c);
    try contradiction.
  intros (?&?&?) (?&?&?). repeat split; congruence.
Qed.

Lemma same_sinks_logger (a b : State) :
  same_sinks a b -> exists l, _global_logger b = Some l.
Proof.
  unfold same_sinks. destruct (_global_logger a), (_global_logger b);
    try contradiction. eauto.
Qed.

Lemma same_sinks_distinct (a b : State) :
  same_sinks a b -> distinct_sinks a -> distinct_sinks b.
Proof.
  unfold same_sinks, distinct_sinks.
  destruct (_global_logger a), (_global_logger b); try contradiction.
  intros (-> & -> & _). auto.
Qed.

(** The beginning of the wrapper: one start event. *)
Lemma wrapper_begin_spec (agent_name method_name : pystr)
    (args : list pyval) (kwargs : list (pystr * pyval)) (st : State) :
  (exists l, _global_logger st = Some l) ->
  quiet (world st) ->
  let res := wrapper_begin agent_name method_name args kwargs st in
  snd res = Ok tt
  /\ quiet (world (fst (fst res)))
  /\ same_sinks st (fst (fst res))
  /\ exists id ts t s,
       operational_docs (fst (fst res))
       = operational_docs st
         ++ [ALogger.envelope id ts agent_name (py "operational") (py "INFO") t s
               [ (py "method", VStr method_name);
                 (py "status", VStr (py "start"));
                 (py "duration_sec", VNone);
                 (py "tool_name", VNone);
                 (py "tool_parameters", VNone);
                 (py "result_summary", VNone);
                 (py "error", VNone);
                 (py "token_usage", VNone);
                 (py "latency_ms", VNone);
                 (py "caller", VNone);
                 (py "metadata", VDict (args_shape args kwargs)) ]]
       /\ (distinct_sinks st ->
           cognitive_docs (fst (fst res)) = cognitive_docs st).
Proof.
  intros Hl Hq. cbn zeta. unfold wrapper_begin, time_time, now_isoformat.
  set (w0 := tick (tick (world st))).
  destruct (clock_read st w0 eq_refl eq_refl eq_refl Hl Hq)
    as (Q0 & S0 & O0 & C0 & D0).
  destruct (same_sinks_logger _ _ S0) as (l0 & Hl0).
  pose proof (global_record_operational (set_world w0 st) agent_name
                method_name (py "start") VNone VNone VNone
                (VDict (args_shape args kwargs)) (py "INFO")
                (ex_intro _ l0 Hl0) Q0 I I I
                (args_shape_simple args kwargs [] (Forall_nil _)))
    as (R1 & R2 & R3 & _ & _ & (id & ts & t & s & R4 & R5)).
  cbn zeta in R1, R2, R3, R4, R5.
  destruct (with_global_logger _ _ (set_world w0 st)) as [st1 r].
  cbn [fst snd] in *.
  split; [exact R1|]. split; [exact R2|].
  split; [exact (same_sinks_trans _ _ _ S0 R3)|].
  exists id, ts, t, s. split.
  - rewrite R4, O0. reflexivity.
  - intros Hd. rewrite (R5 (D0 Hd)). exact C0.
Qed.

(** The handler of the wrapper: one error event, and the same exception. *)
Lemma wrapper_except_spec (agent_name method_name : pystr)
    (start_time : pyfloat) (args : list pyval) (kwargs : list (pystr * pyval))
    (e : exc) (st : State) :
  (exists l, _global_logger st = Some l) ->
  quiet (world st) ->
  let res :=
    wrapper_except agent_name method_name start_time args kwargs e st in
  snd res = Raise e
  /\ exists id ts t s duration,
       operational_docs (fst res)
       = operational_docs st
         ++ [ALogger.envelope id ts agent_name (py "operational") (py "ERROR") t s
               [ (py "method", VStr method_name);
                 (py "status", VStr (py "error"));
                 (py "duration_sec", VFloat duration);
                 (py "tool_name", VNone);
                 (py "tool_parameters", VNone);
                 (py "result_summary", VNone);
                 (py "error", VStr (exc_type e ++ py ": " ++ exc_msg e));
                 (py "token_usage", VNone);
                 (py "latency_ms", VNone);
                 (py "caller", VNone);
                 (py "metadata",
                  VDict ((py "error_type", VStr (exc_type e))
                         :: args_shape args kwargs)) ]]
       /\ (distinct_sinks st -> cognitive_docs (fst res) = cognitive_docs st).
Proof.
  intros Hl Hq. cbn zeta. unfold wrapper_except, time_time.
  set (w0 := tick (world st)).
  destruct (clock_read st w0 eq_refl eq_refl eq_refl Hl Hq)
    as (Q0 & S0 & O0 & C0 & D0).
  destruct (same_sinks_logger _ _ S0) as (l0 & Hl0).
  assert (Hx : Forall (fun kv : pystr * pyval => to_json (snd kv) = Ok (snd kv))
                 [(py "error_type", VStr (exc_type e))])
    by (repeat constructor).
  pose proof (global_record_operational (set_world w0 st) agent_name
                method_name (py "error")
                (VFloat (time_src (world st) (clock_ctr (world st))
                         - start_time)%Z)
                VNone (VStr (exc_type e ++ py ": " ++ exc_msg e))
                (VDict ((py "error_type", VStr (exc_type e))
                        :: args_shape args kwargs))
                (py "ERROR") (ex_intro _ l0 Hl0) Q0 I I I
                (args_shape_simple args kwargs
                   [(py "error_type", VStr (exc_type e))] Hx))
    as (R1 & _ & _ & _ & _ & (id & ts & t & s & R4 & R5)).
  cbn zeta in R1, R4, R5.
  destruct (with_global_logger _ _ (set_world w0 st)) as [st1 r].
  cbn [fst snd] in *. subst r. cbn [fst snd].
  split; [reflexivity|].
  exists id, ts, t, s, (time_src (world st) (clock_ctr (world st)) - start_time)%Z.
  split.
  - rewrite R4, O0. reflexivity.
  - intros Hd. rewrite (R5 (D0 Hd)). exact C0.
Qed.

End WrapperFacts.

(** C1, as stated, fails: the handler is [except Exception], so a method
    interrupted by [KeyboardInterrupt] leaves a start event and no error
    event. *)
Lemma wrapped_call_interrupt_counterexample :
  let res :=
    @logged_wrapper example_builtins interrupted_method (py "agent") (py "run")
      [] [] example_state in
  snd res = Raise (mkExc (py "KeyboardInterrupt") [] false)
  /\ map (event_field (py "status")) (operational_docs (fst res))
     = [Some (VStr (py "start"))].
Proof. cbn zeta. split; vm_compute; reflexivity. Qed.

(** C1 (amended).  When the original method raises an exception that is an
    [Exception], in a world where no file opening fails and the tracer is
    safe, the wrapper re-raises that same exception, and adds to the
    operational file exactly one start event before what the method logs
    itself and exactly one error event after it, the error event at level
    ERROR with the type name and the message of the exception; it adds no
    other event, so no complete event. *)
Theorem wrapped_call_raises {B : PyBuiltins}
    (original_method : list pyval -> list (pystr * pyval) -> State
                       -> State * outcome pyval)
    (agent_name method_name : pystr) (args : list pyval)
    (kwargs : list (pystr * pyval)) (st st2 : State) (e : exc)
    (inner : list pyval) :
  (exists l, _global_logger st = Some l) ->
  quiet (world st) ->
  let st1 := fst (fst (wrapper_begin agent_name method_name args kwargs st)) in
  original_method args kwargs st1 = (st2, Raise e) ->
  exc_is_Exception e = true ->
  same_sinks st1 st2 ->
  quiet (world st2) ->
  operational_docs st2 = operational_docs st1 ++ inner ->
  let res :=
    logged_wrapper original_method agent_name method_name args kwargs st in
  snd res = Raise e
  /\ exists e_start e_error,
       operational_docs (fst res)
       = operational_docs st ++ e_start :: inner ++ [e_error]
       /\ entry_field (py "agent") e_start = Some (VStr agent_name)
       /\ event_field (py "method") e_start = Some (VStr method_name)
       /\ event_field (py "status") e_start = Some (VStr (py "start"))
       /\ entry_field (py "agent") e_error = Some (VStr agent_name)
       /\ event_field (py "method") e_error = Some (VStr method_name)
       /\ event_field (py "status") e_error = Some (VStr (py "error"))
       /\ entry_field (py "level") e_error = Some (VStr (py "ERROR"))
       /\ event_field (py "error") e_error
          = Some (VStr (exc_type e ++ py ": " ++ exc_msg e))
       /\ event_field (py "metadata") e_error
          = Some (VDict ((py "error_type", VStr (exc_type e))
                         :: args_shape args kwargs))
       /\ (distinct_sinks st2 ->
           cognitive_docs (fst res) = cognitive_docs st2).
Proof.
  intros Hl Hq. cbn zeta. intros Horig Hexc Hss Hq2 Hinner.
  unfold logged_wrapper.
  pose proof (wrapper_begin_spec agent_name method_name args kwargs st Hl Hq)
    as (B1 & _ & _ & (id & ts & t & s & B4 & _)).
  cbn zeta in B1, B4.
  destruct (wrapper_begin agent_name method_name args kwargs st)
    as [[st1 t0] r].
  cbn [fst snd] in *. subst r.
  unfold wrapper_try. rewrite Horig, Hexc.
  pose proof (wrapper_except_spec agent_name method_name t0 args kwargs e st2
                (same_sinks_logger _ _ Hss) Hq2)
    as (X1 & (id' & ts' & t' & s' & d' & X4 & X5)).
  cbn zeta in X1, X4, X5.
  destruct (wrapper_except agent_name method_name t0 args kwargs e st2)
    as [st3 r3].
  cbn [fst snd] in *. split; [exact X1|].
  eexists. eexists. split.
  - rewrite X4, Hinner, B4, <- !app_assoc. reflexivity.
  - repeat split; try reflexivity. exact X5.
Qed.

Lemma wrapped_call_raises_witness :
  let res :=
    @logged_wrapper example_builtins failing_method (py "agent") (py "run")
      [VInt 1] [(py "k", VInt 2)] example_state in
  snd res = Raise (mkExc (py "ValueError") (py "bad input") true)
  /\ map (event_field (py "status")) (operational_docs (fst res))
     = [Some (VStr (py "start")); Some (VStr (py "error"))].
Proof.
  cbn zeta.
  assert (Hq : quiet (world example_state))
    by (split; [intros n; reflexivity | intros n e H; discriminate]).
  pose proof (@wrapped_call_raises example_builtins failing_method
                (py "agent") (py "run") [VInt 1] [(py "k", VInt 2)]
                example_state _ (mkExc (py "ValueError") (py "bad input") true)
                [] (ex_intro _ _ eq_refl) Hq eq_refl eq_refl) as H.
  cbn zeta in H.
  assert (Hs : same_sinks
                 (fst (fst (@wrapper_begin example_builtins (py "agent")
                              (py "run") [VInt 1] [(py "k", VInt 2)]
                              example_state)))
                 (fst (fst (@wrapper_begin example_builtins (py "agent")
                              (py "run") [VInt 1] [(py "k", VInt 2)]
                              example_state))))
    by (vm_compute; repeat split).
  specialize (H Hs).
  assert (Hq1 : quiet
                  (world (fst (fst (@wrapper_begin example_builtins (py "agent")
                                      (py "run") [VInt 1] [(py "k", VInt 2)]
                                      example_state)))))
    by (split; [intros n; reflexivity | intros n e E; discriminate]).
  specialize (H Hq1 (eq_sym (app_nil_r _))).
  destruct H as (H1 & _).
  split; [exact H1|]. vm_compute. reflexivity.
Defined.

Lemma result_summary_str {B : PyBuiltins} (s : pystr) :
  exists x, result_summary_of (VStr s) = Ok (VStr x).
Proof.
  unfold result_summary_of, bool_of, str_of.
  destruct (truthy (VStr s)); [destruct (100 <? length s)|]; eauto.
Qed.

Lemma truncated_thought (r : pystr) :
  r <> [] ->
  ALogger.opt_str (ALogger.truncate_thought (Some r))
  = VStr (if 2000 <? length r then slice_to 2000 r ++ py "..." else r).
Proof.
  intros H. destruct r as [|c cs]; [contradiction|].
  unfold ALogger.truncate_thought, ALogger.opt_str.
  destruct (2000 <? length (c :: cs)); reflexivity.
Qed.

(** C2, as stated, fails twice: a pair of markers with nothing but blanks
    between them matches, yet no cognitive event is recorded and the
    caller receives the original text, markers included; and a reasoning
    longer than 2000 characters is recorded cut to 2000 characters followed
    by three dots. *)
Lemma wrapped_call_reasoning_counterexample :
  let text := py "ANSWER===REASONING_TRACE_START=== ===REASONING_TRACE_END===" in
  let res :=
    @logged_wrapper example_builtins echo_method (py "agent") (py "run")
      [VStr text] [] example_state in
  let long := repeat "x"%char 2001 in
  let res' :=
    @logged_wrapper example_builtins echo_method (py "agent") (py "run")
      [VStr (TRACE_START ++ long ++ TRACE_END)] [] example_state in
  _extract_reasoning_trace (VStr text) = (VStr (py "ANSWER"), Some [])
  /\ snd res = Ok (VStr text)
  /\ cognitive_docs (fst res) = []
  /\ fst (_extract_reasoning_trace (VStr (TRACE_START ++ long ++ TRACE_END)))
     = VStr []
  /\ snd (_extract_reasoning_trace (VStr (TRACE_START ++ long ++ TRACE_END)))
     = Some long
  /\ map (event_field (py "thought")) (cognitive_docs (fst res'))
     = [Some (VStr (repeat "x"%char 2000 ++ py "..."))]
  /\ map (event_field (py "thought")) (cognitive_docs (fst res'))
     <> [Some (VStr long)].
Proof.
  cbn zeta. repeat split; try (vm_compute; reflexivity).
  vm_compute. discriminate.
Qed.

(** C2 (amended).  When the original method returns a string, in a world
    where no file opening fails and the tracer is safe: if the extractor
    finds a reasoning that is not empty, the wrapper records exactly one
    cognitive event, whose thought is the reasoning (cut to 2000
    characters followed by three dots when it is longer) and whose goal is
    "Execute {method}", and returns the extracted main text; otherwise (no
    pair of markers, or nothing but blanks between them) it records no
    cognitive event and returns the original string untouched. *)
Theorem wrapped_call_reasoning {B : PyBuiltins}
    (original_method : list pyval -> list (pystr * pyval) -> State
                       -> State * outcome pyval)
    (agent_name method_name : pystr) (args : list pyval)
    (kwargs : list (pystr * pyval)) (st st2 : State) (s : pystr) :
  (exists l, _global_logger st = Some l) ->
  quiet (world st) ->
  let st1 := fst (fst (wrapper_begin agent_name method_name args kwargs st)) in
  original_method args kwargs st1 = (st2, Ok (VStr s)) ->
  same_sinks st1 st2 ->
  distinct_sinks st2 ->
  quiet (world st2) ->
  let res :=
    logged_wrapper original_method agent_name method_name args kwargs st in
  match _extract_reasoning_trace (VStr s) with
  | (main_output, Some (c :: cs)) =>
      snd res = Ok main_output
      /\ exists entry,
           cognitive_docs (fst res) = cognitive_docs st2 ++ [entry]
           /\ entry_field (py "agent") entry = Some (VStr agent_name)
           /\ entry_field (py "surface") entry = Some (VStr (py "cognitive"))
           /\ event_field (py "thought") entry
              = Some (VStr (if 2000 <? length (c :: cs)
                            then slice_to 2000 (c :: cs) ++ py "..."
                            else c :: cs))
           /\ event_field (py "goal") entry
              = Some (VStr (py "Execute " ++ method_name))
  | (_, _) =>
      snd res = Ok (VStr s)
      /\ cognitive_docs (fst res) = cognitive_docs st2
  end.
Proof.
  intros Hl Hq. cbn zeta. intros Horig Hss Hds Hq2.
  unfold logged_wrapper.
  pose proof (wrapper_begin_spec agent_name method_name args kwargs st Hl Hq)
    as (B1 & _).
  cbn zeta in B1.
  destruct (wrapper_begin agent_name method_name args kwargs st)
    as [[st1 t0] r].
  cbn [fst snd] in *. subst r.
  unfold wrapper_try. rewrite Horig. unfold time_time.
  set (w0 := tick (world st2)).
  destruct (clock_read st2 w0 eq_refl eq_refl eq_refl
              (same_sinks_logger _ _ Hss) Hq2)
    as (Q0 & S0 & _ & C0 & D0).
  destruct (same_sinks_logger _ _ S0) as (l0 & Hl0).
  rewrite Hl0.
  destruct (result_summary_str s) as (x & Hx). rewrite Hx.
  pose proof (global_record_operational (set_world w0 st2) agent_name
                method_name (py "complete")
                (VFloat (time_src (world st2) (clock_ctr (world st2)) - t0)%Z)
                (VStr x) VNone
                (VDict [(py "result_type", VStr (result_type_of (VStr s)))])
                (py "INFO") (ex_intro _ l0 Hl0) Q0 I I I eq_refl)
    as (R1 & R2 & R3 & _ & _ & (id & ts & t & u & _ & R5)).
  cbn zeta in R1, R2, R3, R5. specialize (R5 (D0 Hds)).
  destruct (with_global_logger _ _ (set_world w0 st2)) as [st3 r3].
  cbn [fst snd] in *. subst r3.
  destruct (_extract_reasoning_trace (VStr s)) as [main [[|c cs]|]].
  - split; [reflexivity|]. cbn [fst]. now rewrite R5.
  - pose proof (global_record_cognitive st3 agent_name (Some (c :: cs))
                  (Some (py "Execute " ++ method_name))
                  (Some (py "agent_method")) (py "INFO")
                  (same_sinks_logger _ _ R3) R2)
      as (G1 & _ & _ & _ & _ & (id' & ts' & t' & u' & G5 & _)).
    cbn zeta in G1, G5.
    destruct (with_global_logger _ _ st3) as [st4 r4].
    cbn [fst snd] in *. subst r4. split; [reflexivity|]. cbn [fst snd].
    eexists. split; [rewrite G5, R5, C0; reflexivity|].
    split; [reflexivity|]. split; [reflexivity|]. split; [|reflexivity].
    change (Some (ALogger.opt_str (ALogger.truncate_thought (Some (c :: cs))))
            = Some (VStr (if 2000 <? length (c :: cs)
                          then slice_to 2000 (c :: cs) ++ py "..."
                          else c :: cs))).
    f_equal. apply truncated_thought. discriminate.
  - split; [reflexivity|]. cbn [fst]. now rewrite R5.
Qed.

(** The example of the specification: the caller receives ["ANSWER"] and
    the thought of the cognitive event is ["R"]. *)
Lemma wrapped_call_reasoning_witness :
  let text := py "ANSWER===REASONING_TRACE_START===R===REASONING_TRACE_END===" in
  let res :=
    @logged_wrapper example_builtins echo_method (py "agent") (py "run")
      [VStr text] [] example_state in
  snd res = Ok (VStr (py "ANSWER"))
  /\ map (event_field (py "thought")) (cognitive_docs (fst res))
     = [Some (VStr (py "R"))]
  /\ map (event_field (py "goal")) (cognitive_docs (fst res))
     = [Some (VStr (py "Execute run"))].
Proof.
  cbn zeta.
  assert (Hq : quiet (world example_state))
    by (split; [intros n; reflexivity | intros n e H; discriminate]).
  pose proof (@wrapped_call_reasoning example_builtins echo_method
                (py "agent") (py "run")
                [VStr (py "ANSWER===REASONING_TRACE_START===R===REASONING_TRACE_END===")]
                [] example_state _
                (py "ANSWER===REASONING_TRACE_START===R===REASONING_TRACE_END===")
                (ex_intro _ _ eq_refl) Hq eq_refl) as H.
  cbn zeta in H.
  assert (Hs : same_sinks
                 (fst (fst (@wrapper_begin example_builtins (py "agent")
                              (py "run")
                              [VStr (py "ANSWER===REASONING_TRACE_START===R===REASONING_TRACE_END===")]
                              [] example_state)))
                 (fst (fst (@wrapper_begin example_builtins (py "agent")
                              (py "run")
                              [VStr (py "ANSWER===REASONING_TRACE_START===R===REASONING_TRACE_END===")]
                              [] example_state))))
    by (vm_compute; repeat split).
  assert (Hd : distinct_sinks
                 (fst (fst (@wrapper_begin example_builtins (py "agent")
                              (py "run")
                              [VStr (py "ANSWER===REASONING_TRACE_START===R===REASONING_TRACE_END===")]
                              [] example_state))))
    by (vm_compute; discriminate).
  assert (Hq1 : quiet
                  (world (fst (fst (@wrapper_begin example_builtins (py "agent")
                                      (py "run")
                                      [VStr (py "ANSWER===REASONING_TRACE_START===R===REASONING_TRACE_END===")]
                                      [] example_state)))))
    by (split; [intros n; reflexivity | intros n e E; discriminate]).
  specialize (H Hs Hd Hq1).
  change (_extract_reasoning_trace
            (VStr (py "ANSWER===REASONING_TRACE_START===R===REASONING_TRACE_END===")))
    with (VStr (py "ANSWER"), Some (py "R")) in H.
  destruct H as (H1 & _).
  split; [exact H1|]. split; vm_compute; reflexivity.
Defined.

(* ================================================================== *)
(** * instrument_agent on a target without eligible methods *)
(* ================================================================== *)

Lemma filter_all_false (A : Type) (f : A -> bool) (l : list A) :
  (forall x, In x l -> f x = false) -> filter f l = [].
Proof.
  induction l as [|x l IH]; intros H; [reflexivity|].
  cbn. rewrite (H x (or_introl eq_refl)). apply IH.
  intros y Hy. apply H. now right.
Qed.

Lemma no_eligible_target (o : pyobject) (methods : option (list pystr)) :
  no_eligible_method o methods -> target_methods_of o methods = [].
Proof.
  unfold no_eligible_method, target_methods_of.
  destruct methods as [ms|]; intros H; apply filter_all_false.
  - exact H.
  - intros a Ha. destruct (starts_with (py "_") a) eqn:E; [reflexivity|].
    cbn [negb andb]. now apply H.
Qed.

(** C9.  With the logger initialised, on a target where no name of the
    explicit list is a callable attribute, or, without a list, no public
    attribute is callable, [instrument_agent] returns the reference it was
    given and raises nothing; the objects, the logger and the world are
    left as they were, and one line is printed. *)
Theorem instrument_agent_no_methods {B : PyBuiltins} (agent : nat)
    (name : pystr) (methods : option (list pystr)) (st : State) :
  (exists l, _global_logger st = Some l) ->
  no_eligible_method (heap st agent) methods ->
  let res := instrument_agent agent name methods st in
  snd res = Ok agent
  /\ heap (fst res) = heap st
  /\ world (fst res) = world st
  /\ _global_logger (fst res) = _global_logger st
  /\ stdout (fst res)
     = stdout st ++ [py "No valid methods found to instrument on " ++ name].
Proof.
  intros (l & Hl) H. cbn zeta. unfold instrument_agent.
  rewrite Hl, (no_eligible_target _ _ H). cbn. auto.
Qed.

Lemma instrument_agent_no_methods_witness :
  let res :=
    @instrument_agent example_builtins 0 (py "planner") None example_state in
  snd res = Ok 0
  /\ heap (fst res) = heap example_state
  /\ world (fst res) = world example_state
  /\ _global_logger (fst res) = _global_logger example_state
  /\ stdout (fst res)
     = stdout example_state
       ++ [py "No valid methods found to instrument on " ++ py "planner"].
Proof.
  apply (@instrument_agent_no_methods example_builtins 0 (py "planner") None
           example_state).
  - eexists. reflexivity.
  - intros a [<-|[<-|[]]] E; [reflexivity | discriminate E].
Defined.

(** An explicit list whose names are absent or not callable. *)
Example instrument_agent_absent_names :
  snd (@instrument_agent example_builtins 0 (py "planner")
         (Some [py "run"; py "name"]) example_state)
  = Ok 0.
Proof. reflexivity. Qed.

(** Before [init()], [instrument_agent] raises. *)
Example instrument_agent_uninitialised :
  snd (@instrument_agent example_builtins 0 (py "planner") None
         (mkState example_world None (heap example_state) []))
  = Raise (mkExc (py "RuntimeError")
             (py "A-LOG not initialized. Call init() first.") true).
Proof. reflexivity. Qed.

(* ================================================================== *)
(** * Further properties of the reasoning extractor *)
(* ================================================================== *)

Lemma lstrip_length (s : pystr) : length (lstrip s) <= length s.
Proof.
  induction s as [|c s IH]; cbn [lstrip]; [lia|].
  destruct (py_isspace c); cbn [length]; lia.
Qed.

Lemma strip_length (s : pystr) : length (strip s) <= length s.
Proof.
  unfold strip, rstrip. rewrite length_rev.
  pose proof (lstrip_length (rev (lstrip s))) as H1.
  rewrite length_rev in H1. pose proof (lstrip_length s). lia.
Qed.

Lemma trace_end_length : length TRACE_END = 25.
Proof. reflexivity. Qed.

Lemma trace_start_length : length TRACE_START = 27.
Proof. reflexivity. Qed.

(** A factor of the text between the first pair holds no end marker. *)
Lemma first_pair_mid_clean (s pre mid post x r y : pystr) :
  first_pair s pre mid post -> mid = x ++ r ++ y -> ~ contains TRACE_END r.
Proof.
  intros (_ & _ & Hab) Hmid (a & b & Hr).
  assert (L : length (x ++ a) < length mid).
  { rewrite Hmid, Hr, !length_app, trace_end_length. lia. }
  specialize (Hab _ L).
  assert (E : mid ++ TRACE_END ++ post
              = (x ++ a) ++ TRACE_END ++ (b ++ y ++ TRACE_END ++ post)).
  { rewrite Hmid, Hr. now rewrite <- !app_assoc. }
  rewrite E, skipn_length_app, starts_with_app in Hab. discriminate.
Qed.

(** X1.  Whenever the extractor returns a reasoning, that reasoning holds
    no end marker and has no blank at either end, the main text has no
    blank at either end, and main text, reasoning and the two markers fit
    in the length of the input. *)
Theorem extract_reasoning_clean (s m r : pystr) :
  _extract_reasoning_trace (VStr s) = (VStr m, Some r) ->
  ~ contains TRACE_END r
  /\ strip r = r
  /\ strip m = m
  /\ length m + length TRACE_START + length r + length TRACE_END <= length s.
Proof.
  intros H.
  destruct (pattern_search s) as [mt|] eqn:E.
  - destruct (pattern_search_first_pair _ _ E) as (pre & mid & post & F & _).
    rewrite (extract_first_pair s pre mid post F) in H.
    injection H as <- <-.
    destruct (strip_factor mid) as (x & y & Hmid).
    split; [exact (first_pair_mid_clean _ _ _ _ _ _ _ F Hmid)|].
    split; [apply strip_idem|]. split; [apply strip_idem|].
    destruct F as (-> & _). rewrite !length_app.
    pose proof (strip_length (pre ++ post)) as L1.
    pose proof (strip_length mid) as L2.
    rewrite length_app in L1. lia.
  - unfold _extract_reasoning_trace in H. rewrite E in H. discriminate.
Qed.

Lemma extract_reasoning_clean_witness :
  let s := py "  done ===REASONING_TRACE_START=== because ===REASONING_TRACE_END===  " in
  _extract_reasoning_trace (VStr s) = (VStr (py "done"), Some (py "because"))
  /\ ~ contains TRACE_END (py "because")
  /\ length (py "done") + length TRACE_START + length (py "because")
     + length TRACE_END <= length s.
Proof.
  intros s.
  assert (E : _extract_reasoning_trace (VStr s)
              = (VStr (py "done"), Some (py "because")))
    by (vm_compute; reflexivity).
  destruct (extract_reasoning_clean s (py "done") (py "because") E)
    as (H1 & _ & _ & H4).
  split; [exact E|]. split; [exact H1 | exact H4].
Defined.

(* ================================================================== *)
(** * Truncations *)
(* ================================================================== *)

Lemma dots_length : length (py "...") = 3.
Proof. reflexivity. Qed.

Lemma truncate_thought_eq (r : pystr) :
  ALogger.truncate_thought (Some r)
  = Some (if 2000 <? length r then firstn 2000 r ++ py "..." else r).
Proof.
  destruct r as [|c cs]; [reflexivity|].
  unfold ALogger.truncate_thought, slice_to.
  destruct (2000 <? length (c :: cs)); reflexivity.
Qed.

(** X2.  The thought that [record_cognitive] stores is the thought given
    when it has at most 2000 characters, and otherwise its first 2000
    characters followed by three dots: never more than 2003 characters,
    and with the same first 2000 characters; truncating twice is
    truncating once, and [None] stays [None]. *)
Theorem truncate_thought_bound (thought : option pystr) :
  match ALogger.truncate_thought thought with
  | None => thought = None
  | Some x =>
      exists r,
        thought = Some r
        /\ length x <= 2003
        /\ firstn 2000 x = firstn 2000 r
        /\ (length r <= 2000 -> x = r)
        /\ (2000 < length r -> x = firstn 2000 r ++ py "...")
  end
  /\ ALogger.truncate_thought (ALogger.truncate_thought thought)
     = ALogger.truncate_thought thought.
Proof.
  destruct thought as [r|]; [|split; reflexivity].
  rewrite !truncate_thought_eq.
  destruct (2000 <? length r) eqn:E.
  - apply Nat.ltb_lt in E.
    assert (L : length (firstn 2000 r) = 2000)
      by (rewrite length_firstn; lia).
    assert (F : firstn 2000 (firstn 2000 r ++ py "...") = firstn 2000 r).
    { rewrite firstn_app, L, Nat.sub_diag, firstn_firstn, Nat.min_id.
      cbn [firstn]. apply app_nil_r. }
    assert (L2 : length (firstn 2000 r ++ py "...") = 2003)
      by (rewrite length_app, L, dots_length; lia).
    split.
    + exists r. repeat split; auto; intros; lia.
    + assert (E2 : (2000 <? length (firstn 2000 r ++ py "...")) = true)
        by (apply Nat.ltb_lt; lia).
      now rewrite E2, F.
  - split.
    + apply Nat.ltb_ge in E. exists r. repeat split; auto; intros; lia.
    + now rewrite E.
Qed.

Lemma truncate_thought_bound_witness :
  let long := repeat "x"%char 2001 in
  ALogger.truncate_thought (Some long)
  = Some (repeat "x"%char 2000 ++ py "...")
  /\ ALogger.truncate_thought (ALogger.truncate_thought (Some long))
     = ALogger.truncate_thought (Some long).
Proof.
  intros long. split; [vm_compute; reflexivity|].
  exact (proj2 (truncate_thought_bound (Some long))).
Defined.

(** The truth test, when it returns, returns the truth value. *)
Lemma bool_of_ok {B : PyBuiltins} (v : pyval) (b : bool) :
  bool_of v = Ok b -> b = truthy v.
Proof.
  unfold bool_of.
  destruct v as [ | | | | | | | |cls t];
    try (intros H; injection H as <-; reflexivity).
  destruct (bool_raises (VObj cls t)); [discriminate|].
  intros H. injection H as <-. reflexivity.
Qed.

(** X3.  The summary of a result in the complete event: it is [str(result)]
    itself when that has at most 100 characters or the result is falsy,
    and its first 100 characters followed by three dots otherwise; for a
    truthy result, and for every string, it has at most 103 characters. *)
Theorem result_summary_bound {B : PyBuiltins} (result summary : pyval) :
  result_summary_of result = Ok summary ->
  exists x s,
    summary = VStr x
    /\ str_of result = Ok s
    /\ (length s <= 100 -> x = s)
    /\ (truthy result = false -> x = s)
    /\ (100 < length s -> truthy result = true ->
        x = firstn 100 s ++ py "...")
    /\ (truthy result = true -> length x <= 103)
    /\ (forall t, result = VStr t -> length x <= 103).
Proof.
  unfold result_summary_of, slice_to. intros H.
  destruct (bool_of result) as [b|e0] eqn:Bo; [|discriminate].
  apply bool_of_ok in Bo. subst b.
  destruct (str_of result) as [s|e] eqn:S;
    [|destruct (truthy result); discriminate].
  assert (L : 100 < length s -> length (firstn 100 s ++ py "...") <= 103).
  { intros Hl. rewrite length_app, length_firstn, dots_length. lia. }
  destruct (truthy result) eqn:T.
  - destruct (100 <? length s) eqn:E.
    + apply Nat.ltb_lt in E. injection H as <-.
      exists (firstn 100 s ++ py "..."), s.
      repeat split; auto; intros; try lia; try discriminate.
    + apply Nat.ltb_ge in E. injection H as <-.
      exists s, s. repeat split; auto; intros; try lia; try discriminate.
  - injection H as <-. exists s, s.
    repeat split; auto; intros; try lia; try discriminate.
    subst result. cbn in S. injection S as <-.
    destruct t; [cbn; lia | discriminate T].
Qed.

Lemma result_summary_bound_witness :
  @result_summary_of example_builtins (VStr (repeat "y"%char 150))
  = Ok (VStr (repeat "y"%char 100 ++ py "..."))
  /\ exists x s,
       VStr (repeat "y"%char 100 ++ py "...") = VStr x
       /\ @str_of example_builtins (VStr (repeat "y"%char 150)) = Ok s
       /\ (truthy (VStr (repeat "y"%char 150)) = true -> length x <= 103).
Proof.
  assert (E : @result_summary_of example_builtins (VStr (repeat "y"%char 150))
              = Ok (VStr (repeat "y"%char 100 ++ py "...")))
    by (vm_compute; reflexivity).
  split; [exact E|].
  destruct (@result_summary_bound example_builtins _ _ E)
    as (x & s & H1 & H2 & _ & _ & _ & H6 & _).
  exists x, s. auto.
Defined.

(* ================================================================== *)
(** * Further properties of the logger *)
(* ================================================================== *)

Section LoggerExtras.

Context {B : PyBuiltins}.

(** ** Files only grow *)

Lemma prefix_of_refl (A : Type) (a : list A) : prefix_of a a.
Proof. exists []. now rewrite app_nil_r. Qed.

Lemma prefix_of_trans (A : Type) (a b c : list A) :
  prefix_of a b -> prefix_of b c -> prefix_of a c.
Proof.
  intros (x & ->) (y & ->). exists (x ++ y). now rewrite app_assoc.
Qed.

Lemma write_to_file_other (p q : pystr) (e : pyval) (w : World) :
  q <> p -> files (ALogger._write_to_file p e w) q = files w q.
Proof.
  intros H. unfold ALogger._write_to_file, open_file, file_update.
  destruct (io_fault w (io_ctr w)); [reflexivity|].
  destruct (to_json e); cbn; now rewrite (pystr_eqb_neq _ _ H).
Qed.

Lemma write_to_file_grows (p q : pystr) (e : pyval) (w : World) :
  exists extra,
    ALogger.existing_docs (ALogger._write_to_file p e w) q
    = ALogger.existing_docs w q ++ extra
    /\ length extra <= 1.
Proof.
  unfold ALogger._write_to_file, open_file, file_update, ALogger.existing_docs.
  destruct (io_fault w (io_ctr w)); cbn.
  - exists []. rewrite app_nil_r. split; [reflexivity | cbn; lia].
  - destruct (to_json e) as [doc|ex]; cbn;
      destruct (pystr_eqb q p) eqn:E;
      try (apply pystr_eqb_eq in E; subst q).
    + exists [doc]. split; [reflexivity | cbn; lia].
    + exists []. rewrite app_nil_r. split; [reflexivity | cbn; lia].
    + exists []. rewrite app_nil_r. split; [reflexivity | cbn; lia].
    + exists []. rewrite app_nil_r. split; [reflexivity | cbn; lia].
Qed.

(** The files after [record] are the files after its write. *)
Lemma record_files (self : ALogger.t) (surface agent : pystr)
    (event : list (pystr * pyval)) (level : pystr)
    (tid sid : option pystr) (w : World) :
  exists w2,
    files w2 = files w
    /\ files (snd (fst (ALogger.record self surface agent event level tid sid w)))
       = files (ALogger.write_to_sink self surface
                  (ALogger.record_entry self surface agent event level tid sid w)
                  w2).
Proof.
  pose proof (record_after_write self surface agent event level tid sid w)
    as ((F3 & _) & _).
  destruct (record_stages self surface agent event level tid sid w) as [_ E].
  pose proof (generate_ids_logger self tid sid w) as (Hs & _).
  pose proof (generate_ids_world self tid sid w) as ((F1 & _) & _).
  cbn zeta in F3, E, Hs, F1.
  set (g := ALogger.generate_ids self tid sid w) in *.
  pose proof (create_envelope_world agent surface level (fst (fst g))
                (snd (fst g)) event (snd (snd g))) as ((F2 & _) & _).
  cbn zeta in F2.
  set (ce := ALogger.create_envelope _ _ _ _ _ _ _) in *.
  exists (snd ce). split; [congruence|].
  rewrite F3, E. unfold ALogger.write_to_sink. now rewrite Hs.
Qed.

Lemma do_record_grows (l : ALogger.t) (w : World) (c : record_call) :
  let w' := snd (do_record (l, w) c) in
  (forall q, exists extra,
       ALogger.existing_docs w' q = ALogger.existing_docs w q ++ extra
       /\ length extra <= 1)
  /\ (forall q, ~ is_sink l q -> files w' q = files w q).
Proof.
  cbn zeta. unfold do_record. cbn [fst snd].
  destruct (record_files l (c_surface c) (c_agent c) (c_event c) (c_level c)
              (c_trace_id c) (c_span_id c) w) as (w2 & F2 & F).
  set (e := ALogger.record_entry _ _ _ _ _ _ _ _) in *.
  split.
  - intros q. unfold ALogger.existing_docs at 1. rewrite F.
    unfold ALogger.write_to_sink.
    destruct (ALogger.sink_of l (c_surface c)) as [p|].
    + destruct (write_to_file_grows p q e w2) as (extra & E & L).
      exists extra. split; [|exact L].
      unfold ALogger.existing_docs in E |- *. now rewrite E, F2.
    + exists []. rewrite app_nil_r, F2. split; [reflexivity | cbn; lia].
  - intros q Hq. rewrite F. unfold ALogger.write_to_sink.
    destruct (ALogger.sink_of l (c_surface c)) as [p|] eqn:S;
      [|now rewrite F2].
    rewrite write_to_file_other; [now rewrite F2|].
    intros ->. apply Hq. unfold is_sink.
    destruct (sink_of_cases l (c_surface c)) as [H|[H|H]]; rewrite H in S.
    + injection S as <-. now left.
    + injection S as <-. right. now left.
    + right. now right.
Qed.

Lemma is_sink_same (l l' : ALogger.t) (q : pystr) :
  ALogger.operational_file l' = ALogger.operational_file l ->
  ALogger.cognitive_file l' = ALogger.cognitive_file l ->
  ALogger.contextual_file l' = ALogger.contextual_file l ->
  is_sink l' q <-> is_sink l q.
Proof. unfold is_sink. now intros -> -> ->. Qed.

(** X4.  Whatever fails, a session of a logger only appends: every file
    keeps the documents it had, at their place, gains at most one document
    per call, and a file that is no sink of the logger is left as it was. *)
Theorem session_append_only (calls : list record_call) (l : ALogger.t)
    (w : World) :
  let w' := snd (session calls (l, w)) in
  (forall q, exists extra,
       ALogger.existing_docs w' q = ALogger.existing_docs w q ++ extra
       /\ length extra <= length calls)
  /\ (forall q, ~ is_sink l q -> files w' q = files w q).
Proof.
  revert l w. induction calls as [|c calls IH]; intros l w; cbn zeta.
  - cbn. split; auto. intros q. exists []. now rewrite app_nil_r.
  - cbn [session fold_left].
    pose proof (do_record_grows l w c) as (G1 & G2).
    pose proof (do_record_logger l w c) as (_ & O & C & X).
    cbn zeta in G1, G2, O, C, X.
    destruct (do_record (l, w) c) as [l1 w1]. cbn [fst snd] in *.
    specialize (IH l1 w1). cbn zeta in IH. unfold session in IH.
    destruct IH as (I1 & I2). split.
    + intros q. destruct (G1 q) as (x & Ex & Lx).
      destruct (I1 q) as (y & Ey & Ly).
      exists (x ++ y). rewrite Ey, Ex, <- app_assoc.
      split; [reflexivity|]. rewrite length_app. cbn [length]. lia.
    + intros q Hq. rewrite I2, G2; auto.
      intros H. apply Hq. now apply (is_sink_same l l1 q O C X).
Qed.

(** ** Identifiers *)

Lemma record_entry_id (self : ALogger.t) (surface agent : pystr)
    (event : list (pystr * pyval)) (level : pystr)
    (tid sid : option pystr) (w : World) :
  exists k,
    uuid_ctr w <= k
    /\ uuid_ctr (snd (fst (ALogger.record self surface agent event level
                             tid sid w))) = S k
    /\ entry_id (ALogger.record_entry self surface agent event level tid sid w)
       = Some (VStr (uuid_src w k)).
Proof.
  pose proof (record_after_write self surface agent event level tid sid w)
    as (_ & (_ & U3) & _).
  destruct (record_stages self surface agent event level tid sid w) as [_ E].
  pose proof (generate_ids_world self tid sid w) as (_ & _ & _ & U1 & L1).
  cbn zeta in U3, E, U1, L1.
  set (g := ALogger.generate_ids self tid sid w) in *.
  pose proof (create_envelope_world agent surface level (fst (fst g))
                (snd (fst g)) event (snd (snd g))) as (_ & _ & _ & _ & L2).
  cbn zeta in L2.
  pose proof (write_to_sink_world (fst (snd g)) surface
                (fst (ALogger.create_envelope agent surface level (fst (fst g))
                        (snd (fst g)) event (snd (snd g))))
                (snd (ALogger.create_envelope agent surface level (fst (fst g))
                        (snd (fst g)) event (snd (snd g)))))
    as (_ & (_ & U2)).
  cbn zeta in U2.
  exists (uuid_ctr (snd (snd g))). split; [exact L1|]. split.
  - rewrite U3, U2, L2. reflexivity.
  - rewrite E. cbn. now rewrite U1.
Qed.

Lemma NoDup_map_injective (A C : Type) (f : A -> C) (l : list A) :
  (forall i j, f i = f j -> i = j) -> NoDup l -> NoDup (map f l).
Proof.
  intros Hf H. induction H as [|x l Hx _ IH]; cbn; constructor; auto.
  intros Hin. apply in_map_iff in Hin as (y & Hy & Hin).
  apply Hf in Hy. now subst y.
Qed.

(** The identifiers of a session are drawn at increasing positions. *)
Lemma session_ids (calls : list record_call) (l : ALogger.t) (w : World) :
  exists ks,
    map (fun se => entry_id (snd se)) (session_log calls (l, w))
    = map (fun k => Some (VStr (uuid_src w k))) ks
    /\ Forall (fun k => uuid_ctr w <= k) ks
    /\ NoDup ks.
Proof.
  revert l w. induction calls as [|c calls IH]; intros l w.
  - exists []. repeat split; constructor.
  - cbn [session_log map snd].
    destruct (record_entry_id l (c_surface c) (c_agent c) (c_event c)
                (c_level c) (c_trace_id c) (c_span_id c) w)
      as (k & K1 & K2 & K3).
    destruct (do_record_uuid l w c) as (U & _).
    unfold do_record in *. cbn [fst snd] in *.
    destruct (fst (ALogger.record l (c_surface c) (c_agent c) (c_event c)
                     (c_level c) (c_trace_id c) (c_span_id c) w))
      as [l1 w1] eqn:R.
    cbn [fst snd] in *.
    destruct (IH l1 w1) as (ks & M & F & N).
    exists (k :: ks). cbn [map]. rewrite K3, M, U. repeat split.
    + constructor; auto.
      eapply Forall_impl; [|exact F]. intros j Hj. cbn in Hj. lia.
    + constructor; auto. intros Hin.
      rewrite Forall_forall in F. specialize (F _ Hin). lia.
Qed.

(** X5.  With [uuid4] returning distinct identifiers, the envelopes built
    in a session of a logger have pairwise different [id]s. *)
Theorem session_ids_unique (calls : list record_call) (l : ALogger.t)
    (w : World) :
  uuid_fresh w ->
  NoDup (map (fun se => entry_id (snd se)) (session_log calls (l, w))).
Proof.
  intros (Hinj & _). destruct (session_ids calls l w) as (ks & -> & _ & N).
  apply NoDup_map_injective; auto.
  intros i j H. injection H as H. now apply Hinj.
Qed.

End LoggerExtras.

Lemma session_ids_unique_witness :
  NoDup
    (map (fun se => entry_id (snd se))
       (@session_log example_builtins two_surface_calls
          (ALogger.__init__ (py "logs") false true example_world,
           example_world))).
Proof.
  exact (@session_ids_unique example_builtins two_surface_calls
           (ALogger.__init__ (py "logs") false true example_world)
           example_world example_uuid_fresh).
Defined.

Section TraceExtras.

Context {B : PyBuiltins}.

Lemma uuid_fresh_same (w w' : World) :
  uuid_src w' = uuid_src w -> uuid_fresh w -> uuid_fresh w'.
Proof. unfold uuid_fresh. now intros ->. Qed.

(** With an identifier retained, every call without a trace id of its own
    reuses it. *)
Lemma session_reuses_trace (calls : list record_call) (l : ALogger.t)
    (w : World) (t : pystr) :
  ALogger.current_trace_id l = Some t -> t <> [] ->
  Forall2
    (fun c se =>
       trace_id_of (snd se)
       = Some (VStr (match c_trace_id c with Some x => x | None => t end)))
    calls (session_log calls (l, w)).
Proof.
  revert l w. induction calls as [|c calls IH]; intros l w Hl Ht.
  - constructor.
  - cbn [session_log]. constructor.
    + cbn [snd fst]. rewrite record_entry_trace.
      destruct (c_trace_id c) as [x|].
      * now destruct (generate_ids_explicit l x (c_span_id c) w) as (-> & _).
      * now destruct (generate_ids_retained l (c_span_id c) w t Hl Ht)
          as (-> & _).
    + assert (Hl1 : ALogger.current_trace_id (fst (do_record (l, w) c)) = Some t).
      { unfold do_record. cbn [fst snd]. rewrite record_logger.
        destruct (c_trace_id c) as [x|].
        - destruct (generate_ids_explicit l x (c_span_id c) w) as (_ & ->).
          exact Hl.
        - now destruct (generate_ids_retained l (c_span_id c) w t Hl Ht)
            as (_ & ->). }
      destruct (do_record (l, w) c) as [l1 w1]. now apply IH.
Qed.

(** X6.  With [uuid4] returning non-empty identifiers, the envelopes of a
    session that were recorded without a trace id of their own all carry
    one and the same trace id, and an envelope recorded with an explicit
    trace id carries that one. *)
Theorem session_shares_trace (calls : list record_call) (l : ALogger.t)
    (w : World) :
  uuid_fresh w ->
  exists t,
    Forall2
      (fun c se =>
         trace_id_of (snd se)
         = Some (VStr (match c_trace_id c with Some x => x | None => t end)))
      calls (session_log calls (l, w)).
Proof.
  revert l w. induction calls as [|c calls IH]; intros l w Hu.
  - exists []. constructor.
  - destruct (do_record_uuid l w c) as (U & _).
    pose proof (uuid_fresh_same w _ U Hu) as Hu1.
    destruct (c_trace_id c) as [x|] eqn:Hc.
    + destruct (IH (fst (do_record (l, w) c)) (snd (do_record (l, w) c)) Hu1)
        as (t & Ht).
      exists t. cbn [session_log]. constructor.
      * cbn [fst snd]. rewrite record_entry_trace, Hc.
        now destruct (generate_ids_explicit l x (c_span_id c) w) as (-> & _).
      * now destruct (do_record (l, w) c).
    + set (t := fst (fst (ALogger.generate_ids l None (c_span_id c) w))).
      exists t. cbn [session_log]. constructor.
      * cbn [fst snd]. now rewrite record_entry_trace, Hc.
      * assert (Hl1 : ALogger.current_trace_id (fst (do_record (l, w) c))
                      = Some t).
        { unfold do_record. cbn [fst snd]. rewrite record_logger, Hc.
          apply generate_ids_none_retains. }
        pose proof (generate_ids_none_nonempty l (c_span_id c) w Hu) as Hne.
        destruct (do_record (l, w) c) as [l1 w1].
        now apply session_reuses_trace.
Qed.

End TraceExtras.

Lemma session_shares_trace_witness :
  exists t,
    Forall2
      (fun c se =>
         trace_id_of (snd se)
         = Some (VStr (match c_trace_id c with Some x => x | None => t end)))
      two_surface_calls
      (@session_log example_builtins two_surface_calls
         (ALogger.__init__ (py "logs") false true example_world,
          example_world)).
Proof.
  exact (@session_shares_trace example_builtins two_surface_calls
           (ALogger.__init__ (py "logs") false true example_world)
           example_world example_uuid_fresh).
Defined.

(* ================================================================== *)
(** * Reading back, counting and clearing *)
(* ================================================================== *)

Section ReadingExtras.

Context {B : PyBuiltins}.

Lemma get_logs_cognitive (self : ALogger.t) (w : World) :
  no_io_fault w ->
  fst (ALogger.get_logs self (Some (py "cognitive")) w)
  = ALogger.existing_docs w (ALogger.cognitive_file self).
Proof.
  intros H. unfold ALogger.get_logs.
  change (ALogger.wants (Some (py "cognitive")) (py "operational"))
    with false.
  change (ALogger.wants (Some (py "cognitive")) (py "cognitive")) with true.
  change (ALogger.wants (Some (py "cognitive")) (py "contextual"))
    with false.
  cbn iota.
  destruct (read_file_docs (ALogger.cognitive_file self) w H) as (E1 & _).
  destruct (ALogger._read_file (ALogger.cognitive_file self) w) as [l1 w1].
  cbn in E1 |- *. exact E1.
Qed.

Lemma get_logs_contextual (self : ALogger.t) (w : World) :
  no_io_fault w ->
  fst (ALogger.get_logs self (Some (py "contextual")) w)
  = match ALogger.contextual_file self with
    | Some p => ALogger.existing_docs w p
    | None => []
    end.
Proof.
  intros H. unfold ALogger.get_logs.
  change (ALogger.wants (Some (py "contextual")) (py "operational"))
    with false.
  change (ALogger.wants (Some (py "contextual")) (py "cognitive")) with false.
  change (ALogger.wants (Some (py "contextual")) (py "contextual")) with true.
  cbn iota.
  destruct (ALogger.contextual_file self) as [p|]; [|reflexivity].
  destruct (read_file_docs p w H) as (E1 & _).
  destruct (ALogger._read_file p w) as [l1 w1].
  cbn in E1 |- *. exact E1.
Qed.

(** X7.  When no opening of a file fails, reading all surfaces at once
    returns what reading the operational, the cognitive and the contextual
    surface one after the other returns. *)
Theorem get_logs_all_is_concatenation (self : ALogger.t) (w : World) :
  no_io_fault w ->
  fst (ALogger.get_logs self None w)
  = fst (ALogger.get_logs self (Some (py "operational")) w)
    ++ fst (ALogger.get_logs self (Some (py "cognitive")) w)
    ++ fst (ALogger.get_logs self (Some (py "contextual")) w).
Proof.
  intros H.
  now rewrite get_logs_all, get_logs_operational, get_logs_cognitive,
    get_logs_contextual.
Qed.

Lemma wants_other (surface name : pystr) :
  surface <> name -> ALogger.wants (Some surface) name = false.
Proof. intros H. cbn. now apply pystr_eqb_neq. Qed.

(** X8.  Reads that return nothing and open no file: a read under a
    surface name that is none of the three known ones, also right after an
    envelope was recorded under that very name, and a read of the
    contextual surface by a logger that keeps no contextual file, also
    right after a contextual event was recorded. *)
Theorem get_logs_reads_nothing :
  (forall self surface agent event level tid sid w,
     surface <> py "operational" -> surface <> py "cognitive" ->
     surface <> py "contextual" ->
     let st := fst (ALogger.record self surface agent event level tid sid w) in
     ALogger.get_logs self (Some surface) w = ([], w)
     /\ ALogger.get_logs (fst st) (Some surface) (snd st) = ([], snd st))
  /\ (forall self agent event level tid sid w,
        ALogger.contextual_file self = None ->
        let st :=
          fst (ALogger.record self (py "contextual") agent event level
                 tid sid w) in
        ALogger.get_logs self (Some (py "contextual")) w = ([], w)
        /\ ALogger.get_logs (fst st) (Some (py "contextual")) (snd st)
           = ([], snd st)).
Proof.
  split.
  - intros self surface agent event level tid sid w H1 H2 H3. cbn zeta.
    assert (G : forall l w0, ALogger.get_logs l (Some surface) w0 = ([], w0)).
    { intros l w0. unfold ALogger.get_logs.
      now rewrite !wants_other by assumption. }
    split; apply G.
  - intros self agent event level tid sid w Hc. cbn zeta.
    assert (G : forall l w0,
               ALogger.contextual_file l = None ->
               ALogger.get_logs l (Some (py "contextual")) w0 = ([], w0)).
    { intros l w0 Hl. unfold ALogger.get_logs.
      change (ALogger.wants (Some (py "contextual")) (py "operational"))
        with false.
      change (ALogger.wants (Some (py "contextual")) (py "cognitive"))
        with false.
      cbn iota. now rewrite Hl. }
    split; [now apply G|]. apply G. rewrite record_logger.
    pose proof (generate_ids_logger self tid sid w) as (_ & _ & _ & -> & _).
    exact Hc.
Qed.

(** ** [get_stats] *)

Lemma py_len_app (a b : list pyval) :
  ALogger.py_len (a ++ b) = (ALogger.py_len a + ALogger.py_len b)%Z.
Proof. unfold ALogger.py_len. rewrite length_app. lia. Qed.

Lemma get_stats_reads (self : ALogger.t) (w : World) :
  no_io_fault w ->
  fst (ALogger.get_stats self w)
  = let o := ALogger.py_len
               (ALogger.existing_docs w (ALogger.operational_file self)) in
    let c := ALogger.py_len
               (ALogger.existing_docs w (ALogger.cognitive_file self)) in
    match ALogger.contextual_file self with
    | Some p =>
        let x := ALogger.py_len (ALogger.existing_docs w p) in
        [ (py "operational_events", VInt o);
          (py "cognitive_events", VInt c);
          (py "total_events", VInt (o + c + x)%Z);
          (py "contextual_events", VInt x) ]
    | None =>
        [ (py "operational_events", VInt o);
          (py "cognitive_events", VInt c);
          (py "total_events", VInt (o + c)%Z) ]
    end.
Proof.
  intros H. unfold ALogger.get_stats.
  destruct (read_file_docs (ALogger.operational_file self) w H)
    as (E1 & F1 & I1).
  destruct (ALogger._read_file (ALogger.operational_file self) w)
    as [l1 w1]. cbn [fst snd] in E1, F1, I1.
  pose proof (no_io_fault_same w w1 I1 H) as H1.
  destruct (read_file_docs (ALogger.cognitive_file self) w1 H1)
    as (E2 & F2 & I2).
  destruct (ALogger._read_file (ALogger.cognitive_file self) w1)
    as [l2 w2]. cbn [fst snd] in E2, F2, I2.
  pose proof (no_io_fault_same w1 w2 I2 H1) as H2.
  rewrite (existing_docs_same_files w w1 _ F1) in E2. subst l1 l2.
  destruct (ALogger.contextual_file self) as [p|].
  - destruct (read_file_docs p w2 H2) as (E3 & _).
    destruct (ALogger._read_file p w2) as [l3 w3]. cbn [fst snd] in E3 |- *.
    rewrite (existing_docs_same_files w1 w2 _ F2),
      (existing_docs_same_files w w1 _ F1) in E3.
    subst l3. reflexivity.
  - reflexivity.
Qed.

(** X9.  When no opening of a file fails, [get_stats] counts the documents
    of each sink: its total is the number of envelopes that [get_logs()]
    returns, its operational and cognitive counts are the numbers returned
    for these surfaces, and the key [contextual_events] is there exactly
    when the logger keeps a contextual file. *)
Theorem get_stats_agrees_with_get_logs (self : ALogger.t) (w : World) :
  no_io_fault w ->
  let stats := fst (ALogger.get_stats self w) in
  assoc_get (py "total_events") stats
  = Some (VInt (ALogger.py_len (fst (ALogger.get_logs self None w))))
  /\ assoc_get (py "operational_events") stats
     = Some (VInt (ALogger.py_len
                     (fst (ALogger.get_logs self (Some (py "operational")) w))))
  /\ assoc_get (py "cognitive_events") stats
     = Some (VInt (ALogger.py_len
                     (fst (ALogger.get_logs self (Some (py "cognitive")) w))))
  /\ assoc_get (py "contextual_events") stats
     = match ALogger.contextual_file self with
       | Some _ =>
           Some (VInt (ALogger.py_len
                         (fst (ALogger.get_logs self
                                 (Some (py "contextual")) w))))
       | None => None
       end.
Proof.
  intros H. cbn zeta.
  rewrite (get_stats_reads self w H), get_logs_all, get_logs_operational,
    get_logs_cognitive, get_logs_contextual by assumption.
  cbn zeta. destruct (ALogger.contextual_file self) as [p|].
  - rewrite !py_len_app. repeat split; try reflexivity.
    cbn [assoc_get pystr_eqb ascii_eqb py list_ascii_of_string Ascii.eqb
         Bool.eqb andb].
    do 2 f_equal. lia.
  - rewrite !py_len_app. change (ALogger.py_len []) with 0%Z.
    repeat split; try reflexivity.
    cbn [assoc_get pystr_eqb ascii_eqb py list_ascii_of_string Ascii.eqb
         Bool.eqb andb].
    do 2 f_equal. lia.
Qed.

(** X10.  After a session of one writer that starts on empty sinks and in
    which no opening of a file fails, [get_stats] reports for each sink the
    number of documents that the calls of the session sent to it, and
    their sum as the total. *)
Theorem get_stats_after_session (d : pystr) (otel ctx : bool) (w : World)
    (calls : list record_call) :
  no_io_fault w ->
  sinks_empty (ALogger.__init__ d otel ctx w) w ->
  let l0 := ALogger.__init__ d otel ctx w in
  let st := session calls (l0, w) in
  let log := session_log calls (l0, w) in
  let stats := fst (ALogger.get_stats (fst st) (snd st)) in
  let n := ALogger.py_len (docs_for (ALogger.operational_file l0) log) in
  let m := ALogger.py_len (docs_for (ALogger.cognitive_file l0) log) in
  assoc_get (py "operational_events") stats = Some (VInt n)
  /\ assoc_get (py "cognitive_events") stats = Some (VInt m)
  /\ match ALogger.contextual_file l0 with
     | Some p =>
         assoc_get (py "contextual_events") stats
         = Some (VInt (ALogger.py_len (docs_for p log)))
         /\ assoc_get (py "total_events") stats
            = Some (VInt (n + m + ALogger.py_len (docs_for p log))%Z)
     | None =>
         assoc_get (py "contextual_events") stats = None
         /\ assoc_get (py "total_events") stats = Some (VInt (n + m)%Z)
     end.
Proof.
  intros Hio (E1 & E2 & E3). cbn zeta.
  set (l0 := ALogger.__init__ d otel ctx w) in *.
  pose proof (session_docs calls l0 w Hio) as (D & I & O & C & X).
  cbn zeta in D, I, O, C, X.
  rewrite get_stats_reads by (apply (no_io_fault_same w _ I Hio)).
  cbn zeta. rewrite O, C, X, !D, E1, E2. cbn [app].
  destruct (ALogger.contextual_file l0) as [p|] eqn:Ep.
  - rewrite D, (E3 p eq_refl). cbn [app]. repeat split; reflexivity.
  - repeat split; reflexivity.
Qed.

End ReadingExtras.

Lemma get_stats_after_session_witness :
  let l0 := ALogger.__init__ (py "logs") false true example_world in
  let st := @session example_builtins two_surface_calls (l0, example_world) in
  let log := @session_log example_builtins two_surface_calls
               (l0, example_world) in
  let stats := fst (ALogger.get_stats (fst st) (snd st)) in
  let n := ALogger.py_len (docs_for (ALogger.operational_file l0) log) in
  let m := ALogger.py_len (docs_for (ALogger.cognitive_file l0) log) in
  assoc_get (py "operational_events") stats = Some (VInt n)
  /\ assoc_get (py "cognitive_events") stats = Some (VInt m)
  /\ match ALogger.contextual_file l0 with
     | Some p =>
         assoc_get (py "contextual_events") stats
         = Some (VInt (ALogger.py_len (docs_for p log)))
         /\ assoc_get (py "total_events") stats
            = Some (VInt (n + m + ALogger.py_len (docs_for p log))%Z)
     | None =>
         assoc_get (py "contextual_events") stats = None
         /\ assoc_get (py "total_events") stats = Some (VInt (n + m)%Z)
     end.
Proof.
  apply (@get_stats_after_session example_builtins (py "logs") false true
           example_world two_surface_calls).
  - intros n. reflexivity.
  - repeat split; reflexivity.
Defined.

(** The counts of the example: one operational and one cognitive event. *)
Example get_stats_example :
  let l0 := ALogger.__init__ (py "logs") false true example_world in
  let st := @session example_builtins two_surface_calls (l0, example_world) in
  fst (ALogger.get_stats (fst st) (snd st))
  = [ (py "operational_events", VInt 1);
      (py "cognitive_events", VInt 1);
      (py "total_events", VInt 2);
      (py "contextual_events", VInt 0) ].
Proof. vm_compute. reflexivity. Qed.

Lemma get_logs_all_is_concatenation_witness :
  let l0 := ALogger.__init__ (py "logs") false true example_world in
  let st := @session example_builtins two_surface_calls (l0, example_world) in
  fst (ALogger.get_logs (fst st) None (snd st))
  = fst (ALogger.get_logs (fst st) (Some (py "operational")) (snd st))
    ++ fst (ALogger.get_logs (fst st) (Some (py "cognitive")) (snd st))
    ++ fst (ALogger.get_logs (fst st) (Some (py "contextual")) (snd st)).
Proof.
  intros l0 st. apply get_logs_all_is_concatenation.
  intros n. reflexivity.
Defined.

Lemma get_logs_reads_nothing_witness :
  let l0 := ALogger.__init__ (py "logs") false true example_world in
  let st :=
    fst (@ALogger.record example_builtins l0 (py "audit") (py "agent")
           [(py "note", VStr (py "checked"))] (py "INFO") None None
           example_world) in
  ALogger.get_logs l0 (Some (py "audit")) example_world = ([], example_world)
  /\ ALogger.get_logs (fst st) (Some (py "audit")) (snd st) = ([], snd st).
Proof.
  apply (proj1 (@get_logs_reads_nothing example_builtins)); discriminate.
Defined.

Lemma get_stats_agrees_with_get_logs_witness :
  let l0 := ALogger.__init__ (py "logs") false true example_world in
  let st := @session example_builtins two_surface_calls (l0, example_world) in
  let stats := fst (ALogger.get_stats (fst st) (snd st)) in
  assoc_get (py "total_events") stats
  = Some (VInt (ALogger.py_len
                  (fst (ALogger.get_logs (fst st) None (snd st))))).
Proof.
  intros l0 st stats.
  apply (get_stats_agrees_with_get_logs (fst st) (snd st)).
  intros n. reflexivity.
Defined.

(** ** [clear_logs] *)

Lemma clear_file_keeps (w : World) (p q : pystr) :
  files (ALogger.clear_file w p) q = None
  \/ files (ALogger.clear_file w p) q = files w q.
Proof.
  unfold ALogger.clear_file, ALogger.os_remove, open_file.
  destruct (files w p); [|now right].
  destruct (io_fault w (io_ctr w)); cbn; [now right|].
  destruct (pystr_eqb q p); auto.
Qed.

Lemma clear_file_other (w : World) (p q : pystr) :
  q <> p -> files (ALogger.clear_file w p) q = files w q.
Proof.
  intros H. unfold ALogger.clear_file, ALogger.os_remove, open_file.
  destruct (files w p); [|reflexivity].
  destruct (io_fault w (io_ctr w)); cbn; [reflexivity|].
  now rewrite (pystr_eqb_neq _ _ H).
Qed.

Lemma clear_file_cases (w : World) (p : pystr) :
  (files (ALogger.clear_file w p) p = None
   /\ console (ALogger.clear_file w p) = console w)
  \/ (files (ALogger.clear_file w p) p = files w p
      /\ exists msg,
           console (ALogger.clear_file w p)
           = console w
             ++ [(ERROR, py "Failed to remove " ++ p ++ py ": " ++ msg)]).
Proof.
  unfold ALogger.clear_file, ALogger.os_remove, open_file.
  destruct (files w p) eqn:F; [|left; auto].
  destruct (io_fault w (io_ctr w)) as [msg|]; cbn.
  - right. split; [exact F|]. now exists msg.
  - left. now rewrite pystr_eqb_refl.
Qed.

Lemma clear_file_quiet (w : World) (p : pystr) :
  no_io_fault w ->
  no_io_fault (ALogger.clear_file w p)
  /\ console (ALogger.clear_file w p) = console w
  /\ files (ALogger.clear_file w p) p = None.
Proof.
  intros H. unfold ALogger.clear_file, ALogger.os_remove, open_file.
  destruct (files w p) eqn:F; [|auto].
  rewrite H. cbn. rewrite pystr_eqb_refl. auto.
Qed.

Lemma clear_fold_keeps (ps : list pystr) (w : World) (q : pystr) :
  (files (fold_left ALogger.clear_file ps w) q = None
   \/ files (fold_left ALogger.clear_file ps w) q = files w q)
  /\ prefix_of (console w) (console (fold_left ALogger.clear_file ps w)).
Proof.
  revert w. induction ps as [|p ps IH]; intros w; cbn [fold_left].
  - split; [now right | apply prefix_of_refl].
  - destruct (IH (ALogger.clear_file w p)) as ([H|H] & P).
    + split; [now left|]. eapply prefix_of_trans; [|exact P].
      destruct (clear_file_cases w p) as [(_ & ->)|(_ & (msg & ->))];
        [apply prefix_of_refl | now eexists].
    + split.
      * rewrite H. apply clear_file_keeps.
      * eapply prefix_of_trans; [|exact P].
        destruct (clear_file_cases w p) as [(_ & ->)|(_ & (msg & ->))];
          [apply prefix_of_refl | now eexists].
Qed.

Lemma clear_fold_other (ps : list pystr) (w : World) (q : pystr) :
  ~ In q ps -> files (fold_left ALogger.clear_file ps w) q = files w q.
Proof.
  revert w. induction ps as [|p ps IH]; intros w H; cbn [fold_left]; auto.
  rewrite IH by (intros Hin; apply H; now right).
  apply clear_file_other. intros ->. apply H. now left.
Qed.

Lemma files_to_clear_sinks (self : ALogger.t) (p : pystr) :
  In p (ALogger.files_to_clear self) <-> is_sink self p.
Proof.
  unfold ALogger.files_to_clear, is_sink.
  destruct (ALogger.contextual_file self) as [c|]; cbn; split.
  - intros [<-|[<-|[<-|[]]]]; auto.
  - intros [->|[->|H]]; auto. injection H as ->. auto.
  - intros [<-|[<-|[]]]; auto.
  - intros [->|[->|H]]; auto. discriminate.
Qed.

Lemma clear_fold_quiet (ps : list pystr) (w : World) :
  no_io_fault w ->
  let w' := fold_left ALogger.clear_file ps w in
  no_io_fault w'
  /\ console w' = console w
  /\ (forall p, In p ps -> files w' p = None).
Proof.
  revert w. induction ps as [|p ps IH]; intros w H; cbn zeta;
    cbn [fold_left].
  - repeat split; auto. intros p [].
  - destruct (clear_file_quiet w p H) as (Q & C & F).
    destruct (IH _ Q) as (Q' & C' & F'). cbn zeta in Q', C', F'.
    repeat split; auto; [congruence|].
    intros p0 [<-|Hin]; [|now apply F'].
    destruct (clear_fold_keeps ps (ALogger.clear_file w p) p) as ([E|E] & _);
      congruence.
Qed.

(** X11.  When no file operation fails, [clear_logs] removes every sink of
    the logger and nothing else, writes nothing on the console, and a read
    of all surfaces afterwards returns no envelope. *)
Theorem clear_logs_empties_sinks (self : ALogger.t) (w : World) :
  no_io_fault w ->
  let w' := ALogger.clear_logs self w in
  (forall p, is_sink self p -> files w' p = None)
  /\ (forall q, ~ is_sink self q -> files w' q = files w q)
  /\ console w' = console w
  /\ fst (ALogger.get_logs self None w') = [].
Proof.
  intros H. cbn zeta. unfold ALogger.clear_logs.
  destruct (clear_fold_quiet (ALogger.files_to_clear self) w H)
    as (Q & C & F). cbn zeta in Q, C, F.
  assert (S : forall p, is_sink self p ->
                files (fold_left ALogger.clear_file
                         (ALogger.files_to_clear self) w) p = None)
    by (intros p Hp; apply F; now apply files_to_clear_sinks).
  split; [exact S|]. split; [|split; [exact C|]].
  - intros q Hq. apply clear_fold_other. intros Hin. apply Hq.
    now apply files_to_clear_sinks.
  - rewrite get_logs_all by exact Q. unfold ALogger.existing_docs.
    rewrite (S (ALogger.operational_file self)) by (now left).
    rewrite (S (ALogger.cognitive_file self)) by (right; now left).
    destruct (ALogger.contextual_file self) as [p|] eqn:E; [|reflexivity].
    now rewrite (S p) by (right; now right).
Qed.

(** X12.  A removal that fails stops nothing: after [clear_logs], each
    sink of the logger is either gone, or as it was with an ERROR line on
    the console that names it; the files that are no sinks are untouched. *)
Theorem clear_logs_isolates_failures (self : ALogger.t) (w : World) :
  let w' := ALogger.clear_logs self w in
  (forall p, is_sink self p ->
     files w' p = None
     \/ (files w' p = files w p
         /\ exists msg,
              In (ERROR, py "Failed to remove " ++ p ++ py ": " ++ msg)
                (console w')))
  /\ (forall q, ~ is_sink self q -> files w' q = files w q).
Proof.
  cbn zeta. unfold ALogger.clear_logs. split.
  - intros p Hp. apply files_to_clear_sinks in Hp.
    revert w Hp. induction (ALogger.files_to_clear self) as [|p0 ps IH];
      intros w Hp; [destruct Hp|].
    cbn [fold_left].
    destruct (clear_fold_keeps ps (ALogger.clear_file w p0) p)
      as (K & (extra & P)).
    destruct (in_dec (list_eq_dec Ascii.ascii_dec) p ps) as [Hin|Hnin].
    + destruct (IH (ALogger.clear_file w p0) Hin) as [E|(E & M)];
        [now left|].
      destruct (clear_file_keeps w p0 p) as [N|N].
      * left. congruence.
      * right. split; [congruence | exact M].
    + destruct Hp as [<-|Hp]; [|contradiction].
      destruct (clear_file_cases w p0) as [(N & _)|(N & (msg & C))].
      * left. destruct K as [K|K]; congruence.
      * destruct K as [K|K]; [now left|].
        right. split; [congruence|]. exists msg. rewrite P, C.
        apply in_or_app. left. apply in_or_app. right. now left.
  - intros q Hq. apply clear_fold_other. intros Hin. apply Hq.
    now apply files_to_clear_sinks.
Qed.

Lemma clear_logs_empties_sinks_witness :
  let l0 := ALogger.__init__ (py "logs") false true example_world in
  let st := @session example_builtins two_surface_calls (l0, example_world) in
  let w' := ALogger.clear_logs (fst st) (snd st) in
  fst (ALogger.get_logs (fst st) None (snd st)) <> []
  /\ fst (ALogger.get_logs (fst st) None w') = [].
Proof.
  intros l0 st w'. split; [vm_compute; discriminate|].
  assert (H : no_io_fault (snd st)) by (intros n; reflexivity).
  exact (proj2 (proj2 (proj2 (clear_logs_empties_sinks (fst st) (snd st) H)))).
Defined.

(* ================================================================== *)
(** * The span of a recorded event *)
(* ================================================================== *)

Section SpanExtras.

Context {B : PyBuiltins}.

Lemma write_to_file_spans (p : pystr) (e : pyval) (w : World) :
  spans (ALogger._write_to_file p e w) = spans w
  /\ tracer_ctr (ALogger._write_to_file p e w) = tracer_ctr w.
Proof. unfold ALogger._write_to_file, open_file. crunch. Qed.

(** The spans and the tracer in the world in which [record] exports. *)
Lemma write_stage_spans (self : ALogger.t) (surface agent : pystr)
    (event : list (pystr * pyval)) (level : pystr)
    (tid sid : option pystr) (w : World) :
  let g := ALogger.generate_ids self tid sid w in
  let ce := ALogger.create_envelope agent surface level (fst (fst g))
              (snd (fst g)) event (snd (snd g)) in
  let w3 := ALogger.write_to_sink (fst (snd g)) surface (fst ce) (snd ce) in
  spans w3 = spans w /\ tracer_ctr w3 = tracer_ctr w.
Proof.
  cbn zeta.
  set (g := ALogger.generate_ids self tid sid w).
  assert (G : spans (snd (snd g)) = spans w
              /\ tracer_ctr (snd (snd g)) = tracer_ctr w).
  { subst g. unfold ALogger.generate_ids, uuid4.
    destruct tid as [tid|];
      [|destruct (ALogger.current_trace_id self) as [[|c cs]|]];
      destruct sid; split; reflexivity. }
  set (ce := ALogger.create_envelope _ _ _ _ _ _ _).
  assert (C : spans (snd ce) = spans w /\ tracer_ctr (snd ce) = tracer_ctr w)
    by (subst ce; cbn; exact G).
  unfold ALogger.write_to_sink.
  destruct (ALogger.sink_of _ _) as [p|]; [|exact C].
  destruct (write_to_file_spans p (fst ce) (snd ce)) as (-> & ->). exact C.
Qed.

Lemma console_logging_spans (surface agent : pystr)
    (event : list (pystr * pyval)) (w : World) :
  spans (fst (ALogger.console_logging surface agent event w)) = spans w
  /\ tracer_ctr (fst (ALogger.console_logging surface agent event w))
     = tracer_ctr w.
Proof. unfold ALogger.console_logging. crunch. Qed.

Lemma tracing_on_ids (self : ALogger.t) (tid sid : option pystr) (w : World) :
  tracing_on self ->
  tracing_on (fst (snd (ALogger.generate_ids self tid sid w))).
Proof.
  pose proof (generate_ids_logger self tid sid w) as (_ & _ & _ & _ & E & O).
  cbn zeta in E, O. unfold tracing_on. now rewrite E, O.
Qed.

Lemma tracing_off_ids (self : ALogger.t) (tid sid : option pystr) (w : World) :
  tracing_off self ->
  tracing_off (fst (snd (ALogger.generate_ids self tid sid w))).
Proof.
  pose proof (generate_ids_logger self tid sid w) as (_ & _ & _ & _ & E & O).
  cbn zeta in E, O. unfold tracing_off. now rewrite E, O.
Qed.

(** X13.  With a tracer that starts the span, and [str] and [repr]
    raising nothing but [Exception]s on the payload, one call of [record]
    ends exactly one span, named "{agent}.{surface}", with the surface,
    the agent and one attribute for each payload item that is not [None]:
    for every surface, and whether or not the envelope reached a file.
    Outside the operational surface the call returns. *)
Theorem record_exports_one_span (self : ALogger.t) (surface agent : pystr)
    (event : list (pystr * pyval)) (level : pystr)
    (tid sid : option pystr) (w : World) :
  tracing_on self ->
  tracer_fault w (tracer_ctr w) = None ->
  Forall (fun kv => raises_only_Exception (snd kv)) event ->
  let res := ALogger.record self surface agent event level tid sid w in
  spans (snd (fst res))
  = spans w
    ++ [mkSpan (agent ++ py "." ++ surface)
          ([(py "surface", VStr surface); (py "agent", VStr agent)]
           ++ expected_attrs event)]
  /\ (surface <> py "operational" -> snd res = Ok tt).
Proof.
  intros Hon Hf Hev. cbn zeta.
  destruct (record_stages self surface agent event level tid sid w) as [E _].
  pose proof (write_stage_tracer self surface agent event level tid sid w) as W.
  pose proof (write_stage_spans self surface agent event level tid sid w)
    as (S3 & T3).
  pose proof (tracing_on_ids self tid sid w Hon) as (En & (x & Ox & Tx)).
  cbn zeta in E, W, S3, T3. rewrite E. clear E.
  set (g := ALogger.generate_ids self tid sid w) in *.
  set (ce := ALogger.create_envelope _ _ _ _ _ _ _) in *.
  set (w3 := ALogger.write_to_sink _ _ _ _) in *.
  unfold ALogger.export_to_otel. rewrite En, Ox.
  unfold OTelExporter.emit_span, start_span. rewrite Tx, W, T3, Hf.
  cbn [negb]. rewrite (set_event_attributes_all event _ Hev).
  cbn [fst snd]. split.
  - match goal with
    | |- spans (fst (ALogger.console_logging _ _ _ ?w4)) = _ =>
        destruct (console_logging_spans surface agent event w4) as (-> & _)
    end.
    cbn [spans end_span]. now rewrite S3.
  - intros Hs. now rewrite console_logging_other_surface.
Qed.

(** X14.  A logger that has no tracer (tracing disabled, or the tracing
    packages missing) exports nothing: [record] leaves the spans as they
    are and never asks the tracer. *)
Theorem record_without_tracer (self : ALogger.t) (surface agent : pystr)
    (event : list (pystr * pyval)) (level : pystr)
    (tid sid : option pystr) (w : World) :
  tracing_off self ->
  let w' := snd (fst (ALogger.record self surface agent event level
                        tid sid w)) in
  spans w' = spans w /\ tracer_ctr w' = tracer_ctr w.
Proof.
  intros Hoff. cbn zeta.
  destruct (record_stages self surface agent event level tid sid w) as [E _].
  pose proof (write_stage_spans self surface agent event level tid sid w)
    as (S3 & T3).
  pose proof (tracing_off_ids self tid sid w Hoff) as Hoff1.
  cbn zeta in E, S3, T3. rewrite E. clear E.
  set (g := ALogger.generate_ids self tid sid w) in *.
  set (ce := ALogger.create_envelope _ _ _ _ _ _ _) in *.
  set (w3 := ALogger.write_to_sink _ _ _ _) in *.
  assert (X : ALogger.export_to_otel (fst (snd g)) surface agent event w3
              = (w3, Ok tt)).
  { unfold ALogger.export_to_otel, tracing_off in *.
    destruct Hoff1 as [-> | [O | (x & O & T)]]; [reflexivity| |].
    - rewrite O. now destruct (ALogger.enable_otel (fst (snd g))).
    - rewrite O. destruct (ALogger.enable_otel (fst (snd g))); [|reflexivity].
      unfold OTelExporter.emit_span. now rewrite T. }
  rewrite X. cbn [fst snd].
  destruct (console_logging_spans surface agent event w3) as (-> & ->).
  now split.
Qed.

(** X15.  When the tracer fails with an [Exception], [record] keeps it
    from the caller: no span is ended, the failure is reported on the
    console at level WARNING, and the envelope is in its file all the
    same.  Outside the operational surface the call returns. *)
Theorem record_tracer_failure_warned (self : ALogger.t)
    (surface agent : pystr) (event : list (pystr * pyval)) (level : pystr)
    (tid sid : option pystr) (w : World) (e : exc) :
  tracing_on self ->
  tracer_fault w (tracer_ctr w) = Some e ->
  exc_is_Exception e = true ->
  let res := ALogger.record self surface agent event level tid sid w in
  let w' := snd (fst res) in
  let entry := ALogger.record_entry self surface agent event level tid sid w in
  spans w' = spans w
  /\ In (WARNING, py "[OTEL] Failed to emit span: " ++ exc_msg e) (console w')
  /\ (surface <> py "operational" -> snd res = Ok tt)
  /\ (io_fault w (io_ctr w) = None ->
      forall p, ALogger.sink_of self surface = Some p ->
        ALogger.existing_docs w' p
        = ALogger.existing_docs w p ++ json_doc entry).
Proof.
  intros Hon Hf He. cbn zeta.
  pose proof (record_disk self surface agent event level tid sid w)
    as (_ & _ & _ & D).
  cbn zeta in D.
  destruct (record_stages self surface agent event level tid sid w) as [E _].
  pose proof (write_stage_tracer self surface agent event level tid sid w) as W.
  pose proof (write_stage_spans self surface agent event level tid sid w)
    as (S3 & T3).
  pose proof (tracing_on_ids self tid sid w Hon) as (En & (x & Ox & Tx)).
  cbn zeta in E, W, S3, T3.
  split; [|split; [|split]].
  - rewrite E.
    set (g := ALogger.generate_ids self tid sid w) in *.
    set (ce := ALogger.create_envelope _ _ _ _ _ _ _) in *.
    set (w3 := ALogger.write_to_sink _ _ _ _) in *.
    unfold ALogger.export_to_otel. rewrite En, Ox.
    unfold OTelExporter.emit_span, start_span. rewrite Tx, W, T3, Hf.
    cbn [negb fst snd]. rewrite He. cbn [fst snd].
    match goal with
    | |- spans (fst (ALogger.console_logging _ _ _ ?w4)) = _ =>
        destruct (console_logging_spans surface agent event w4) as (-> & _)
    end.
    cbn [spans log_console]. exact S3.
  - rewrite E.
    set (g := ALogger.generate_ids self tid sid w) in *.
    set (ce := ALogger.create_envelope _ _ _ _ _ _ _) in *.
    set (w3 := ALogger.write_to_sink _ _ _ _) in *.
    unfold ALogger.export_to_otel. rewrite En, Ox.
    unfold OTelExporter.emit_span, start_span. rewrite Tx, W, T3, Hf.
    cbn [negb fst snd]. rewrite He. cbn [fst snd].
    match goal with
    | |- In _ (console (fst (ALogger.console_logging _ _ _ ?w4))) =>
        destruct (console_logging_world surface agent event w4)
          as (_ & _ & (extra & ->))
    end.
    cbn [console log_console]. apply in_or_app. left. apply in_or_app.
    right. now left.
  - intros Hs. rewrite E.
    set (g := ALogger.generate_ids self tid sid w) in *.
    set (ce := ALogger.create_envelope _ _ _ _ _ _ _) in *.
    set (w3 := ALogger.write_to_sink _ _ _ _) in *.
    unfold ALogger.export_to_otel. rewrite En, Ox.
    unfold OTelExporter.emit_span, start_span. rewrite Tx, W, T3, Hf.
    cbn [negb fst snd]. rewrite He. cbn [fst snd].
    now rewrite console_logging_other_surface.
  - intros Hio p Hp. rewrite (D Hio p), Hp. now rewrite pystr_eqb_refl.
Qed.

(** X16.  A contextual event of a logger that keeps no contextual file
    and has no tracer leaves no record at all: the call returns, and no
    file is opened or changed, nothing is written on the console and no
    span is ended; only the identifiers and the clock are consumed. *)
Theorem record_contextual_dropped (self : ALogger.t) (agent operation : pystr)
    (source_type source_name query retrieved_count retrieved_items
     provenance cache_hit write_value memory_state_hash metadata : pyval)
    (level : pystr) (tid sid : option pystr) (w : World) :
  ALogger.contextual_file self = None ->
  tracing_off self ->
  let res :=
    ALogger.record_contextual self agent operation source_type source_name
      query retrieved_count retrieved_items provenance cache_hit write_value
      memory_state_hash metadata level tid sid w in
  let w' := snd (fst res) in
  snd res = Ok tt
  /\ files w' = files w
  /\ io_ctr w' = io_ctr w
  /\ console w' = console w
  /\ spans w' = spans w
  /\ fst (ALogger.get_logs (fst (fst res)) (Some (py "contextual")) w') = [].
Proof.
  intros Hc Hoff. cbn zeta. unfold ALogger.record_contextual.
  set (event := [(py "operation", VStr operation); _; _; _; _; _; _; _; _; _;
                 _]).
  destruct (record_stages self (py "contextual") agent event level tid sid w)
    as [E _].
  pose proof (generate_ids_logger self tid sid w) as (Hs & _ & _ & Hc1 & _).
  pose proof (generate_ids_world self tid sid w) as (D1 & C1 & S1 & _).
  pose proof (tracing_off_ids self tid sid w Hoff) as Hoff1.
  cbn zeta in E, Hs, Hc1, D1, C1, S1. rewrite E. clear E.
  set (g := ALogger.generate_ids self tid sid w) in *.
  pose proof (create_envelope_world agent (py "contextual") level
                (fst (fst g)) (snd (fst g)) event (snd (snd g)))
    as (D2 & C2 & S2 & _).
  cbn zeta in D2, C2, S2.
  set (ce := ALogger.create_envelope _ _ _ _ _ _ _) in *.
  assert (K : ALogger.sink_of (fst (snd g)) (py "contextual") = None).
  { rewrite Hs. unfold ALogger.sink_of. cbn. exact Hc. }
  unfold ALogger.write_to_sink. rewrite K.
  assert (X : ALogger.export_to_otel (fst (snd g)) (py "contextual") agent
                event (snd ce) = (snd ce, Ok tt)).
  { unfold ALogger.export_to_otel, tracing_off in *.
    destruct Hoff1 as [-> | [O | (x & O & T)]]; [reflexivity| |].
    - rewrite O. now destruct (ALogger.enable_otel (fst (snd g))).
    - rewrite O. destruct (ALogger.enable_otel (fst (snd g))); [|reflexivity].
      unfold OTelExporter.emit_span. now rewrite T. }
  rewrite X. cbn [fst snd].
  rewrite console_logging_other_surface by discriminate.
  cbn [fst snd].
  destruct D1 as (F1 & I1 & IC1). destruct D2 as (F2 & I2 & IC2).
  repeat split; try congruence.
  unfold ALogger.get_logs. rewrite Hc1, Hc. reflexivity.
Qed.

End SpanExtras.

Lemma record_exports_one_span_witness :
  let l := ALogger.__init__ (py "logs") true false traced_world in
  let event := [(py "operation", VStr (py "retrieve")); (py "query", VNone)] in
  let res :=
    @ALogger.record example_builtins l (py "contextual") (py "agent") event
      (py "INFO") None None traced_world in
  spans (snd (fst res))
  = [mkSpan (py "agent.contextual")
       [ (py "surface", VStr (py "contextual"));
         (py "agent", VStr (py "agent"));
         (py "operation", VStr (py "retrieve")) ]]
  /\ files (snd (fst res)) (py "logs/contextual.jsonl") = None.
Proof.
  intros l event res. split; [|vm_compute; reflexivity].
  assert (Hon : tracing_on l)
    by (split; [reflexivity | eexists; split; reflexivity]).
  assert (Hev : Forall (fun kv => @raises_only_Exception example_builtins (snd kv))
                  event)
    by (repeat constructor; cbn; intros e H; discriminate).
  exact (proj1 (@record_exports_one_span example_builtins l (py "contextual")
                  (py "agent") event (py "INFO") None None traced_world
                  Hon eq_refl Hev)).
Defined.

Lemma record_without_tracer_witness :
  let l := ALogger.__init__ (py "logs") true false example_world in
  let res :=
    @ALogger.record example_builtins l (py "operational") (py "agent")
      [(py "method", VStr (py "run")); (py "status", VStr (py "start"))]
      (py "INFO") None None example_world in
  ALogger.enable_otel l = true /\ spans (snd (fst res)) = [].
Proof.
  intros l res. split; [reflexivity|].
  assert (Hoff : tracing_off l)
    by (right; right; eexists; split; reflexivity).
  exact (proj1 (@record_without_tracer example_builtins l (py "operational")
                  (py "agent") _ (py "INFO") None None example_world Hoff)).
Defined.

Lemma record_tracer_failure_warned_witness :
  let l := ALogger.__init__ (py "logs") true false failing_tracer_world in
  let res :=
    @ALogger.record example_builtins l (py "cognitive") (py "agent")
      [(py "thought", VStr (py "plan"))] (py "INFO") None None
      failing_tracer_world in
  spans (snd (fst res)) = []
  /\ In (WARNING, py "[OTEL] Failed to emit span: collector down")
       (console (snd (fst res)))
  /\ snd res = Ok tt.
Proof.
  intros l res.
  assert (Hon : tracing_on l)
    by (split; [reflexivity | eexists; split; reflexivity]).
  destruct (@record_tracer_failure_warned example_builtins l (py "cognitive")
              (py "agent") [(py "thought", VStr (py "plan"))] (py "INFO")
              None None failing_tracer_world _ Hon eq_refl eq_refl)
    as (H1 & H2 & H3 & _).
  split; [exact H1|]. split; [exact H2|]. apply H3. discriminate.
Defined.

Lemma record_contextual_dropped_witness :
  let l := ALogger.__init__ (py "logs") false false example_world in
  let res :=
    @ALogger.record_contextual example_builtins l (py "agent") (py "retrieve")
      VNone VNone (VStr (py "q")) VNone VNone VNone VNone VNone VNone VNone
      (py "INFO") None None example_world in
  snd res = Ok tt
  /\ fst (ALogger.get_logs (fst (fst res)) None (snd (fst res))) = [].
Proof.
  intros l res. split; [|vm_compute; reflexivity].
  assert (Hoff : tracing_off l) by (now left).
  exact (proj1 (@record_contextual_dropped example_builtins l (py "agent")
                  (py "retrieve") VNone VNone (VStr (py "q")) VNone VNone
                  VNone VNone VNone VNone VNone (py "INFO") None None
                  example_world eq_refl Hoff)).
Defined.

(* ================================================================== *)
(** * The wrapper around a method that returns *)
(* ================================================================== *)

Section WrapperExtras.

Context {B : PyBuiltins}.

Lemma result_summary_is_str (result summary : pyval) :
  result_summary_of result = Ok summary -> exists x, summary = VStr x.
Proof.
  unfold result_summary_of.
  destruct (bool_of result) as [[|]|e0]; [| |discriminate];
    destruct (str_of result) as [s|e]; try discriminate.
  - destruct (100 <? length s); intros H; injection H as <-; eauto.
  - intros H; injection H as <-; eauto.
Qed.

(** X17.  A wrapped method that returns, in a world where no file opening
    fails and the tracer is safe: when the summary of the result can be
    computed (neither the truth test of the result nor [str(result)]
    raises) and the result carries no reasoning (it is no string, or a
    string without a pair of markers or with nothing but blanks between
    them), the caller receives the result itself, and the operational
    file gains the start event, the events of the method, and one
    complete event at level INFO with the summary of the result and the
    name of its type; no cognitive event is recorded and the heap and the
    output are as the method left them. *)
Theorem wrapped_call_returns
    (original_method : list pyval -> list (pystr * pyval) -> State
                       -> State * outcome pyval)
    (agent_name method_name : pystr) (args : list pyval)
    (kwargs : list (pystr * pyval)) (st st2 : State)
    (result summary : pyval) (inner : list pyval) :
  (exists l, _global_logger st = Some l) ->
  quiet (world st) ->
  let st1 := fst (fst (wrapper_begin agent_name method_name args kwargs st)) in
  original_method args kwargs st1 = (st2, Ok result) ->
  same_sinks st1 st2 ->
  quiet (world st2) ->
  operational_docs st2 = operational_docs st1 ++ inner ->
  result_summary_of result = Ok summary ->
  no_reasoning result ->
  let res :=
    logged_wrapper original_method agent_name method_name args kwargs st in
  snd res = Ok result
  /\ heap (fst res) = heap st2
  /\ stdout (fst res) = stdout st2
  /\ exists e_start e_complete,
       operational_docs (fst res)
       = operational_docs st ++ e_start :: inner ++ [e_complete]
       /\ event_field (py "status") e_start = Some (VStr (py "start"))
       /\ entry_field (py "agent") e_complete = Some (VStr agent_name)
       /\ entry_field (py "level") e_complete = Some (VStr (py "INFO"))
       /\ event_field (py "method") e_complete = Some (VStr method_name)
       /\ event_field (py "status") e_complete = Some (VStr (py "complete"))
       /\ event_field (py "result_summary") e_complete = Some summary
       /\ event_field (py "error") e_complete = Some VNone
       /\ event_field (py "metadata") e_complete
          = Some (VDict [(py "result_type", VStr (result_type_of result))])
       /\ (distinct_sinks st2 ->
           cognitive_docs (fst res) = cognitive_docs st2).
Proof.
  intros Hl Hq. cbn zeta. intros Horig Hss Hq2 Hinner Hsum Hno.
  unfold logged_wrapper.
  pose proof (wrapper_begin_spec agent_name method_name args kwargs st Hl Hq)
    as (B1 & _ & _ & (id & ts & t & s & B4 & _)).
  cbn zeta in B1, B4.
  destruct (wrapper_begin agent_name method_name args kwargs st)
    as [[st1 t0] r].
  cbn [fst snd] in *. subst r.
  unfold wrapper_try. rewrite Horig. unfold time_time.
  set (w0 := tick (world st2)).
  destruct (clock_read st2 w0 eq_refl eq_refl eq_refl
              (same_sinks_logger _ _ Hss) Hq2)
    as (Q0 & S0 & O0 & C0 & D0).
  destruct (same_sinks_logger _ _ S0) as (l0 & Hl0).
  rewrite Hl0, Hsum.
  destruct (result_summary_is_str result summary Hsum) as (x & ->).
  pose proof (global_record_operational (set_world w0 st2) agent_name
                method_name (py "complete")
                (VFloat (time_src (world st2) (clock_ctr (world st2)) - t0)%Z)
                (VStr x) VNone
                (VDict [(py "result_type", VStr (result_type_of result))])
                (py "INFO") (ex_intro _ l0 Hl0) Q0 I I I eq_refl)
    as (R1 & _ & _ & R4 & R5 & (id' & ts' & t' & u' & R6 & R7)).
  cbn zeta in R1, R4, R5, R6, R7.
  destruct (with_global_logger _ _ (set_world w0 st2)) as [st3 r3].
  cbn [fst snd] in *. subst r3.
  assert (Hret :
            match result with
            | VStr _ =>
                let (main_output, reasoning) :=
                  _extract_reasoning_trace result in
                match reasoning with
                | Some (c :: cs) =>
                    match
                      with_global_logger (py "record_cognitive")
                        (fun l =>
                           ALogger.record_cognitive l agent_name reasoning
                             VNone VNone VNone VNone
                             (Some (py "Execute " ++ method_name))
                             (Some (py "agent_method"))
                             VNone VNone VNone (py "INFO") None None)
                        st3
                    with
                    | (st, Raise e) => (st, Raise e)
                    | (st, Ok _) => (st, Ok main_output)
                    end
                | _ => (st3, Ok result)
                end
            | _ => (st3, Ok result)
            end = (st3, Ok result)).
  { destruct result; try reflexivity. cbn [no_reasoning] in Hno.
    destruct (_extract_reasoning_trace (VStr s0)) as [main [[|c cs]|]];
      cbn [snd] in Hno; try reflexivity.
    destruct Hno as [Hno|Hno]; discriminate. }
  rewrite Hret. cbn [fst snd].
  split; [reflexivity|]. split; [exact R4|]. split; [exact R5|].
  eexists. eexists. split.
  - rewrite R6, O0, Hinner, B4, <- !app_assoc. reflexivity.
  - repeat split; try reflexivity. intros Hd. rewrite (R7 (D0 Hd)). exact C0.
Qed.

(** X18.  The wrapper computes the summary of the result inside its
    [try]: when the method returns a result on which the truth test or
    [str] raises an [Exception], the caller receives that exception
    instead of the result, and the call is logged as failed: after the
    start event and the events of the method comes one error event at
    level ERROR, and no complete event. *)
Theorem wrapped_call_summary_failure
    (original_method : list pyval -> list (pystr * pyval) -> State
                       -> State * outcome pyval)
    (agent_name method_name : pystr) (args : list pyval)
    (kwargs : list (pystr * pyval)) (st st2 : State)
    (result : pyval) (e : exc) (inner : list pyval) :
  (exists l, _global_logger st = Some l) ->
  quiet (world st) ->
  let st1 := fst (fst (wrapper_begin agent_name method_name args kwargs st)) in
  original_method args kwargs st1 = (st2, Ok result) ->
  same_sinks st1 st2 ->
  quiet (world st2) ->
  operational_docs st2 = operational_docs st1 ++ inner ->
  result_summary_of result = Raise e ->
  exc_is_Exception e = true ->
  let res :=
    logged_wrapper original_method agent_name method_name args kwargs st in
  snd res = Raise e
  /\ exists e_start e_error,
       operational_docs (fst res)
       = operational_docs st ++ e_start :: inner ++ [e_error]
       /\ event_field (py "status") e_start = Some (VStr (py "start"))
       /\ event_field (py "status") e_error = Some (VStr (py "error"))
       /\ entry_field (py "level") e_error = Some (VStr (py "ERROR"))
       /\ event_field (py "error") e_error
          = Some (VStr (exc_type e ++ py ": " ++ exc_msg e)).
Proof.
  intros Hl Hq. cbn zeta. intros Horig Hss Hq2 Hinner Hsum Hexc.
  unfold logged_wrapper.
  pose proof (wrapper_begin_spec agent_name method_name args kwargs st Hl Hq)
    as (B1 & _ & _ & (id & ts & t & s & B4 & _)).
  cbn zeta in B1, B4.
  destruct (wrapper_begin agent_name method_name args kwargs st)
    as [[st1 t0] r].
  cbn [fst snd] in *. subst r.
  unfold wrapper_try. rewrite Horig. unfold time_time.
  set (w0 := tick (world st2)).
  destruct (clock_read st2 w0 eq_refl eq_refl eq_refl
              (same_sinks_logger _ _ Hss) Hq2)
    as (Q0 & S0 & O0 & _ & _).
  destruct (same_sinks_logger _ _ S0) as (l0 & Hl0).
  rewrite Hl0, Hsum, Hexc.
  pose proof (wrapper_except_spec agent_name method_name t0 args kwargs e
                (set_world w0 st2) (ex_intro _ l0 Hl0) Q0)
    as (X1 & (id' & ts' & t' & s' & d' & X4 & _)).
  cbn zeta in X1, X4.
  destruct (wrapper_except agent_name method_name t0 args kwargs e
              (set_world w0 st2)) as [st3 r3].
  cbn [fst snd] in *. split; [exact X1|].
  eexists. eexists. split.
  - rewrite X4, O0, Hinner, B4, <- !app_assoc. reflexivity.
  - repeat split; reflexivity.
Qed.

End WrapperExtras.

Lemma wrapped_call_returns_witness :
  let res :=
    @logged_wrapper example_builtins echo_method (py "agent") (py "run")
      [VInt 42] [] example_state in
  snd res = Ok (VInt 42)
  /\ map (event_field (py "status")) (operational_docs (fst res))
     = [Some (VStr (py "start")); Some (VStr (py "complete"))]
  /\ map (event_field (py "result_summary")) (operational_docs (fst res))
     = [Some VNone; Some (VStr (py "42"))].
Proof.
  cbn zeta.
  assert (Hq : quiet (world example_state))
    by (split; [intros n; reflexivity | intros n e H; discriminate]).
  pose proof (@wrapped_call_returns example_builtins echo_method
                (py "agent") (py "run") [VInt 42] [] example_state _
                (VInt 42) (VStr (py "42")) []
                (ex_intro _ _ eq_refl) Hq eq_refl) as H.
  cbn zeta in H.
  assert (Hs : same_sinks
                 (fst (fst (@wrapper_begin example_builtins (py "agent")
                              (py "run") [VInt 42] [] example_state)))
                 (fst (fst (@wrapper_begin example_builtins (py "agent")
                              (py "run") [VInt 42] [] example_state))))
    by (vm_compute; repeat split).
  assert (Hq1 : quiet
                  (world (fst (fst (@wrapper_begin example_builtins (py "agent")
                                      (py "run") [VInt 42] [] example_state)))))
    by (split; [intros n; reflexivity | intros n e E; discriminate]).
  specialize (H Hs Hq1 (eq_sym (app_nil_r _)) eq_refl I).
  destruct H as (H1 & _).
  split; [exact H1|]. split; vm_compute; reflexivity.
Defined.

Lemma wrapped_call_summary_failure_witness :
  let res :=
    @logged_wrapper example_builtins echo_method (py "agent") (py "run")
      [VObj (py "Unprintable") true] [] example_state in
  snd res = Raise (mkExc (py "RuntimeError") (py "cannot print") true)
  /\ map (event_field (py "status")) (operational_docs (fst res))
     = [Some (VStr (py "start")); Some (VStr (py "error"))].
Proof.
  cbn zeta.
  assert (Hq : quiet (world example_state))
    by (split; [intros n; reflexivity | intros n e H; discriminate]).
  pose proof (@wrapped_call_summary_failure example_builtins echo_method
                (py "agent") (py "run") [VObj (py "Unprintable") true] []
                example_state _ (VObj (py "Unprintable") true)
                (mkExc (py "RuntimeError") (py "cannot print") true) []
                (ex_intro _ _ eq_refl) Hq eq_refl) as H.
  cbn zeta in H.
  assert (Hs : same_sinks
                 (fst (fst (@wrapper_begin example_builtins (py "agent")
                              (py "run") [VObj (py "Unprintable") true] []
                              example_state)))
                 (fst (fst (@wrapper_begin example_builtins (py "agent")
                              (py "run") [VObj (py "Unprintable") true] []
                              example_state))))
    by (vm_compute; repeat split).
  assert (Hq1 : quiet
                  (world (fst (fst (@wrapper_begin example_builtins (py "agent")
                                      (py "run")
                                      [VObj (py "Unprintable") true] []
                                      example_state)))))
    by (split; [intros n; reflexivity | intros n e E; discriminate]).
  specialize (H Hs Hq1 (eq_sym (app_nil_r _)) eq_refl eq_refl).
  destruct H as (H1 & _).
  split; [exact H1|]. vm_compute. reflexivity.
Defined.

(** A method that returns a DataFrame: the truth test of the result
    raises inside the [try], so the call is logged as failed and the
    caller receives the [ValueError]. *)
Example wrapped_call_truth_test_raises :
  let res :=
    @logged_wrapper example_builtins echo_method (py "agent") (py "run")
      [VObj (py "DataFrame") true] [] example_state in
  @result_summary_of example_builtins (VObj (py "DataFrame") true)
  = Raise (mkExc (py "ValueError")
             (py "The truth value of a DataFrame is ambiguous.") true)
  /\ snd res
     = Raise (mkExc (py "ValueError")
                (py "The truth value of a DataFrame is ambiguous.") true)
  /\ map (event_field (py "status")) (operational_docs (fst res))
     = [Some (VStr (py "start")); Some (VStr (py "error"))].
Proof. cbn zeta. repeat split; vm_compute; reflexivity. Qed.

(* ================================================================== *)
(** * What instrument_agent does to the agent *)
(* ================================================================== *)

Lemma getattr_setattr (o : pyobject) (k a : pystr) (v : attr) :
  getattr (setattr o k v) a = if pystr_eqb a k then Some v else getattr o a.
Proof.
  unfold getattr. induction o as [|[k' v'] o IH]; cbn [setattr assoc_get].
  - reflexivity.
  - destruct (pystr_eqb k k') eqn:E; cbn [assoc_get].
    + apply pystr_eqb_eq in E. subst k'. now destruct (pystr_eqb a k).
    + destruct (pystr_eqb a k') eqn:E'.
      * apply pystr_eqb_eq in E'. subst k'.
        now rewrite (pystr_eqb_sym a k), E.
      * exact IH.
Qed.

Lemma setattr_names (o : pyobject) (k : pystr) (v : attr) :
  getattr o k <> None -> map fst (setattr o k v) = map fst o.
Proof.
  unfold getattr. induction o as [|[k' v'] o IH]; cbn [setattr assoc_get map fst];
    intros H; [contradiction|].
  destruct (pystr_eqb k k'); cbn [map fst]; [reflexivity|].
  now rewrite IH.
Qed.

Lemma wrapped_inside (n : nat) (name a : pystr) (c : callable) :
  wrapped n name a (LoggedWrapper c name a)
  = LoggedWrapper (wrapped n name a c) name a.
Proof. induction n as [|n IH]; cbn [wrapped]; [reflexivity | now rewrite IH]. Qed.

Lemma wrap_method_getattr (name : pystr) (o : pyobject) (m a : pystr) :
  getattr (wrap_method name o m) a
  = match getattr o a with
    | Some (AttrCallable c) =>
        Some (AttrCallable (if pystr_eqb a m then LoggedWrapper c name a else c))
    | other => other
    end.
Proof.
  unfold wrap_method.
  destruct (getattr o m) as [[v|c]|] eqn:E.
  - destruct (getattr o a) as [[v'|c']|] eqn:E'; try reflexivity.
    destruct (pystr_eqb a m) eqn:Eq; [|reflexivity].
    apply pystr_eqb_eq in Eq. congruence.
  - rewrite getattr_setattr. destruct (pystr_eqb a m) eqn:Eq.
    + apply pystr_eqb_eq in Eq. subst m. now rewrite E.
    + now destruct (getattr o a) as [[v'|c']|].
  - destruct (getattr o a) as [[v'|c']|] eqn:E'; try reflexivity.
    destruct (pystr_eqb a m) eqn:Eq; [|reflexivity].
    apply pystr_eqb_eq in Eq. congruence.
Qed.

Lemma wrap_method_names (name : pystr) (o : pyobject) (m : pystr) :
  map fst (wrap_method name o m) = map fst o.
Proof.
  unfold wrap_method. destruct (getattr o m) as [[v|c]|] eqn:E; try reflexivity.
  apply setattr_names. congruence.
Qed.

Lemma wrapping_loop (name : pystr) (targets : list pystr) (o : pyobject) :
  (forall a, getattr (fold_left (wrap_method name) targets o) a
             = instrumented name targets o a)
  /\ map fst (fold_left (wrap_method name) targets o) = map fst o.
Proof.
  revert o. induction targets as [|m ts IH]; intros o; cbn [fold_left].
  - split; [|reflexivity]. intros a. unfold instrumented.
    now destruct (getattr o a) as [[v|c]|].
  - destruct (IH (wrap_method name o m)) as (G & N). split.
    + intros a. rewrite G. unfold instrumented, times_listed.
      rewrite wrap_method_getattr. cbn [filter].
      destruct (getattr o a) as [[v|c]|]; try reflexivity.
      destruct (pystr_eqb a m); cbn [length wrapped]; [|reflexivity].
      now rewrite wrapped_inside.
    + now rewrite N, wrap_method_names.
Qed.

Lemma instrument_agent_heap {B : PyBuiltins} (agent : nat) (name : pystr)
    (methods : option (list pystr)) (st : State) :
  _global_logger st <> None ->
  let st' := fst (instrument_agent agent name methods st) in
  heap st' agent
  = fold_left (wrap_method name) (target_methods_of (heap st agent) methods)
      (heap st agent)
  /\ (forall r, r <> agent -> heap st' r = heap st r)
  /\ world st' = world st
  /\ _global_logger st' = _global_logger st.
Proof.
  intros Hl. cbn zeta. unfold instrument_agent.
  destruct (_global_logger st) as [l|] eqn:E; [|contradiction].
  destruct (target_methods_of (heap st agent) methods) as [|m ts] eqn:T.
  - cbn. rewrite E. auto.
  - assert (H : forall st0 : State,
                 heap (heap_set agent
                         (fold_left (wrap_method name) (m :: ts)
                            (heap st agent)) st0) agent
                 = fold_left (wrap_method name) (m :: ts) (heap st agent))
      by (intros st0; cbn; now rewrite Nat.eqb_refl).
    destruct (py_str (VList (map VStr (m :: ts)))) as [listing|e];
      cbn [fst print heap world _global_logger heap_set].
    + rewrite Nat.eqb_refl. repeat split; auto.
      intros r Hr. apply Nat.eqb_neq in Hr. now rewrite Hr.
    + rewrite Nat.eqb_refl. repeat split; auto.
      intros r Hr. apply Nat.eqb_neq in Hr. now rewrite Hr.
Qed.

(** X19.  With the logger initialised, [instrument_agent] changes the
    agent in place and nothing else: every attribute keeps its name and
    its place; a callable attribute that the target list names k times is
    under k wrappers that carry the agent name and the attribute name (one
    wrapper for a name listed once, none for a name that is no target);
    data attributes, the other objects, the world and the logger are as
    they were. *)
Theorem instrument_agent_wraps {B : PyBuiltins} (agent : nat) (name : pystr)
    (methods : option (list pystr)) (st : State) :
  _global_logger st <> None ->
  let st' := fst (instrument_agent agent name methods st) in
  let targets := target_methods_of (heap st agent) methods in
  (forall a, getattr (heap st' agent) a
             = instrumented name targets (heap st agent) a)
  /\ map fst (heap st' agent) = map fst (heap st agent)
  /\ (forall r, r <> agent -> heap st' r = heap st r)
  /\ world st' = world st
  /\ _global_logger st' = _global_logger st.
Proof.
  intros Hl. cbn zeta.
  destruct (instrument_agent_heap agent name methods st Hl)
    as (H & Ho & Hw & Hg).
  cbn zeta in H. rewrite H.
  destruct (wrapping_loop name (target_methods_of (heap st agent) methods)
              (heap st agent)) as (G & N).
  auto.
Qed.

Lemma times_listed_once (a : pystr) (l : list pystr) :
  NoDup l -> In a l -> times_listed a l = 1.
Proof.
  unfold times_listed. induction 1 as [|x l Hx Hnd IH]; intros Hin;
    [destruct Hin|].
  cbn [filter]. destruct (pystr_eqb a x) eqn:E.
  - apply pystr_eqb_eq in E. subst x. cbn [length]. f_equal.
    rewrite filter_all_false; [reflexivity|].
    intros y Hy. apply pystr_eqb_neq. intros ->. contradiction.
  - destruct Hin as [->|Hin]; [now rewrite pystr_eqb_refl in E|]. now apply IH.
Qed.

Lemma getattr_in (o : pyobject) (a : pystr) (v : attr) :
  getattr o a = Some v -> In a (map fst o).
Proof.
  unfold getattr. induction o as [|[k x] o IH]; cbn [assoc_get map fst];
    [discriminate|].
  destruct (pystr_eqb a k) eqn:E.
  - apply pystr_eqb_eq in E. now left.
  - intros H. right. now apply IH.
Qed.

Lemma public_method_listed_once (o : pyobject) (a : pystr) (c : callable) :
  NoDup (map fst o) ->
  starts_with (py "_") a = false ->
  getattr o a = Some (AttrCallable c) ->
  times_listed a (target_methods_of o None) = 1.
Proof.
  intros Hnd Hp Hg. unfold target_methods_of. apply times_listed_once.
  - now apply NoDup_filter.
  - apply filter_In. split; [exact (getattr_in _ _ _ Hg)|].
    unfold has_callable. now rewrite Hp, Hg.
Qed.

(** X20.  Instrumenting an agent twice wraps the wrappers: each public
    method is then under two wrappers, the one of the second call
    outermost, so that every call of it is logged twice. *)
Theorem instrument_agent_twice {B : PyBuiltins} (agent : nat)
    (name1 name2 : pystr) (st : State) (a : pystr) (c : callable) :
  _global_logger st <> None ->
  NoDup (map fst (heap st agent)) ->
  starts_with (py "_") a = false ->
  getattr (heap st agent) a = Some (AttrCallable c) ->
  let st1 := fst (instrument_agent agent name1 None st) in
  let st2 := fst (instrument_agent agent name2 None st1) in
  getattr (heap st1 agent) a = Some (AttrCallable (LoggedWrapper c name1 a))
  /\ getattr (heap st2 agent) a
     = Some (AttrCallable
               (LoggedWrapper (LoggedWrapper c name1 a) name2 a)).
Proof.
  intros Hl Hnd Hp Hg. cbn zeta.
  destruct (instrument_agent_heap agent name1 None st Hl)
    as (H1 & _ & _ & L1).
  cbn zeta in H1.
  destruct (wrapping_loop name1 (target_methods_of (heap st agent) None)
              (heap st agent)) as (G1 & N1).
  rewrite <- H1 in G1, N1.
  assert (E1 : getattr (heap (fst (instrument_agent agent name1 None st))
                          agent) a
               = Some (AttrCallable (LoggedWrapper c name1 a))).
  { rewrite G1. unfold instrumented.
    now rewrite Hg, (public_method_listed_once _ _ _ Hnd Hp Hg). }
  split; [exact E1|].
  set (st1 := fst (instrument_agent agent name1 None st)) in *.
  assert (Hl1 : _global_logger st1 <> None) by now rewrite L1.
  destruct (instrument_agent_heap agent name2 None st1 Hl1) as (H2 & _).
  cbn zeta in H2.
  destruct (wrapping_loop name2 (target_methods_of (heap st1 agent) None)
              (heap st1 agent)) as (G2 & _).
  rewrite H2, G2. unfold instrumented. rewrite E1.
  assert (Hnd1 : NoDup (map fst (heap st1 agent))) by now rewrite N1.
  now rewrite (public_method_listed_once _ _ _ Hnd1 Hp E1).
Qed.

Lemma instrument_agent_wraps_witness :
  let res :=
    @instrument_agent example_builtins 1 (py "worker") None worker_state in
  getattr (heap (fst res) 1) (py "run")
  = Some (AttrCallable (LoggedWrapper (Native 1) (py "worker") (py "run")))
  /\ getattr (heap (fst res) 1) (py "_helper")
     = Some (AttrCallable (Native 7))
  /\ map fst (heap (fst res) 1) = map fst (heap worker_state 1).
Proof.
  intros res.
  assert (Hl : _global_logger worker_state <> None) by discriminate.
  destruct (@instrument_agent_wraps example_builtins 1 (py "worker") None
              worker_state Hl) as (G & N & _).
  split; [exact (G (py "run"))|]. split; [exact (G (py "_helper")) | exact N].
Defined.

Lemma instrument_agent_twice_witness :
  let st1 :=
    fst (@instrument_agent example_builtins 1 (py "first") None worker_state) in
  let st2 := fst (@instrument_agent example_builtins 1 (py "second") None st1) in
  getattr (heap st2 1) (py "run")
  = Some (AttrCallable
            (LoggedWrapper (LoggedWrapper (Native 1) (py "first") (py "run"))
               (py "second") (py "run"))).
Proof.
  intros st1 st2.
  assert (Hl : _global_logger worker_state <> None) by discriminate.
  assert (Hnd : NoDup (map fst (heap worker_state 1))).
  { cbn. repeat constructor; cbn; intros H;
      repeat (destruct H as [H|H]; [discriminate H|]); exact H. }
  exact (proj2 (@instrument_agent_twice example_builtins 1 (py "first")
                  (py "second") worker_state (py "run") (Native 1)
                  Hl Hnd eq_refl eq_refl)).
Defined.

(* ================================================================== *)
(** * The exporters *)
(* ================================================================== *)

Lemma jsonl_read_docs (self : JSONLExporter.t) (surface : pystr) (st : State) :
  no_io_fault (world st) ->
  fst (JSONLExporter.read self surface st)
  = match JSONLExporter.file_of self surface with
    | Some p => ALogger.existing_docs (world st) p
    | None => []
    end.
Proof.
  intros H. unfold JSONLExporter.read, ALogger.existing_docs, open_file.
  destruct (JSONLExporter.file_of self surface) as [p|]; [|reflexivity].
  destruct (files (world st) p) as [docs|]; [|reflexivity].
  now rewrite H.
Qed.

Lemma jsonl_export_docs (self : JSONLExporter.t) (surface p : pystr)
    (entry doc : pyval) (st : State) :
  io_fault (world st) (io_ctr (world st)) = None ->
  JSONLExporter.file_of self surface = Some p ->
  to_json entry = Ok doc ->
  let st' := JSONLExporter.export self surface entry st in
  (forall q,
     ALogger.existing_docs (world st') q
     = if pystr_eqb q p then ALogger.existing_docs (world st) p ++ [doc]
       else ALogger.existing_docs (world st) q)
  /\ io_fault (world st') = io_fault (world st)
  /\ stdout st' = stdout st.
Proof.
  intros Hio Hp Hj. cbn zeta. unfold JSONLExporter.export, open_file.
  rewrite Hp, Hio, Hj. cbn [world set_world stdout]. split; [|now split].
  intros q. rewrite existing_docs_update.
  destruct (pystr_eqb q p); reflexivity.
Qed.

Lemma jsonl_file_of_inj (d s s' p : pystr) :
  JSONLExporter.file_of (JSONLExporter.__init__ d) s = Some p ->
  JSONLExporter.file_of (JSONLExporter.__init__ d) s' = Some p ->
  s = s'.
Proof.
  unfold JSONLExporter.file_of. cbn [JSONLExporter.__init__
    JSONLExporter.operational_file JSONLExporter.cognitive_file].
  destruct (pystr_eqb s (py "operational")) eqn:E1;
    destruct (pystr_eqb s' (py "operational")) eqn:E2.
  - apply pystr_eqb_eq in E1, E2. congruence.
  - destruct (pystr_eqb s' (py "cognitive")); [|discriminate].
    intros H1 H2. rewrite <- H2 in H1. injection H1 as H1.
    apply path_join_inj in H1. discriminate.
  - destruct (pystr_eqb s (py "cognitive")); [|discriminate].
    intros H1 H2. rewrite <- H2 in H1. injection H1 as H1.
    apply path_join_inj in H1. discriminate.
  - destruct (pystr_eqb s (py "cognitive")) eqn:E3; [|discriminate].
    destruct (pystr_eqb s' (py "cognitive")) eqn:E4; [|discriminate].
    apply pystr_eqb_eq in E3, E4. congruence.
Qed.

(** X21.  Round trip of the JSONL exporter: when no file operation
    fails, an entry that has a JSON document, exported on the operational
    or the cognitive surface, is read back as the last entry of that
    surface; what the other surface reads is unchanged, and nothing is
    printed. *)
Theorem jsonl_export_then_read (d surface : pystr) (entry doc : pyval)
    (st : State) :
  no_io_fault (world st) ->
  surface = py "operational" \/ surface = py "cognitive" ->
  to_json entry = Ok doc ->
  let self := JSONLExporter.__init__ d in
  let st' := JSONLExporter.export self surface entry st in
  fst (JSONLExporter.read self surface st')
  = fst (JSONLExporter.read self surface st) ++ [doc]
  /\ (forall other,
        other <> surface ->
        fst (JSONLExporter.read self other st')
        = fst (JSONLExporter.read self other st))
  /\ stdout st' = stdout st.
Proof.
  intros Hio Hs Hj. cbn zeta.
  assert (Hp : exists p,
             JSONLExporter.file_of (JSONLExporter.__init__ d) surface = Some p)
    by (destruct Hs as [-> | ->]; eexists; reflexivity).
  destruct Hp as (p & Hp).
  destruct (jsonl_export_docs (JSONLExporter.__init__ d) surface p entry doc
              st (Hio _) Hp Hj) as (D & I & O).
  cbn zeta in D, I, O.
  assert (Hio' : no_io_fault
                   (world (JSONLExporter.export (JSONLExporter.__init__ d)
                             surface entry st)))
    by (apply (no_io_fault_same (world st)); assumption).
  split; [|split; [|exact O]].
  - rewrite !jsonl_read_docs by assumption. rewrite Hp, D.
    now rewrite pystr_eqb_refl.
  - intros other Hne. rewrite !jsonl_read_docs by assumption.
    destruct (JSONLExporter.file_of (JSONLExporter.__init__ d) other)
      as [q|] eqn:Hq; [|reflexivity].
    rewrite D. destruct (pystr_eqb q p) eqn:E; [|reflexivity].
    apply pystr_eqb_eq in E. subst q. exfalso. apply Hne.
    exact (jsonl_file_of_inj d other surface p Hq Hp).
Qed.

(** X22.  The JSONL exporter of a directory reads the files of the logger
    of that directory: for the operational and the cognitive surface it
    returns what [get_logs] returns.  For every other surface it reads
    nothing and [export] does nothing, where the logger writes and reads
    the contextual file and sends unknown surfaces to the operational
    one. *)
Theorem jsonl_reads_logger_files (d : pystr) (otel ctx : bool) (w0 : World)
    (surface : pystr) (st : State) :
  no_io_fault (world st) ->
  let l := ALogger.__init__ d otel ctx w0 in
  let x := JSONLExporter.__init__ d in
  (surface = py "operational" \/ surface = py "cognitive" ->
   fst (JSONLExporter.read x surface st)
   = fst (ALogger.get_logs l (Some surface) (world st)))
  /\ (surface <> py "operational" -> surface <> py "cognitive" ->
      fst (JSONLExporter.read x surface st) = []
      /\ forall entry, JSONLExporter.export x surface entry st = st).
Proof.
  intros Hio. cbn zeta. split.
  - intros Hs. rewrite jsonl_read_docs by assumption.
    destruct Hs as [-> | ->].
    + now rewrite get_logs_operational.
    + now rewrite get_logs_cognitive.
  - intros H1 H2.
    assert (E : JSONLExporter.file_of (JSONLExporter.__init__ d) surface = None).
    { unfold JSONLExporter.file_of.
      now rewrite (pystr_eqb_neq _ _ H1), (pystr_eqb_neq _ _ H2). }
    unfold JSONLExporter.read, JSONLExporter.export. rewrite E. auto.
Qed.

(** X23.  The OTLP exporter keeps the failures of the bridge from its
    caller: with a tracer that fails with nothing but [Exception]s, and
    [str] and [repr] raising nothing but [Exception]s on the payload,
    [export] returns.  Without a tracer it does nothing; when the span
    cannot be started, no span is ended and one line is printed;
    otherwise exactly one span is ended and nothing is printed. *)
Theorem otlp_export_returns {B : PyBuiltins} (self : OTLPExporter.t)
    (surface agent : pystr) (event : list (pystr * pyval)) (st : State) :
  tracer_safe (world st) ->
  Forall (fun kv => raises_only_Exception (snd kv)) event ->
  let res := OTLPExporter.export self surface agent event st in
  let started := tracer_fault (world st) (tracer_ctr (world st)) in
  snd res = Ok tt
  /\ (OTelExporter.tracer (OTLPExporter.exporter self) = false ->
      fst res = st)
  /\ (OTelExporter.tracer (OTLPExporter.exporter self) = true ->
      forall e, started = Some e ->
        spans (world (fst res)) = spans (world st)
        /\ stdout (fst res)
           = stdout st ++ [py "Failed to export via OTLP: " ++ exc_msg e])
  /\ (OTelExporter.tracer (OTLPExporter.exporter self) = true ->
      started = None ->
        spans (world (fst res))
        = spans (world st)
          ++ [mkSpan (agent ++ py "." ++ surface)
                ([(py "surface", VStr surface); (py "agent", VStr agent)]
                 ++ expected_attrs event)]
        /\ stdout (fst res) = stdout st).
Proof.
  intros Ht Hev. cbn zeta.
  unfold OTLPExporter.export, OTelExporter.emit_span, start_span.
  destruct (OTelExporter.tracer (OTLPExporter.exporter self)); cbn [negb].
  - destruct (tracer_fault (world st) (tracer_ctr (world st))) as [e|] eqn:E.
    + rewrite (Ht _ _ E). cbn [fst snd]. split; [reflexivity|].
      split; [discriminate|]. split; [|discriminate].
      intros _ e' He'. injection He' as <-. split; reflexivity.
    + rewrite (set_event_attributes_all event _ Hev). cbn [fst snd].
      split; [reflexivity|]. split; [discriminate|].
      split; [discriminate|]. intros _ _. split; reflexivity.
  - cbn [fst snd]. split; [reflexivity|]. split.
    + intros _. now destruct st.
    + split; discriminate.
Qed.

Lemma jsonl_export_then_read_witness :
  let x := JSONLExporter.__init__ (py "logs") in
  let st := JSONLExporter.export x (py "cognitive") (VDict [(py "id", VInt 1)])
              example_state in
  let st' := JSONLExporter.export x (py "cognitive")
               (VDict [(py "id", VTuple [VInt 2])]) st in
  fst (JSONLExporter.read x (py "cognitive") st')
  = [VDict [(py "id", VInt 1)]; VDict [(py "id", VList [VInt 2])]].
Proof.
  intros x st st'.
  assert (Hio : no_io_fault (world st)) by (intros n; reflexivity).
  exact (proj1 (jsonl_export_then_read (py "logs") (py "cognitive")
                  (VDict [(py "id", VTuple [VInt 2])])
                  (VDict [(py "id", VList [VInt 2])]) st Hio
                  (or_intror eq_refl) eq_refl)).
Defined.

Lemma jsonl_reads_logger_files_witness :
  let l0 := ALogger.__init__ (py "logs") false true example_world in
  let s := @session example_builtins two_surface_calls (l0, example_world) in
  let st := mkState (snd s) (Some (fst s)) (fun _ => []) [] in
  fst (JSONLExporter.read (JSONLExporter.__init__ (py "logs"))
         (py "cognitive") st)
  = fst (ALogger.get_logs l0 (Some (py "cognitive")) (world st))
  /\ fst (JSONLExporter.read (JSONLExporter.__init__ (py "logs"))
            (py "cognitive") st) <> [].
Proof.
  intros l0 s st. split; [|vm_compute; discriminate].
  assert (Hio : no_io_fault (world st)) by (intros n; reflexivity).
  exact (proj1 (jsonl_reads_logger_files (py "logs") false true example_world
                  (py "cognitive") st Hio) (or_intror eq_refl)).
Defined.

Lemma otlp_export_returns_witness :
  let st := mkState failing_tracer_world None (fun _ => []) [] in
  let res :=
    @OTLPExporter.export example_builtins
      (OTLPExporter.__init__ failing_tracer_world) (py "operational")
      (py "agent") [(py "status", VStr (py "start"))] st in
  snd res = Ok tt
  /\ stdout (fst res) = [py "Failed to export via OTLP: collector down"].
Proof.
  intros st res.
  assert (Ht : tracer_safe (world st))
    by (intros n e H; injection H as <-; reflexivity).
  assert (Hev : Forall (fun kv => @raises_only_Exception example_builtins (snd kv))
                  [(py "status", VStr (py "start"))])
    by (repeat constructor; cbn; intros e H; discriminate).
  destruct (@otlp_export_returns example_builtins
              (OTLPExporter.__init__ failing_tracer_world) (py "operational")
              (py "agent") [(py "status", VStr (py "start"))] st Ht Hev)
    as (H1 & _ & H3 & _).
  split; [exact H1|]. exact (proj2 (H3 eq_refl _ eq_refl)).
Defined.
